(** * gomason: the signing engine, the build matrix and the pipeline run

    A shallow embedding of
      - [mason/signing.go]   (SignBinary, VerifyBinary, SignGPG, VerifyGPG),
      - [mason/testing.go]   (GovendorInstall, GovendorSync, GoTest, WholeShebang),
      - [mason/building.go]  (GoxInstall, Build; the variant WholeShebang calls),
      - [pkg/gomason/building.go] (GoxInstall, Build, BuildExtras),
    over a small model of the Go runtime services the code calls: the [os],
    [os/exec], [io/ioutil], [strings] and [github.com/pkg/errors] packages.

    Go functions become functions in a state monad over the operating-system
    state; a Go [error] result is an [option error] ([None] is [nil]); a
    run-time panic is an outcome of its own.  What the environment answers
    (which calls fail, what a spawned program leaves behind) is a parameter,
    so that every theorem holds for every environment.  Log output is not
    modelled; [verbose] is kept where it decides what is called. *)

From stdpp Require Import base strings gmap list.

Module Go.

(** ** Errors

    Messages are kept as the format literal of the source (escape sequences
    as written there) together with the operands handed to [fmt.Sprintf],
    [fmt.Errorf] or [errors.Wrapf]; nothing is rendered. *)
Inductive error : Type :=
| ErrSys (text : string)
    (* an error value made by the runtime or by an external program *)
| ErrNotExist (path : string)
    (* the error for which os.IsNotExist answers true *)
| ErrNew (format : string) (operands : list operand)
    (* errors.New, fmt.Errorf *)
| ErrWrap (cause : error) (format : string) (operands : list operand)
    (* errors.Wrap, errors.Wrapf *)
with operand : Type :=
| OpStr (s : string)
| OpErr (e : error).

(** [errors.Wrap(err, msg)] and [errors.Wrapf]: [nil] stays [nil]. *)
Definition Wrap (err : option error) (format : string) (operands : list operand)
  : option error :=
  match err with
  | None => None
  | Some cause => Some (ErrWrap cause format operands)
  end.

(** [os.IsNotExist(err)]. *)
Definition IsNotExist (err : option error) : bool :=
  match err with
  | Some (ErrNotExist _) => true
  | _ => false
  end.

(** ** Interface values: what a [map[string]interface{}] holds *)
Inductive value : Type :=
| VNil
| VString (s : string)
| VOther (dynamic_type : string).

(** [m[k]] on a [map[string]interface{}]: a missing key reads as the nil
    interface. *)
Definition index (m : gmap string value) (k : string) : value :=
  default VNil (m !! k).

(** ** Outcomes: a returned value or a run-time panic *)
Inductive result (A : Type) : Type :=
| Ok (a : A)
| Panic (reason : string).
Arguments Ok {A} a.
Arguments Panic {A} reason.

(** [v.(string)], the unchecked (one-result) type assertion. *)
Definition assert_string (v : value) : result string :=
  match v with
  | VString s => Ok s
  | VNil => Panic "interface conversion: interface {} is nil, not string"
  | VOther _ => Panic "interface conversion: interface {} is not string"
  end.

(** ** Strings *)

(** [strings.Split(s, sep)] for a one-byte separator, the only use the code
    makes of it (both call sites split on the slash). *)
Fixpoint Split (s : string) (sep : Ascii.ascii) : list string :=
  match s with
  | EmptyString => [EmptyString]
  | String c s' =>
      if Ascii.eqb c sep then EmptyString :: Split s' sep
      else match Split s' sep with
           | [] => [String c EmptyString]
           | p :: ps => String c p :: ps
           end
  end.

(** [strings.Join(elems, sep)]. *)
Definition Join (elems : list string) (sep : string) : string :=
  String.concat sep elems.

Definition slash : Ascii.ascii := Ascii.ascii_of_nat 47.

(** The double-quote byte, for the command lines the code assembles. *)
Definition dquote : string := String (Ascii.ascii_of_nat 34) EmptyString.

(** ** The operating system *)

Inductive node : Type :=
| Dir
| File (contents : string) (mode : Z).

(** An [exec.Cmd] as the code builds it: program, arguments, environment. *)
Record Cmd : Type := Command {
  cmd_name : string;
  cmd_args : list string;
  cmd_env : list string
}.

(** [cmd.Env = env]. *)
Definition set_env (env : list string) (c : Cmd) : Cmd :=
  Command (cmd_name c) (cmd_args c) env.

(** Every call the code makes into [os], [os/exec] and [io/ioutil]. *)
Inductive call : Type :=
| CallGetwd
| CallChdir (dir : string)
| CallStat (path : string)
| CallRename (oldpath newpath : string)
| CallRemoveAll (path : string)
| CallTempDir (dir prefix : string)
| CallReadFile (path : string)
| CallWriteFile (path contents : string) (perm : Z)
| CallLookPath (file : string)
| CallRun (c : Cmd).

(** The state a run acts on: the paths that exist, the working directory,
    and the calls made so far, oldest first. *)
Record OS : Type := mkOS {
  files : gmap string node;
  wd : string;
  trace : list call
}.

Definition set_files (fs : gmap string node) (st : OS) : OS :=
  mkOS fs (wd st) (trace st).
Definition set_wd (d : string) (st : OS) : OS :=
  mkOS (files st) d (trace st).
Definition record (c : call) (st : OS) : OS :=
  mkOS (files st) (wd st) (trace st ++ [c]).

(** What the environment decides: whether a call fails for a reason of its
    own, which names it hands out, what a spawned program prints and leaves
    on disk, and in which order [range] walks a map. *)
Record Sys : Type := mkSys {
  sys_environ : list string;
  sys_umask : Z;
  sys_fail : call -> OS -> option error;
  sys_which : string -> OS -> string;
  sys_tmpdir : string;
  sys_random : OS -> string;
  sys_exec : Cmd -> OS -> string * gmap string node;
  sys_range : gmap string string -> list (string * string)
}.

(** ** The monad of Go functions *)
Definition M (A : Type) : Type := OS -> result A * OS.

Definition ret {A : Type} (a : A) : M A := fun st => (Ok a, st).

Definition bind {A B : Type} (m : M A) (k : A -> M B) : M B :=
  fun st =>
    match m st with
    | (Ok a, st') => k a st'
    | (Panic reason, st') => (Panic reason, st')
    end.

(** A pure computation that may panic. *)
Definition lift {A : Type} (r : result A) : M A := fun st => (r, st).

(** [defer f(); body]: [f] runs when the function returns and also when it
    panics; its own result is dropped. *)
Definition defer {A B : Type} (deferred : M B) (body : M A) : M A :=
  fun st =>
    match body st with
    | (r, st') => (r, snd (deferred st'))
    end.

(** [for _, x := range l { body }] where the body may execute a [return]:
    the body answers [Some v] when it returns [v] from the enclosing
    function and [None] when it falls through to the next element. *)
Fixpoint for_range {A R : Type} (l : list A) (body : A -> M (option R))
  : M (option R) :=
  fun st =>
    match l with
    | [] => (Ok None, st)
    | x :: l' =>
        match body x st with
        | (Ok None, st') => for_range l' body st'
        | (Ok (Some v), st') => (Ok (Some v), st')
        | (Panic reason, st') => (Panic reason, st')
        end
    end.

End Go.

Export Go.

Notation "'let*' x ':=' c1 'in' c2" := (bind c1 (fun x => c2))
  (at level 10, x pattern, c1 at level 100, c2 at level 200,
   format "'[v' 'let*'  x  ':='  c1  'in' '/' c2 ']'").

(** ** The runtime calls, over an environment *)
Module Runtime.
Section Calls.
Context (sys : Sys).

(** [os.Environ()]. *)
Definition Environ : list string := sys_environ sys.

(** [os.Getwd()]. *)
Definition Getwd : M (string * option error) := fun st =>
  match sys_fail sys CallGetwd st with
  | Some e => (Ok (EmptyString, Some e), record CallGetwd st)
  | None => (Ok (wd st, None), record CallGetwd st)
  end.

(** [os.Chdir(dir)]. *)
Definition Chdir (dir : string) : M (option error) := fun st =>
  match sys_fail sys (CallChdir dir) st with
  | Some e => (Ok (Some e), record (CallChdir dir) st)
  | None => (Ok None, record (CallChdir dir) (set_wd dir st))
  end.

(** [_, err := os.Stat(path)]: only the error is ever used. *)
Definition Stat (path : string) : M (option error) := fun st =>
  match sys_fail sys (CallStat path) st with
  | Some e => (Ok (Some e), record (CallStat path) st)
  | None =>
      match files st !! path with
      | Some _ => (Ok None, record (CallStat path) st)
      | None => (Ok (Some (ErrNotExist path)), record (CallStat path) st)
      end
  end.

(** [os.Rename(oldpath, newpath)]. *)
Definition Rename (oldpath newpath : string) : M (option error) := fun st =>
  match sys_fail sys (CallRename oldpath newpath) st with
  | Some e => (Ok (Some e), record (CallRename oldpath newpath) st)
  | None =>
      match files st !! oldpath with
      | None =>
          (Ok (Some (ErrNotExist oldpath)), record (CallRename oldpath newpath) st)
      | Some n =>
          (Ok None,
           record (CallRename oldpath newpath)
             (set_files (<[newpath := n]> (delete oldpath (files st))) st))
      end
  end.

(** The paths [os.RemoveAll(path)] removes: [path] and all below it. *)
Definition under (path q : string) : bool :=
  String.eqb q path || String.prefix (path +:+ "/") q.

(** [os.RemoveAll(path)]; the empty path is accepted and removes nothing. *)
Definition RemoveAll (path : string) : M (option error) := fun st =>
  match sys_fail sys (CallRemoveAll path) st with
  | Some e => (Ok (Some e), record (CallRemoveAll path) st)
  | None =>
      if String.eqb path EmptyString
      then (Ok None, record (CallRemoveAll path) st)
      else (Ok None,
            record (CallRemoveAll path)
              (set_files (filter (fun kv => under path kv.1 = false) (files st)) st))
  end.

(** [ioutil.TempDir(dir, prefix)]: a new directory named [prefix] plus a
    random suffix, inside [dir] or, when [dir] is empty, inside the default
    temporary directory; a name that is taken is not handed out. *)
Definition TempDir (dir prefix : string) : M (string * option error) := fun st =>
  match sys_fail sys (CallTempDir dir prefix) st with
  | Some e => (Ok (EmptyString, Some e), record (CallTempDir dir prefix) st)
  | None =>
      let parent := if String.eqb dir EmptyString then sys_tmpdir sys else dir in
      let name := parent +:+ "/" +:+ prefix +:+ sys_random sys st in
      match files st !! name with
      | Some _ =>
          (Ok (EmptyString, Some (ErrSys "file exists")),
           record (CallTempDir dir prefix) st)
      | None =>
          (Ok (name, None),
           record (CallTempDir dir prefix)
             (set_files (<[name := Dir]> (files st)) st))
      end
  end.

(** [ioutil.ReadFile(path)]. *)
Definition ReadFile (path : string) : M (string * option error) := fun st =>
  match sys_fail sys (CallReadFile path) st with
  | Some e => (Ok (EmptyString, Some e), record (CallReadFile path) st)
  | None =>
      match files st !! path with
      | Some (File contents _) => (Ok (contents, None), record (CallReadFile path) st)
      | Some Dir =>
          (Ok (EmptyString, Some (ErrSys "is a directory")),
           record (CallReadFile path) st)
      | None =>
          (Ok (EmptyString, Some (ErrNotExist path)), record (CallReadFile path) st)
      end
  end.

(** [ioutil.WriteFile(path, data, perm)]: a new file gets [perm] less the
    umask, an existing file keeps its mode. *)
Definition WriteFile (path data : string) (perm : Z) : M (option error) := fun st =>
  match sys_fail sys (CallWriteFile path data perm) st with
  | Some e => (Ok (Some e), record (CallWriteFile path data perm) st)
  | None =>
      match files st !! path with
      | Some Dir =>
          (Ok (Some (ErrSys "is a directory")),
           record (CallWriteFile path data perm) st)
      | Some (File _ mode) =>
          (Ok None,
           record (CallWriteFile path data perm)
             (set_files (<[path := File data mode]> (files st)) st))
      | None =>
          (Ok None,
           record (CallWriteFile path data perm)
             (set_files
                (<[path := File data (Z.land perm (Z.lnot (sys_umask sys)))]> (files st))
                st))
      end
  end.

(** [exec.LookPath(file)]. *)
Definition LookPath (file : string) : M (string * option error) := fun st =>
  match sys_fail sys (CallLookPath file) st with
  | Some e => (Ok (EmptyString, Some e), record (CallLookPath file) st)
  | None => (Ok (sys_which sys file st, None), record (CallLookPath file) st)
  end.

(** [cmd.CombinedOutput()]: the program runs to its end; a non-zero exit
    (or a failure to start) is the error. *)
Definition CombinedOutput (c : Cmd) : M (string * option error) := fun st =>
  (Ok (fst (sys_exec sys c st), sys_fail sys (CallRun c) st),
   record (CallRun c) (set_files (snd (sys_exec sys c st)) st)).

(** [cmd.Run()]. *)
Definition Run (c : Cmd) : M (option error) :=
  let* (_, err) := CombinedOutput c in
  ret err.

End Calls.
End Runtime.

Export Runtime.

(** * Package [mason] *)
Module mason.

(** ** The descriptor and the per-user configuration *)

(** Modelled from the spec: the declarations of [Metadata] and of the
    user configuration are in another file of the package.  The records
    carry the fields of the spec's package descriptor (version, package,
    build targets, signing program and email, options) and of its result
    record (workspace path, module root, VCS locator), under the names the
    functions below use for them. *)
Record SigningInfo : Type := mkSigningInfo {
  Program : string;
  Email : string
}.

Record Metadata : Type := mkMetadata {
  Version : string;
  Package : string;
  BuildTargets : list string;
  SignInfo : SigningInfo;
  Options : gmap string value;
  WorkDir : string;
  Path : string;
  GitPath : string
}.

(** [config.User.Email] and [config.Signing.Program]. *)
Record UserConfig : Type := mkUserConfig {
  User_Email : string;
  Signing_Program : string
}.

(** The zero value of a named [Metadata] result. *)
Definition zeroMetadata : Metadata :=
  mkMetadata EmptyString EmptyString [] (mkSigningInfo EmptyString EmptyString) ∅
             EmptyString EmptyString EmptyString.

Definition set_WorkDir (v : string) (m : Metadata) : Metadata :=
  mkMetadata (Version m) (Package m) (BuildTargets m) (SignInfo m) (Options m)
             v (Path m) (GitPath m).
Definition set_Path (v : string) (m : Metadata) : Metadata :=
  mkMetadata (Version m) (Package m) (BuildTargets m) (SignInfo m) (Options m)
             (WorkDir m) v (GitPath m).
Definition set_Package (v : string) (m : Metadata) : Metadata :=
  mkMetadata (Version m) v (BuildTargets m) (SignInfo m) (Options m)
             (WorkDir m) (Path m) (GitPath m).
Definition set_Version (v : string) (m : Metadata) : Metadata :=
  mkMetadata v (Package m) (BuildTargets m) (SignInfo m) (Options m)
             (WorkDir m) (Path m) (GitPath m).
Definition set_GitPath (v : string) (m : Metadata) : Metadata :=
  mkMetadata (Version m) (Package m) (BuildTargets m) (SignInfo m) (Options m)
             (WorkDir m) (Path m) v.

(** [s[i]] on a slice: out of range panics. *)
Definition at_index (s : list string) (i : nat) : result string :=
  match s !! i with
  | Some x => Ok x
  | None => Panic "index out of range"
  end.

(** [s[len(s)-1]]. *)
Definition at_last (s : list string) : result string :=
  match last s with
  | Some x => Ok x
  | None => Panic "index out of range [-1]"
  end.

Section Package.
Context (sys : Sys).

(** Functions of the package that are defined in other files; each is a
    parameter, with the signature of its call sites. *)
Context (GetUserConfig : M (UserConfig * option error)).
Context (CreateGoPath : string -> M (string * option error)).
Context (ReadMetadata : string -> M (Metadata * option error)).
Context (GitSSHUrlFromPackage : string -> string).
Context (Checkout : string -> string -> string -> bool -> M (option error)).

(** ** signing.go *)

Definition defaultSigningProgram : string := "gpg".

Definition SignGPG (binary signingEntity : string) (meta : Metadata)
  : M (option error) :=
  let* (shellCmd, err) := LookPath sys "gpg" in
  match err with
  | Some _ =>
      ret (Wrap err "can't find signing program 'gpg' in path.  Is it installed?" [])
  | None =>
      let* cmd :=
        match Options meta !! "keyring" with
        | Some keyring =>
            let* trustdb := lift (assert_string (index (Options meta) "trustdb")) in
            let* keyring := lift (assert_string keyring) in
            ret (Command shellCmd
                   ["--trustdb"; trustdb; "--no-default-keyring"; "--keyring"; keyring;
                    "-bau"; signingEntity; binary]
                   [])
        | None =>
            ret (Command shellCmd ["-bau"; signingEntity; binary] [])
        end in
      let cmd := set_env (Environ sys) cmd in
      let* err := Run sys cmd in
      ret (Wrap err "failed to run %q" [OpStr shellCmd])
  end.

Definition VerifyGPG (binary : string) (meta : Metadata) : M (bool * option error) :=
  let ok := false in
  let sigFile := binary +:+ ".asc" in
  let* (shellCmd, err) := LookPath sys "gpg" in
  match err with
  | Some _ =>
      ret (ok,
           Wrap err "can't find signing program 'gpg' in path.  Is it installed?" [])
  | None =>
      let* cmd :=
        match Options meta !! "keyring" with
        | Some keyring =>
            let* trustdb := lift (assert_string (index (Options meta) "trustdb")) in
            let* keyring := lift (assert_string keyring) in
            ret (Command shellCmd
                   ["--trustdb"; trustdb; "--no-default-keyring"; "--keyring"; keyring;
                    "--verify"; sigFile]
                   [])
        | None =>
            ret (Command shellCmd ["--verify"; sigFile] [])
        end in
      let cmd := set_env (Environ sys) cmd in
      let* err := Run sys cmd in
      match err with
      | Some _ => ret (ok, err)
      | None =>
          let ok := true in
          ret (ok, err)
      end
  end.

Definition noSigningEntity : error :=
  ErrNew "Cannot sign without a signing entity (email).\n\nSet 'signing' section in metadata.json, or create ~/.gomason with the appropriate content.\n\nSee https://github.com/nikogura/gomason#config-reference for details.\n\n" [].

Definition SignBinary (meta : Metadata) (binary : string) (verbose : bool)
  : M (option error) :=
  let signInfo := SignInfo meta in
  let signProg := Program signInfo in
  let signProg :=
    if String.eqb signProg EmptyString then defaultSigningProgram else signProg in
  let signEntity := Email signInfo in
  let* (config, err) := GetUserConfig in
  let err := Wrap err "failed to get per-user config from ~/.gomason" [] in
  let signEntity :=
    if negb (String.eqb (User_Email config) EmptyString)
    then User_Email config else signEntity in
  let signProg :=
    if negb (String.eqb (Signing_Program config) EmptyString)
    then Signing_Program config else signProg in
  if String.eqb signEntity EmptyString then
    let err := Some noSigningEntity in
    ret err
  else
    let* err := SignGPG binary signEntity meta in
    match err with
    | Some _ => ret (Wrap err "failed to run %q" [OpStr signProg])
    | None => ret err
    end.

Definition VerifyBinary (binary : string) (meta : Metadata) : M (bool * option error) :=
  let signInfo := SignInfo meta in
  let signProg := Program signInfo in
  let signProg :=
    if String.eqb signProg EmptyString then defaultSigningProgram else signProg in
  let* (ok, err) := VerifyGPG binary meta in
  match err with
  | Some _ => ret (ok, Wrap err "failed to run %q" [OpStr signProg])
  | None => ret (ok, err)
  end.

(** ** testing.go *)

Definition GovendorInstall (gopath : string) (verbose : bool) : M (option error) :=
  let cmd :=
    Command "go" ["get"; "github.com/kardianos/govendor"]
            (Environ sys ++ ["GOPATH=" +:+ gopath]) in
  let* err := Run sys cmd in
  ret err.

Definition GovendorSync (gopath gomodule : string) (verbose : bool)
  : M (option error) :=
  let wd := gopath +:+ "/src/" +:+ gomodule in
  let* err := Chdir sys wd in
  match err with
  | Some _ => ret err
  | None =>
      let govendor := gopath +:+ "/bin/govendor" in
      let cmd := Command govendor ["sync"] (Environ sys ++ ["GOPATH=" +:+ gopath]) in
      let run := (let* err := Run sys cmd in ret err) in
      if verbose then
        let* (cwd, err) := Getwd sys in
        match err with
        | Some _ => ret (Wrap err "failed to get working directory" [])
        | None => run
        end
      else run
  end.

Definition GoTest (gopath gomodule : string) (verbose : bool) : M (option error) :=
  let wd := gopath +:+ "/src/" +:+ gomodule in
  let* err := Chdir sys wd in
  match err with
  | Some _ => ret err
  | None =>
      let cmd :=
        Command "go" ["test"; "-v"; "./..."] (Environ sys ++ ["GOPATH=" +:+ gopath]) in
      let* (output, err) := CombinedOutput sys cmd in
      ret err
  end.

(** ** building.go, as WholeShebang calls it *)

Definition GoxInstall (gopath : string) (verbose : bool) : M (option error) :=
  let* (gocommand, err) := LookPath sys "go" in
  match err with
  | Some _ => ret (Wrap err "Failed to find go binary" [])
  | None =>
      let cmd :=
        Command gocommand ["get"; "github.com/mitchellh/gox"]
                (Environ sys ++ ["GOPATH=" +:+ gopath]) in
      let* err := Run sys cmd in
      ret err
  end.

Definition Build (gopath gomodule branch : string) (verbose : bool)
  : M (option error) :=
  let* staterr := Stat sys (gopath +:+ "/go/bin/gox") in
  let* err := (if IsNotExist staterr then GoxInstall gopath verbose else ret None) in
  match err with
  | Some _ => ret (Wrap err "Failed to install gox" [])
  | None =>
  let* staterr := Stat sys (gopath +:+ "/" +:+ gomodule +:+ "/metadata.json") in
  let* err :=
    (if IsNotExist staterr then Checkout gopath gomodule branch verbose else ret None) in
  match err with
  | Some _ =>
      ret (Wrap err "Failed to checkout module: %s branch: %s " [OpStr gomodule; OpStr branch])
  | None =>
  let wd := gopath +:+ "/src/" +:+ gomodule in
  let* err := Chdir sys wd in
  match err with
  | Some _ => ret err
  | None =>
  let gox := gopath +:+ "/bin/gox" in
  let metadatapath := gopath +:+ "/src/" +:+ gomodule +:+ "/metadata.json" in
  let* (md, err) := ReadMetadata metadatapath in
  match err with
  | Some _ => ret (Wrap err "Failed to read metadata.json from checked out code" [])
  | None =>
  let targets := BuildTargets md in
  let targetstring := Join targets " " in
  let args := gox +:+ " -osarch=" +:+ dquote +:+ targetstring +:+ dquote in
  let gopathenv := "GOPATH=" +:+ gopath in
  let runenv := Environ sys ++ [gopathenv] in
  let cmd := Command "bash" ["-c"; args] runenv in
  let* (out, err) := CombinedOutput sys cmd in
  ret err
  end end end end.

(** ** testing.go: the whole run *)

(** Lines 200 to 219, the body of the loop over the build targets: the
    built binary is looked for and moved to the directory the run was
    started in.  [Some] is a [return] of the enclosing function. *)
Definition collectBinary (gopath cwd package binaryPrefix : string)
    (buildmetadata : Metadata) (arch : string)
  : M (option (Metadata * option error)) :=
  let archparts := Split arch slash in
  let* osname := lift (at_index archparts 0) in
  let* archname := lift (at_index archparts 1) in
  let workdir := gopath +:+ "/src/" +:+ package in
  let binary :=
    workdir +:+ "/" +:+ binaryPrefix +:+ "_" +:+ osname +:+ "_" +:+ archname in
  let* staterr := Stat sys binary in
  if IsNotExist staterr then
    ret (Some (buildmetadata,
               Some (ErrNew "Gox failed to build binary: %s\n" [OpStr binary])))
  else
    let destinationPath :=
      cwd +:+ "/" +:+ binaryPrefix +:+ "_" +:+ osname +:+ "_" +:+ archname in
    let* err := Rename sys binary destinationPath in
    match err with
    | Some _ =>
        ret (Some (buildmetadata,
                   Wrap err "Failed to collect binary %s\n" [OpStr binary]))
    | None => ret None
    end.

(** Lines 199 to 220, the loop. *)
Definition collectBinaries (gopath cwd package binaryPrefix : string)
    (buildmetadata : Metadata) (targets : list string)
  : M (option (Metadata * option error)) :=
  for_range targets (collectBinary gopath cwd package binaryPrefix buildmetadata).

(** Lines 146 to 234, with the working directory settled. *)
Definition runPipeline (actualWorkDir cwd branch : string)
    (build sign publish verbose : bool) : M (Metadata * option error) :=
  let buildmetadata := set_WorkDir actualWorkDir zeroMetadata in
  let* (gopath, err) := CreateGoPath actualWorkDir in
  match err with
  | Some _ => ret (buildmetadata, err)
  | None =>
  let buildmetadata := set_Path gopath buildmetadata in
  let* err := GovendorInstall gopath verbose in
  match err with
  | Some _ => ret (buildmetadata, err)
  | None =>
  let* (commandmetadata, err) := ReadMetadata "metadata.json" in
  match err with
  | Some _ =>
      ret (buildmetadata,
           Wrap err "couldn't read package information from metadata.json." [])
  | None =>
  let buildmetadata := set_Package (Package commandmetadata) buildmetadata in
  let buildmetadata := set_Version (Version commandmetadata) buildmetadata in
  let giturl := GitSSHUrlFromPackage (Package commandmetadata) in
  let buildmetadata := set_GitPath giturl buildmetadata in
  let* err := Checkout gopath (Package commandmetadata) branch verbose in
  match err with
  | Some e =>
      ret (buildmetadata,
           Wrap err "failed to checkout package %s at branch %s: %s"
                [OpStr (Package commandmetadata); OpStr branch; OpErr e])
  | None =>
  let* err := GovendorSync gopath (Package commandmetadata) verbose in
  match err with
  | Some _ => ret (buildmetadata, Wrap err "error running govendor sync" [])
  | None =>
  let* err := GoTest gopath (Package commandmetadata) verbose in
  match err with
  | Some _ => ret (buildmetadata, Wrap err "error running go test" [])
  | None =>
  if build then
    let* _ := Build gopath (Package commandmetadata) branch verbose in
    let parts := Split (Package commandmetadata) slash in
    let* binaryPrefix := lift (at_last parts) in
    let* returned :=
      collectBinaries gopath cwd (Package commandmetadata) binaryPrefix buildmetadata
                      (BuildTargets commandmetadata) in
    match returned with
    | Some values => ret values
    | None => ret (buildmetadata, err)
    end
  else
    ret (buildmetadata, err)
  end end end end end end.

Definition WholeShebang (workDir branch : string) (build sign publish verbose : bool)
  : M (Metadata * option error) :=
  let buildmetadata := zeroMetadata in
  let* (cwd, err) := Getwd sys in
  match err with
  | Some _ => ret (buildmetadata, Wrap err "Failed to get current working directory." [])
  | None =>
      if String.eqb workDir EmptyString then
        let* (actualWorkDir, err) := TempDir sys EmptyString "gomason" in
        let err := Wrap err "Failed to create temp dir" [] in
        defer (RemoveAll sys actualWorkDir)
              (runPipeline actualWorkDir cwd branch build sign publish verbose)
      else
        let actualWorkDir := workDir in
        runPipeline actualWorkDir cwd branch build sign publish verbose
  end.

End Package.
End mason.

(** * Package [gomason] ([pkg/gomason]) *)
Module gomason.

(** Modelled from the spec: the declaration of [Metadata] is in another
    file of the package.  The records carry the fields of the spec's
    package descriptor (version, package, description, and under buildInfo
    the targets with name, cgo and flags and the extras with template,
    fileName and executable), under the names [Build] and [BuildExtras]
    use for them. *)
Record Target : Type := mkTarget {
  Name : string;
  Cgo : bool;
  Flags : gmap string string
}.

Record Extra : Type := mkExtra {
  Template : string;
  FileName : string;
  Executable : bool
}.

Record BuildInformation : Type := mkBuildInformation {
  Targets : list Target;
  Extras : list Extra
}.

Record Metadata : Type := mkMetadata {
  Version : string;
  Package : string;
  Description : string;
  BuildInfo : BuildInformation
}.

(** ** Templates

    The descriptor's fields a template can name, after the spec's list
    (package, version, description). *)

Inductive field : Type :=
| FieldPackage
| FieldVersion
| FieldDescription.

(** A template read as a sequence of literal text and named placeholders. *)
Inductive segment : Type :=
| Literal (text : string)
| Placeholder (f : field).

Definition field_value (meta : Metadata) (f : field) : string :=
  match f with
  | FieldPackage => Package meta
  | FieldVersion => Version meta
  | FieldDescription => Description meta
  end.

Definition render_segment (meta : Metadata) (s : segment) : string :=
  match s with
  | Literal text => text
  | Placeholder f => field_value meta f
  end.

Section Package.
Context (sys : Sys).

(** Functions of the package that are defined in other files; each is a
    parameter, with the signature of its call sites. *)
Context (ReadMetadata : string -> M (Metadata * option error)).
Context (Checkout : string -> Metadata -> string -> bool -> M (option error)).

(** How a template text is read: its segments, or why it is malformed.  The
    placeholder syntax is that of the template language and is not fixed
    here. *)
Context (template_syntax : string -> list segment + error).

(** Modelled from the spec: [ParseTemplateForMetadata] is called by
    [BuildExtras] and defined in another file.  The spec has it perform
    a textual substitution pass injecting the descriptor's fields (package,
    version, description) into named placeholders: every placeholder is
    replaced by the value of the field it names, literal text is kept. *)
Definition ParseTemplateForMetadata (templateText : string) (meta : Metadata)
  : string * option error :=
  match template_syntax templateText with
  | inr e => (EmptyString, Some e)
  | inl segments => (String.concat EmptyString (render_segment meta <$> segments), None)
  end.

(** ** building.go *)

Definition GoxInstall (gopath : string) (verbose : bool) : M (option error) :=
  let* (gocommand, err) := LookPath sys "go" in
  match err with
  | Some _ => ret (Wrap err "Failed to find go binary" [])
  | None =>
      let cmd := Command gocommand ["get"; "github.com/mitchellh/gox"] [] in
      let env := Environ sys ++ ["GOPATH=" +:+ gopath] in
      let cmd := set_env env cmd in
      let* err := Run sys cmd in
      ret err
  end.

(** Lines 156 to 189, the body of the loop over the extra artifacts. *)
Definition buildExtra (meta : Metadata) (workdir : string) (verbose : bool)
    (extra : Extra) : M (option (option error)) :=
  let templateName := workdir +:+ "/" +:+ Template extra in
  let outputFileName := workdir +:+ "/" +:+ FileName extra in
  let executable := Executable extra in
  let mode : Z := if executable then 493%Z (* 0755 *) else 420%Z (* 0644 *) in
  let* (tmplBytes, err) := ReadFile sys templateName in
  match err with
  | Some _ =>
      ret (Some (Wrap err "failed to read template file %s" [OpStr templateName]))
  | None =>
  let (output, err) := ParseTemplateForMetadata tmplBytes meta in
  match err with
  | Some _ =>
      ret (Some (Wrap err "failed to inject metadata into template text" []))
  | None =>
  let* err := WriteFile sys outputFileName output mode in
  match err with
  | Some _ =>
      ret (Some (Wrap err "failed to write file %s" [OpStr outputFileName]))
  | None => ret None
  end end end.

(** BuildExtras builds the extra artifacts specified in the metadata.json *)
Definition BuildExtras (meta : Metadata) (workdir : string) (verbose : bool)
  : M (option error) :=
  let err : option error := None in
  let* returned :=
    for_range (Extras (BuildInfo meta)) (buildExtra meta workdir verbose) in
  match returned with
  | Some err => ret err
  | None => ret err
  end.

(** Lines 90 to 135 of Build, the body of the loop over the targets: one
    compiler run. *)
Definition buildTarget (gopath gox : string) (verbose : bool) (target : Target)
  : M (option (option error)) :=
  let gopathenv := "GOPATH=" +:+ gopath in
  let runenv := Environ sys ++ [gopathenv] in
  let cgo := if Cgo target then " -cgo" else EmptyString in
  let runenv :=
    fold_left (fun runenv kv => runenv ++ [kv.1 +:+ "=" +:+ kv.2])
              (sys_range sys (Flags target)) runenv in
  let args :=
    gox +:+ cgo +:+ " -osarch=" +:+ dquote +:+ Name target +:+ dquote +:+ " ./..." in
  let cmd := Command "sh" ["-c"; args] [] in
  let cmd := set_env runenv cmd in
  let* (out, err) := CombinedOutput sys cmd in
  match err with
  | Some _ => ret (Some err)
  | None => ret None
  end.

(** Lines 89 to 137 of Build, the loop. *)
Definition buildTargets (gopath gox : string) (verbose : bool) (targets : list Target)
  : M (option (option error)) :=
  for_range targets (buildTarget gopath gox verbose).

(** Build  Builds the package.  Builds binaries for the architectures listed
    in the metadata.json file *)
Definition Build (gopath : string) (meta : Metadata) (branch : string) (verbose : bool)
  : M (option error) :=
  let* staterr := Stat sys (gopath +:+ "/go/bin/gox") in
  let* err := (if IsNotExist staterr then GoxInstall gopath verbose else ret None) in
  match err with
  | Some _ => ret (Wrap err "Failed to install gox" [])
  | None =>
  let* staterr := Stat sys (gopath +:+ "/" +:+ Package meta +:+ "/metadata.json") in
  let* err :=
    (if IsNotExist staterr then Checkout gopath meta branch verbose else ret None) in
  match err with
  | Some _ =>
      ret (Wrap err "Failed to checkout module: %s branch: %s "
                [OpStr (Package meta); OpStr branch])
  | None =>
  let wd := gopath +:+ "/src/" +:+ Package meta in
  let* err := Chdir sys wd in
  match err with
  | Some _ => ret err
  | None =>
  let gox := gopath +:+ "/bin/gox" in
  let metadatapath := gopath +:+ "/src/" +:+ Package meta +:+ "/metadata.json" in
  let* (md, err) := ReadMetadata metadatapath in
  match err with
  | Some _ => ret (Wrap err "Failed to read metadata.json from checked out code" [])
  | None =>
  let* returned := buildTargets gopath gox verbose (Targets (BuildInfo md)) in
  match returned with
  | Some err => ret err
  | None =>
  let* err := BuildExtras md wd verbose in
  match err with
  | Some _ => ret (Wrap err "Failed to build extras" [])
  | None => ret err
  end end end end end end.

End Package.
End gomason.

(** * Statements of the specification, in its own words *)
Module Spec.

(** The precedence rule for the signing program: the user configuration
    when it names one, else the descriptor, else the reference signer. *)
Definition effective_program (meta : mason.Metadata) (config : mason.UserConfig)
  : string :=
  if decide (mason.Signing_Program config ≠ EmptyString)
  then mason.Signing_Program config
  else if decide (mason.Program (mason.SignInfo meta) ≠ EmptyString)
       then mason.Program (mason.SignInfo meta)
       else "gpg".

(** The precedence rule for the signing identity: the user configuration
    when it names one, else the descriptor, else none. *)
Definition effective_identity (meta : mason.Metadata) (config : mason.UserConfig)
  : option string :=
  if decide (mason.User_Email config ≠ EmptyString)
  then Some (mason.User_Email config)
  else if decide (mason.Email (mason.SignInfo meta) ≠ EmptyString)
       then Some (mason.Email (mason.SignInfo meta))
       else None.


(** Well-typed signer options: no keyring, or a keyring and a trust
    database that are both strings. *)
Definition gpg_options_typed (meta : mason.Metadata) : Prop :=
  match mason.Options meta !! "keyring" with
  | None => True
  | Some keyring =>
      (∃ k, keyring = VString k) ∧
      (∃ t, mason.Options meta !! "trustdb" = Some (VString t))
  end.

(** ** The build matrix *)

(** The compiler run for one target: the cross-compiler through the shell,
    with the native-interop option on the command line when the target asks
    for it, in an environment made of the inherited one, the module root
    and the target's flags. *)
Definition compiler_run (sys : Sys) (gopath gox : string) (target : gomason.Target)
  : Cmd :=
  Command "sh"
    ["-c";
     gox +:+ (if gomason.Cgo target then " -cgo" else EmptyString)
         +:+ " -osarch=" +:+ dquote +:+ gomason.Name target +:+ dquote +:+ " ./..."]
    (sys_environ sys ++ ["GOPATH=" +:+ gopath]
       ++ ((fun kv => kv.1 +:+ "=" +:+ kv.2) <$> sys_range sys (gomason.Flags target))).

(** [range] visits every entry of a map once, in some order. *)
Definition range_faithful (sys : Sys) : Prop :=
  ∀ m : gmap string string, sys_range sys m ≡ₚ map_to_list m.

(** ** Naming conventions *)

Fixpoint no_slash (s : string) : bool :=
  match s with
  | EmptyString => true
  | String c s' => negb (Ascii.eqb c slash) && no_slash s'
  end.

(** A package path: its last segment, below a parent path or alone. *)
Definition package_path (parent : option string) (tail : string) : string :=
  match parent with
  | Some dir => dir +:+ "/" +:+ tail
  | None => tail
  end.

(** [<packageNameTail>_<os>_<arch>]. *)
Definition binary_name (tail : string) (platform : string * string) : string :=
  tail +:+ "_" +:+ platform.1 +:+ "_" +:+ platform.2.

(** The platform string of a target, [<os>/<arch>]. *)
Definition platform_string (platform : string * string) : string :=
  platform.1 +:+ "/" +:+ platform.2.

(** ** Rendering *)

Definition contains (needle text : string) : Prop :=
  ∃ before after, text = before +:+ needle +:+ after.

(** The three execute bits of a permission: other, group, owner. *)
Definition executable_bits (perm : Z) : bool :=
  Z.testbit perm 0 && Z.testbit perm 3 && Z.testbit perm 6.

(** ** The workspace *)

Definition exists_path (path : string) (st : OS) : Prop :=
  is_Some (files st !! path).

(** A computation keeps what holds of the state. *)
Definition preserves {A : Type} (I : OS -> Prop) (m : M A) : Prop :=
  ∀ st, I st -> I (snd (m st)).

(** The programs the run spawns keep what holds of the disk. *)
Definition programs_preserve (sys : Sys) (I : OS -> Prop) : Prop :=
  ∀ c st, I st -> I (set_files (snd (sys_exec sys c st)) st).

(** The overlay the specification describes: inherited environment, module
    root, the target's flags and, when native interop is on, a variable
    [flag] enabling it. *)
Definition claimed_overlay (sys : Sys) (gopath : string) (target : gomason.Target)
    (flag : string) : list string :=
  sys_environ sys ++ ["GOPATH=" +:+ gopath]
    ++ ((fun kv => kv.1 +:+ "=" +:+ kv.2) <$> sys_range sys (gomason.Flags target))
    ++ (if gomason.Cgo target then [flag] else []).

(** ** The pipeline run *)

(** Where a target's binary is built and where it is collected. *)
Definition built_binary (gopath package tail : string) (platform : string * string)
  : string :=
  (gopath +:+ "/src/" +:+ package) +:+ "/" +:+ binary_name tail platform.

Definition collected_binary (cwd tail : string) (platform : string * string) : string :=
  cwd +:+ "/" +:+ binary_name tail platform.

(** The calls that check and move one binary. *)
Definition moves (gopath cwd package tail : string) (platform : string * string)
  : list call :=
  [CallStat (built_binary gopath package tail platform);
   CallRename (built_binary gopath package tail platform)
              (collected_binary cwd tail platform)].

(** A platform whose two parts hold no slash. *)
Definition well_formed (platform : string * string) : Prop :=
  no_slash platform.1 = true ∧ no_slash platform.2 = true.

(** The error for a binary the compiler did not leave behind, and the error
    for a binary that could not be moved. *)
Definition missing_binary (binary : string) : error :=
  ErrNew "Gox failed to build binary: %s\n" [OpStr binary].

Definition not_collected (e : error) (binary : string) : error :=
  ErrWrap e "Failed to collect binary %s\n" [OpStr binary].

(** The result record as the stages fill it: after the workspace is
    settled, after the module root is made, after the descriptor is read. *)
Definition with_workdir (dir : string) : mason.Metadata :=
  mason.set_WorkDir dir mason.zeroMetadata.

Definition with_gopath (dir gopath : string) : mason.Metadata :=
  mason.set_Path gopath (with_workdir dir).

Definition with_package (giturl : string -> string) (dir gopath : string)
    (descriptor : mason.Metadata) : mason.Metadata :=
  mason.set_GitPath (giturl (mason.Package descriptor))
    (mason.set_Version (mason.Version descriptor)
       (mason.set_Package (mason.Package descriptor) (with_gopath dir gopath))).

End Spec.

(** * Concrete environments and descriptors, for the examples *)
Module Scenario.

(** An environment in which no call fails and programs leave the disk as
    they found it. *)
Definition quiet : Sys :=
  mkSys ["HOME=/home/dev"] 18 (fun _ _ => None)
        (fun file _ => "/usr/bin/" +:+ file)
        "/tmp" (fun _ => "428117")
        (fun _ st => (EmptyString, files st))
        map_to_list.

(** The same environment with the failures [fail] decides. *)
Definition failing (fail : call -> option error) : Sys :=
  mkSys (sys_environ quiet) (sys_umask quiet) (fun c _ => fail c)
        (sys_which quiet) (sys_tmpdir quiet) (sys_random quiet)
        (sys_exec quiet) (sys_range quiet).

Definition started_in (dir : string) (fs : gmap string node) : OS := mkOS fs dir [].

Definition exit_status_1 : error := ErrSys "exit status 1".

(** Every spawned program exits with status 1. *)
Definition programs_fail (c : call) : option error :=
  match c with
  | CallRun _ => Some exit_status_1
  | _ => None
  end.

(** The descriptor of the package's own test data, and variations. *)
Definition widget (signing : mason.SigningInfo) (options : gmap string value)
  : mason.Metadata :=
  mason.mkMetadata "0.1.0" "github.com/nikogura/gomason" ["linux/amd64"] signing options
                   EmptyString EmptyString EmptyString.

Definition tester : mason.SigningInfo :=
  mason.mkSigningInfo "gpg" "gomason-tester@foo.com".

Definition unsigned : mason.SigningInfo := mason.mkSigningInfo EmptyString EmptyString.

(** No [~/.gomason]: an empty configuration and the error of the read. *)
Definition no_user_config : M (mason.UserConfig * option error) :=
  ret (mason.mkUserConfig EmptyString EmptyString, Some (ErrNotExist "~/.gomason")).

Definition keyring_only : gmap string value := {[ "keyring" := VString "test.gpg" ]}.


(** Stand-ins for the functions of the package that are parameters of the
    model. *)
Definition CreateGoPath (workDir : string) : M (string * option error) := fun st =>
  (Ok (workDir +:+ "/go", None),
   set_files (<[workDir +:+ "/go" := Dir]> (files st)) st).


Definition ReadMetadata (path : string) : M (mason.Metadata * option error) :=
  ret (widget tester ∅, None).

Definition GitSSHUrlFromPackage (package : string) : string :=
  "git@github.com:nikogura/gomason.git".

Definition Checkout (gopath package branch : string) (verbose : bool)
  : M (option error) := ret None.

(** A persistent workspace with a binary left by an earlier build. *)
Definition stale_workspace : gmap string node :=
  {[ "/work" := Dir;
     "/work/go/bin/gox" := File "gox" 493;
     "/work/go/src/github.com/nikogura/gomason/gomason_linux_amd64" := File "old" 493 ]}.

Definition cgo_target : gomason.Target := gomason.mkTarget "linux/amd64" true ∅.

Definition installer : gomason.Extra := gomason.mkExtra "install.tmpl" "install.sh" true.

Definition tool : gomason.Metadata :=
  gomason.mkMetadata "1.2.3" "acme/widget" "A widget."
    (gomason.mkBuildInformation [cgo_target] [installer]).

(** A template syntax for the examples: the text is one placeholder name
    or literal text. *)
Definition one_segment (text : string) : list gomason.segment + error :=
  if String.eqb text "package" then inl [gomason.Placeholder gomason.FieldPackage]
  else if String.eqb text "package version"
       then inl [gomason.Placeholder gomason.FieldPackage; gomason.Literal " ";
                 gomason.Placeholder gomason.FieldVersion]
       else inl [gomason.Literal text].


(** A whole run with build and sign requested, started in the directory of
    the package. *)
Definition run_with (sys : Sys) (create : string -> M (string * option error))
    (workDir : string) (build : bool) (fs : gmap string node)
  : result (mason.Metadata * option error) * OS :=
  mason.WholeShebang sys create ReadMetadata GitSSHUrlFromPackage Checkout
    workDir "master" build true false false (started_in "/home/dev/widget" fs).

Definition templates : gmap string node :=
  {[ "/work/src/install.tmpl" := File "package version" 420 ]}.

(** A user configuration that names both an identity and a program. *)
Definition operator_config : M (mason.UserConfig * option error) :=
  ret (mason.mkUserConfig "ops@acme.io" "gpg2", None).

End Scenario.

(** * Package [cmd]: the sign command *)
Module cmd.

(** How the [Run] function of a command ends: it returns, or [log.Fatalf]
    prints its message and ends the process with [os.Exit(1)]. *)
Inductive ending : Type :=
| Returned
| Fatal (format : string) (operands : list operand).

(** [defer f(); body] in a function that [log.Fatalf] may end: the deferred
    call runs when the body returns or panics, and does not run when the
    process exits. *)
Definition defer_exit {B : Type} (deferred : M B) (body : M ending) : M ending :=
  fun st =>
    match body st with
    | (Ok (Fatal format operands), st') => (Ok (Fatal format operands), st')
    | (r, st') => (r, snd (deferred st'))
    end.

Section Sign.
Context (sys : Sys).

(** The flags of the command line, package variables of [cmd]. *)
Context (verbose : bool) (branch : string).

(** Functions of package [gomason] that are defined in other files; each
    is a parameter, with the signature of its call site. *)
Context (CreateGoPath : string -> M (string * option error)).
Context (ReadMetadata : string -> M (gomason.Metadata * option error)).
Context (Checkout : string -> gomason.Metadata -> string -> bool -> M (option error)).
Context (GoTest : string -> string -> bool -> M (option error)).
Context (PublishBuildTargets :
           gomason.Metadata -> string -> string -> bool -> bool -> bool -> bool ->
           M (option error)).
Context (PublishBuildExtras :
           gomason.Metadata -> string -> string -> bool -> bool -> bool ->
           M (option error)).
Context (template_syntax : string -> list gomason.segment + error).

(** Lines 52 to 86 of the command over [pkg/gomason]: what runs once the
    temporary directory is made and its removal is deferred. *)
Definition signInWorkDir (cwd workDir : string) : M ending :=
  let* (gopath, err) := CreateGoPath workDir in
  match err with
  | Some e => ret (Fatal "Failed to create ephemeral GOPATH: %s" [OpErr e])
  | None =>
  let* (meta, err) := ReadMetadata "metadata.json" in
  let* err := Checkout gopath meta branch verbose in
  match err with
  | Some e =>
      ret (Fatal "failed to checkout package %s at branch %s: %s"
                 [OpStr (gomason.Package meta); OpStr branch; OpErr e])
  | None =>
  let* err := GoTest gopath (gomason.Package meta) verbose in
  match err with
  | Some e => ret (Fatal "error running go test: %s" [OpErr e])
  | None =>
  let* err :=
    gomason.Build sys ReadMetadata Checkout template_syntax gopath meta branch verbose in
  match err with
  | Some e => ret (Fatal "build failed: %s" [OpErr e])
  | None =>
  let* err := PublishBuildTargets meta gopath cwd true false true verbose in
  match err with
  | Some e => ret (Fatal "signing failed: %s" [OpErr e])
  | None =>
  let* err := PublishBuildExtras meta gopath cwd true false verbose in
  match err with
  | Some e => ret (Fatal "Extra artifact processing failed: %s" [OpErr e])
  | None => ret Returned
  end end end end end end.

(** The [Run] function of [signCmd], over [pkg/gomason]. *)
Definition signCmd_Run : M ending :=
  let* (cwd, err) := Getwd sys in
  match err with
  | Some e => ret (Fatal "Failed to get current working directory: %s" [OpErr e])
  | None =>
  let* (workDir, err) := TempDir sys EmptyString "gomason" in
  match err with
  | Some e => ret (Fatal "Failed to create temp dir: %s" [OpErr e])
  | None => defer_exit (RemoveAll sys workDir) (signInWorkDir cwd workDir)
  end end.

End Sign.

Section SignMason.
Context (sys : Sys).

(** The flags of the command line, package variables of [cmd]. *)
Context (workdir branch : string) (verbose : bool).

Context (CreateGoPath : string -> M (string * option error)).
Context (ReadMetadata : string -> M (mason.Metadata * option error)).
Context (GitSSHUrlFromPackage : string -> string).
Context (Checkout : string -> string -> string -> bool -> M (option error)).

(** The [Run] function of [signCmd], over package [mason]. *)
Definition signCmd_Run_mason : M ending :=
  let* (_, err) :=
    mason.WholeShebang sys CreateGoPath ReadMetadata GitSSHUrlFromPackage Checkout
      workdir branch true true false verbose in
  match err with
  | Some e => ret (Fatal "Error running sign: %s" [OpErr e])
  | None => ret Returned
  end.

End SignMason.
End cmd.

(** * Notions used to state how the code behaves *)
Module Behaviour.

(** A configuration loader that answers as [load] does, with the signing
    program of the configuration replaced. *)
Definition with_user_program (program : string)
    (load : M (mason.UserConfig * option error)) : M (mason.UserConfig * option error) :=
  fun st =>
    match load st with
    | (Ok (config, err), st') =>
        (Ok (mason.mkUserConfig (mason.User_Email config) program, err), st')
    | (Panic reason, st') => (Panic reason, st')
    end.

(** A descriptor reader that answers as [read] does, but reports no error
    for the file [path]. *)
Definition forget_error_at (path : string)
    (read : string -> M (gomason.Metadata * option error))
  : string -> M (gomason.Metadata * option error) :=
  fun file st =>
    if String.eqb file path then
      match read file st with
      | (Ok (meta, _), st') => (Ok (meta, None), st')
      | (Panic reason, st') => (Panic reason, st')
      end
    else read file st.

(** The number of slashes of a string. *)
Fixpoint slashes (s : string) : nat :=
  match s with
  | EmptyString => 0
  | String c s' => (if Ascii.eqb c slash then 1 else 0) + slashes s'
  end.

(** The environment the helpers of the pipeline give the programs they
    spawn: the inherited one and the module root. *)
Definition module_env (sys : Sys) (gopath : string) : list string :=
  sys_environ sys ++ ["GOPATH=" +:+ gopath].

(** A call that is not the start of a program, or starts one in the
    environment [env]. *)
Definition runs_in (env : list string) (c : call) : Prop :=
  match c with
  | CallRun cmd => cmd_env cmd = env
  | _ => True
  end.

Definition is_run (c : call) : bool :=
  match c with
  | CallRun _ => true
  | _ => false
  end.

(** The one compiler run of [mason.Build], for all the targets at once. *)
Definition compiler_run_all (sys : Sys) (gopath : string) (targets : list string) : Cmd :=
  Command "bash"
    ["-c"; (gopath +:+ "/bin/gox") +:+ " -osarch=" +:+ dquote +:+ Join targets " " +:+ dquote]
    (module_env sys gopath).

(** The program that installs the cross-compiler. *)
Definition gox_install_run (sys : Sys) (gocommand gopath : string) : Cmd :=
  Command gocommand ["get"; "github.com/mitchellh/gox"] (module_env sys gopath).

(** The calls that render one extra artifact to [output]. *)
Definition renders (workdir : string) (rendered : gomason.Extra * string) : list call :=
  [CallReadFile (workdir +:+ "/" +:+ gomason.Template rendered.1);
   CallWriteFile (workdir +:+ "/" +:+ gomason.FileName rendered.1) rendered.2
     (if gomason.Executable rendered.1 then 493 else 420)%Z].

(** The state a program leaves when it has run in [st]: its effect on the
    disk and the record of the run, whether it exits with zero or not. *)
Definition ran (sys : Sys) (st : OS) (c : Cmd) : OS :=
  record (CallRun c) (set_files (snd (sys_exec sys c st)) st).

(** The state after the programs [cmds] have run one after the other. *)
Definition ran_all (sys : Sys) (cmds : list Cmd) (st : OS) : OS :=
  fold_left (ran sys) cmds st.

(** How a run of [WholeShebang] that has its working directory settles its
    workspace from [st]: [dir] is the path it was given or, without one,
    whatever [TempDir] answers, with or without an error; [s] is the state
    in which the pipeline starts. *)
Definition settles (sys : Sys) (workDir : string) (st : OS) (dir : string) (s : OS)
  : Prop :=
  if String.eqb workDir EmptyString
  then ∃ temperr,
         TempDir sys EmptyString "gomason" (record CallGetwd st) = (Ok (dir, temperr), s)
  else dir = workDir ∧ s = record CallGetwd st.

(** The state the run returns in when its pipeline ends in [s]: the
    deferred removal has run if the workspace was not given. *)
Definition released (sys : Sys) (workDir dir : string) (s : OS) : OS :=
  if String.eqb workDir EmptyString then snd (RemoveAll sys dir s) else s.

(** The calls a run makes after its pipeline: the deferred removal, if the
    workspace was not given. *)
Definition release_calls (workDir dir : string) : list call :=
  if String.eqb workDir EmptyString then [CallRemoveAll dir] else [].

(** The text of the file at [path], if it is one. *)
Definition contents_at (st : OS) (path : string) : string :=
  match files st !! path with
  | Some (File text _) => text
  | _ => EmptyString
  end.

(** The mode a file written with [perm] has on disk: its old mode when it
    was there, [perm] less the umask when it is new. *)
Definition mode_on_disk (sys : Sys) (st : OS) (path : string) (perm : Z) : Z :=
  match files st !! path with
  | Some (File _ mode) => mode
  | _ => Z.land perm (Z.lnot (sys_umask sys))
  end.

End Behaviour.

(** * More concrete cases, for the examples *)
Module Cases.

(** Only the lookup of the working directory fails. *)
Definition getwd_fails (c : call) : option error :=
  match c with
  | CallGetwd => Some (ErrSys "getwd: no such file or directory")
  | _ => None
  end.

(** No program is found on the path. *)
Definition nothing_on_path (c : call) : option error :=
  match c with
  | CallLookPath _ => Some (ErrSys "executable file not found in $PATH")
  | _ => None
  end.

(** No directory can be entered. *)
Definition chdir_fails (c : call) : option error :=
  match c with
  | CallChdir _ => Some (ErrSys "chdir: no such file or directory")
  | _ => None
  end.

(** No temporary directory can be made. *)
Definition tempdir_fails (c : call) : option error :=
  match c with
  | CallTempDir _ _ => Some (ErrSys "mkdir /tmp: read-only file system")
  | _ => None
  end.

(** Stand-ins for the functions of package [gomason] that are parameters
    of the model. *)
Definition ReadMetadata (path : string) : M (gomason.Metadata * option error) :=
  ret (Scenario.tool, None).

Definition ReadMetadata_unreadable (path : string)
  : M (gomason.Metadata * option error) :=
  ret (Scenario.tool, Some (ErrNotExist path)).

Definition Checkout (gopath : string) (meta : gomason.Metadata) (branch : string)
    (verbose : bool) : M (option error) := ret None.

Definition GoTest (gopath gomodule : string) (verbose : bool) : M (option error) :=
  ret None.

Definition GoTest_red (gopath gomodule : string) (verbose : bool) : M (option error) :=
  ret (Some Scenario.exit_status_1).

Definition PublishBuildTargets (meta : gomason.Metadata) (gopath cwd : string)
    (sign publish collect verbose : bool) : M (option error) := ret None.

Definition PublishBuildExtras (meta : gomason.Metadata) (gopath cwd : string)
    (sign publish verbose : bool) : M (option error) := ret None.

(** The sign command in the quiet environment, with a test run [test]. *)
Definition sign_with (sys : Sys) (test : string -> string -> bool -> M (option error))
    (read : string -> M (gomason.Metadata * option error)) : result cmd.ending * OS :=
  cmd.signCmd_Run sys false "master" Scenario.CreateGoPath read Checkout test
    PublishBuildTargets PublishBuildExtras Scenario.one_segment
    (Scenario.started_in "/home/dev/widget" ∅).

(** A workspace in which an output of an earlier rendering exists and is
    not executable. *)
Definition rendered_before : gmap string node :=
  {[ "/work/src/install.tmpl" := File "package version" 420;
     "/work/src/install.sh" := File "old" 420 ]}.

(** A descriptor with three targets: the second has a flag of its own and
    native interop on. *)
Definition matrix : gomason.Metadata :=
  gomason.mkMetadata "1.2.3" "acme/widget" "A widget."
    (gomason.mkBuildInformation
       [gomason.mkTarget "linux/amd64" false ∅;
        gomason.mkTarget "darwin/amd64" true {[ "CC" := "clang" ]};
        gomason.mkTarget "windows/amd64" false ∅]
       []).

Definition ReadMetadata_matrix (path : string) : M (gomason.Metadata * option error) :=
  ret (matrix, None).

(** Only a program started with [CC=clang] in its environment fails. *)
Definition clang_fails (c : call) : option error :=
  match c with
  | CallRun cmd =>
      if bool_decide ("CC=clang" ∈ cmd_env cmd) then Some Scenario.exit_status_1 else None
  | _ => None
  end.

(** The quiet environment with a umask that leaves nothing to group and
    others (077). *)
Definition private : Sys :=
  mkSys (sys_environ Scenario.quiet) 63 (sys_fail Scenario.quiet)
        (sys_which Scenario.quiet) (sys_tmpdir Scenario.quiet) (sys_random Scenario.quiet)
        (sys_exec Scenario.quiet) (sys_range Scenario.quiet).

End Cases.

Import Scenario.

(** * The signing engine *)

(** ** Examples *)

Example SignBinary_signs_as_operator :
  mason.SignBinary quiet operator_config (widget tester ∅) "gomason_linux_amd64" false
    (started_in "/home/dev" ∅)
  = (Ok None,
     mkOS ∅ "/home/dev"
       [CallLookPath "gpg";
        CallRun (Command "/usr/bin/gpg" ["-bau"; "ops@acme.io"; "gomason_linux_amd64"]
                   ["HOME=/home/dev"])]).
Proof. reflexivity. Qed.

Example SignBinary_names_operator_program :
  fst (mason.SignBinary (failing programs_fail) operator_config (widget tester ∅)
         "gomason_linux_amd64" false (started_in "/home/dev" ∅))
  = Ok (Some (ErrWrap (ErrWrap exit_status_1 "failed to run %q" [OpStr "/usr/bin/gpg"])
                "failed to run %q" [OpStr "gpg2"])).
Proof. reflexivity. Qed.

Example VerifyGPG_with_keyring :
  trace (snd (mason.VerifyGPG quiet "gomason_linux_amd64"
                (widget tester (<["trustdb" := VString "trust.db"]> keyring_only))
                (started_in "/home/dev" ∅)))
  = [CallLookPath "gpg";
     CallRun (Command "/usr/bin/gpg"
                ["--trustdb"; "trust.db"; "--no-default-keyring"; "--keyring"; "test.gpg";
                 "--verify"; "gomason_linux_amd64.asc"]
                ["HOME=/home/dev"])].
Proof. reflexivity. Qed.

(** ** Resolution of the signing identity and program *)

(** Splits on whether the string [s] is empty, in the goal and below. *)
Ltac by_emptiness s :=
  let H := fresh "Hempty" in
  destruct (String.eqb_spec s EmptyString) as [H|H]; simpl.

(** C1.  Resolution in SignBinary is total and ordered by precedence: with
    the configuration the loader returned, the function fails with the
    missing-identity error when neither the user configuration nor the
    descriptor names an identity, and otherwise signs as the user
    configuration's identity when it is non-empty and as the descriptor's
    if not; the program it reports is the user configuration's when
    non-empty, else the descriptor's, else gpg. *)
Theorem SignBinary_resolution (sys : Sys) (load : M (mason.UserConfig * option error))
    (meta : mason.Metadata) (binary : string) (verbose : bool) (st : OS) :
  mason.SignBinary sys load meta binary verbose st =
    match load st with
    | (Panic reason, st1) => (Panic reason, st1)
    | (Ok (config, _), st1) =>
        match Spec.effective_identity meta config with
        | None => (Ok (Some mason.noSigningEntity), st1)
        | Some entity =>
            match mason.SignGPG sys binary entity meta st1 with
            | (Ok None, st2) => (Ok None, st2)
            | (Ok (Some e), st2) =>
                (Ok (Some (ErrWrap e "failed to run %q"
                             [OpStr (Spec.effective_program meta config)])), st2)
            | (Panic reason, st2) => (Panic reason, st2)
            end
        end
    end.
Proof.
  unfold mason.SignBinary, bind.
  destruct (load st) as [[[config cfgerr]|reason] st1]; [|reflexivity].
  unfold Spec.effective_identity, Spec.effective_program, mason.defaultSigningProgram.
  by_emptiness (mason.User_Email config);
    by_emptiness (mason.Signing_Program config);
    by_emptiness (mason.Program (mason.SignInfo meta));
    by_emptiness (mason.Email (mason.SignInfo meta));
    repeat case_decide; try congruence; try reflexivity;
    try (by_emptiness (mason.User_Email config); [congruence|]);
    destruct (mason.SignGPG sys binary _ meta st1) as [[[e|]|reason] st2]; reflexivity.
Qed.

(** C3.  When the descriptor has no signing email and the user
    configuration supplies none, SignBinary fails at once with the
    missing-identity error, in the very state the configuration loader
    left: it makes no call of its own, so no signer is spawned. *)
Theorem SignBinary_without_identity (sys : Sys)
    (load : M (mason.UserConfig * option error)) (meta : mason.Metadata)
    (binary : string) (verbose : bool) (st st1 : OS)
    (config : mason.UserConfig) (cfgerr : option error) :
  load st = (Ok (config, cfgerr), st1) ->
  mason.Email (mason.SignInfo meta) = EmptyString ->
  mason.User_Email config = EmptyString ->
  mason.SignBinary sys load meta binary verbose st = (Ok (Some mason.noSigningEntity), st1)
  ∧ trace (snd (mason.SignBinary sys load meta binary verbose st)) = trace st1.
Proof.
  intros Hload Hmeta Hconfig.
  assert (mason.SignBinary sys load meta binary verbose st
          = (Ok (Some mason.noSigningEntity), st1)) as ->; [|done].
  unfold mason.SignBinary, bind. rewrite Hload, Hmeta, Hconfig. reflexivity.
Qed.

Lemma SignBinary_without_identity_witness :
  no_user_config (started_in "/home/dev" ∅)
    = (Ok (mason.mkUserConfig EmptyString EmptyString, Some (ErrNotExist "~/.gomason")),
       started_in "/home/dev" ∅)
  ∧ mason.Email (mason.SignInfo (widget unsigned ∅)) = EmptyString
  ∧ mason.User_Email (mason.mkUserConfig EmptyString EmptyString) = EmptyString
  ∧ mason.SignBinary quiet no_user_config (widget unsigned ∅) "gomason_linux_amd64" false
      (started_in "/home/dev" ∅)
    = (Ok (Some mason.noSigningEntity), started_in "/home/dev" ∅).
Proof.
  split; [reflexivity|]. split; [reflexivity|]. split; [reflexivity|].
  apply (SignBinary_without_identity quiet no_user_config (widget unsigned ∅)
           "gomason_linux_amd64" false (started_in "/home/dev" ∅)
           (started_in "/home/dev" ∅) (mason.mkUserConfig EmptyString EmptyString)
           (Some (ErrNotExist "~/.gomason"))); reflexivity.
Defined.



(** ** The signer's options *)

(** C9.  With a keyring among the options and no string under trustdb,
    signing and verifying both panic on the unchecked type assertion, once
    gpg has been found and before any program is run. *)
Theorem gpg_keyring_without_trustdb (sys : Sys) (meta : mason.Metadata)
    (binary entity : string) (st : OS) (keyring : value) :
  sys_fail sys (CallLookPath "gpg") st = None ->
  mason.Options meta !! "keyring" = Some keyring ->
  (∀ t, mason.Options meta !! "trustdb" ≠ Some (VString t)) ->
  (∃ reason, mason.SignGPG sys binary entity meta st
             = (Panic reason, record (CallLookPath "gpg") st))
  ∧ (∃ reason, mason.VerifyGPG sys binary meta st
               = (Panic reason, record (CallLookPath "gpg") st)).
Proof.
  intros Hfound Hkeyring Htrustdb.
  assert (∃ reason, assert_string (index (mason.Options meta) "trustdb") = Panic reason)
    as [reason Hpanic].
  { unfold index.
    destruct (mason.Options meta !! "trustdb") as [[| t |ty]|] eqn:Hlookup; simpl; eauto.
    by destruct (Htrustdb t). }
  split; exists reason.
  - unfold mason.SignGPG, bind, LookPath, lift. rewrite Hfound, Hkeyring, Hpanic. reflexivity.
  - unfold mason.VerifyGPG, bind, LookPath, lift. rewrite Hfound, Hkeyring, Hpanic. reflexivity.
Qed.

Lemma gpg_keyring_without_trustdb_witness :
  sys_fail quiet (CallLookPath "gpg") (started_in "/home/dev" ∅) = None
  ∧ mason.Options (widget tester keyring_only) !! "keyring" = Some (VString "test.gpg")
  ∧ (∀ t, mason.Options (widget tester keyring_only) !! "trustdb" ≠ Some (VString t))
  ∧ (∃ reason, mason.SignGPG quiet "gomason_linux_amd64" "gomason-tester@foo.com"
                 (widget tester keyring_only) (started_in "/home/dev" ∅)
               = (Panic reason, record (CallLookPath "gpg") (started_in "/home/dev" ∅)))
  ∧ (∃ reason, mason.VerifyGPG quiet "gomason_linux_amd64"
                 (widget tester keyring_only) (started_in "/home/dev" ∅)
               = (Panic reason, record (CallLookPath "gpg") (started_in "/home/dev" ∅))).
Proof.
  assert (∀ t, mason.Options (widget tester keyring_only) !! "trustdb" ≠ Some (VString t))
    as Hnone by (intros t; vm_compute; discriminate).
  split; [reflexivity|]. split; [reflexivity|]. split; [exact Hnone|].
  apply (gpg_keyring_without_trustdb quiet (widget tester keyring_only)
           "gomason_linux_amd64" "gomason-tester@foo.com" (started_in "/home/dev" ∅)
           (VString "test.gpg")); [reflexivity|reflexivity|exact Hnone].
Defined.

(** ** Verification *)

(** C4, as the code has it.  VerifyGPG answers true, and then with no
    error, exactly when gpg was found and the verifier, run once on the
    signature at the binary path with [.asc] appended, exited with status
    zero.  When gpg is not found the verifier is not run and the answer is
    false with the wrapped lookup error.  When gpg is found and the options
    are well typed, VerifyGPG returns: a verifier that fails (a missing
    signature is seen only this way) gives false together with the
    verifier's error. *)
Theorem VerifyGPG_reports (sys : Sys) (binary : string) (meta : mason.Metadata) (st : OS) :
  let r := fst (mason.VerifyGPG sys binary meta st) in
  let st' := snd (mason.VerifyGPG sys binary meta st) in
  let found := record (CallLookPath "gpg") st in
  let verifier store :=
    Command (sys_which sys "gpg" st) (store ++ ["--verify"; binary +:+ ".asc"])
      (sys_environ sys) in
  (∀ err, r = Ok (true, err)
          ↔ err = None
            ∧ sys_fail sys (CallLookPath "gpg") st = None
            ∧ ∃ store, sys_fail sys (CallRun (verifier store)) found = None
                       ∧ trace st' = trace st ++ [CallLookPath "gpg"; CallRun (verifier store)])
  ∧ (∀ e, sys_fail sys (CallLookPath "gpg") st = Some e ->
          mason.VerifyGPG sys binary meta st
          = (Ok (false,
                 Some (ErrWrap e "can't find signing program 'gpg' in path.  Is it installed?"
                         [])),
             found))
  ∧ (sys_fail sys (CallLookPath "gpg") st = None ->
     Spec.gpg_options_typed meta ->
     ∃ store,
       (store = [] ↔ mason.Options meta !! "keyring" = None)
       ∧ mason.VerifyGPG sys binary meta st
         = (Ok match sys_fail sys (CallRun (verifier store)) found with
               | None => (true, None)
               | Some e => (false, Some e)
               end,
            record (CallRun (verifier store))
              (set_files (snd (sys_exec sys (verifier store) found)) found))).
Proof.
  intros r st' found verifier. subst r st'.
  unfold mason.VerifyGPG, Spec.gpg_options_typed, bind, LookPath, lift, index, Run, bind,
    CombinedOutput, set_env, Environ.
  destruct (sys_fail sys (CallLookPath "gpg") st) as [e|] eqn:Hfound; simpl.
  { split; [|split; [by intros e' [= <-] | done]].
    intros err. split; [done | by intros (_ & [=] & _)]. }
  fold found.
  destruct (mason.Options meta !! "keyring") as [keyring|] eqn:Hkeyring; simpl.
  - destruct (mason.Options meta !! "trustdb") as [[|t|ty]|] eqn:Htrustdb; simpl;
      try (split; [|split; [done | by intros _ [_ [t' [=]]]]];
           intros err; split; [done|]; intros (_ & _ & store & _ & Htrace);
           apply app_inv_head in Htrace; discriminate Htrace).
    destruct keyring as [|k|ty]; simpl;
      try (split; [|split; [done | by intros _ [[k' [=]] _]]];
           intros err; split; [done|]; intros (_ & _ & store & _ & Htrace);
           apply app_inv_head in Htrace; discriminate Htrace).
    change (Command (sys_which sys "gpg" st)
              ["--trustdb"; t; "--no-default-keyring"; "--keyring"; k; "--verify";
               binary +:+ ".asc"] (sys_environ sys))
      with (verifier ["--trustdb"; t; "--no-default-keyring"; "--keyring"; k]).
    destruct (sys_fail sys (CallRun (verifier _)) found) as [e|] eqn:Hexit; simpl;
      (split; [|split; [done|]]).
    + intros err. split; [done|]. intros (_ & _ & store & Hexit' & Htrace).
      rewrite <- app_assoc in Htrace. apply app_inv_head in Htrace.
      injection Htrace as Hargs.
      apply (app_inv_tail ["--verify"; binary +:+ ".asc"]
               ["--trustdb"; t; "--no-default-keyring"; "--keyring"; k] store)
        in Hargs as <-.
      congruence.
    + intros _ _. exists ["--trustdb"; t; "--no-default-keyring"; "--keyring"; k].
      by rewrite Hexit.
    + intros err. split; [|by intros (-> & _)]. intros [= <-].
      split; [done|]. split; [done|]. eexists. split; [exact Hexit|].
      by rewrite <- app_assoc.
    + intros _ _. exists ["--trustdb"; t; "--no-default-keyring"; "--keyring"; k].
      by rewrite Hexit.
  - change (Command (sys_which sys "gpg" st) ["--verify"; binary +:+ ".asc"]
              (sys_environ sys)) with (verifier []).
    destruct (sys_fail sys (CallRun (verifier [])) found) as [e|] eqn:Hexit; simpl;
      (split; [|split; [done|]]).
    + intros err. split; [done|]. intros (_ & _ & store & Hexit' & Htrace).
      rewrite <- app_assoc in Htrace. apply app_inv_head in Htrace.
      injection Htrace as Hargs.
      apply (app_inv_tail ["--verify"; binary +:+ ".asc"] [] store) in Hargs as <-.
      congruence.
    + intros _ _. exists []. by rewrite Hexit.
    + intros err. split; [|by intros (-> & _)]. intros [= <-].
      split; [done|]. split; [done|]. exists []. split; [exact Hexit|].
      by rewrite <- app_assoc.
    + intros _ _. exists []. by rewrite Hexit.
Qed.

Lemma VerifyGPG_reports_witness :
  sys_fail (failing Cases.nothing_on_path) (CallLookPath "gpg") (started_in "/home/dev" ∅)
    = Some (ErrSys "executable file not found in $PATH")
  ∧ mason.VerifyGPG (failing Cases.nothing_on_path) "gomason_linux_amd64" (widget tester ∅)
      (started_in "/home/dev" ∅)
    = (Ok (false,
           Some (ErrWrap (ErrSys "executable file not found in $PATH")
                   "can't find signing program 'gpg' in path.  Is it installed?" [])),
       mkOS ∅ "/home/dev" [CallLookPath "gpg"])
  ∧ sys_fail quiet (CallLookPath "gpg") (started_in "/home/dev" ∅) = None
  ∧ Spec.gpg_options_typed (widget tester ∅)
  ∧ fst (mason.VerifyGPG quiet "gomason_linux_amd64" (widget tester ∅)
           (started_in "/home/dev" ∅))
    = Ok (true, None).
Proof.
  assert (Spec.gpg_options_typed (widget tester ∅)) as Htyped by (vm_compute; exact I).
  split; [reflexivity|]. split.
  { exact (proj1 (proj2 (VerifyGPG_reports (failing Cases.nothing_on_path)
                           "gomason_linux_amd64" (widget tester ∅)
                           (started_in "/home/dev" ∅))) _ eq_refl). }
  split; [reflexivity|]. split; [exact Htyped|].
  destruct (proj2 (proj2 (VerifyGPG_reports quiet "gomason_linux_amd64" (widget tester ∅)
                            (started_in "/home/dev" ∅))) eq_refl Htyped)
    as (store & _ & ->).
  reflexivity.
Defined.

(** A verifier that exits with status 1 makes VerifyGPG answer false and
    return the verifier's error, and a verifier that is not found makes it
    answer false and return the wrapped lookup error: the failure does not
    come without an error. *)
Lemma VerifyGPG_failure_has_error :
  fst (mason.VerifyGPG (failing programs_fail) "gomason_linux_amd64" (widget tester ∅)
         (started_in "/home/dev" ∅))
    = Ok (false, Some exit_status_1)
  ∧ fst (mason.VerifyGPG (failing programs_fail) "gomason_linux_amd64" (widget tester ∅)
           (started_in "/home/dev" ∅))
    ≠ Ok (false, None)
  ∧ fst (mason.VerifyGPG (failing Cases.nothing_on_path) "gomason_linux_amd64"
           (widget tester ∅) (started_in "/home/dev" ∅))
    = Ok (false,
          Some (ErrWrap (ErrSys "executable file not found in $PATH")
                  "can't find signing program 'gpg' in path.  Is it installed?" []))
  ∧ fst (mason.VerifyGPG (failing Cases.nothing_on_path) "gomason_linux_amd64"
           (widget tester ∅) (started_in "/home/dev" ∅))
    ≠ Ok (false, None).
Proof.
  split; [reflexivity|]. split; [vm_compute; discriminate|].
  split; [reflexivity | vm_compute; discriminate].
Qed.

(** * The build matrix and the collection of binaries *)

(** ** Strings *)

Lemma append_cons (c : Ascii.ascii) (s t : string) :
  String c s +:+ t = String c (s +:+ t).
Proof. reflexivity. Qed.

Lemma append_nil_r (s : string) : s +:+ EmptyString = s.
Proof. induction s as [|c s IH]; [done|]. by rewrite append_cons, IH. Qed.

Lemma append_assoc (a b c : string) : (a +:+ b) +:+ c = a +:+ b +:+ c.
Proof. induction a as [|x a IH]; [done|]. by rewrite !append_cons, IH. Qed.

Lemma length_append (a b : string) :
  String.length (a +:+ b) = String.length a + String.length b.
Proof. induction a as [|x a IH]; [done|]. rewrite append_cons. simpl. by rewrite IH. Qed.

Lemma concat_cons (s : string) (l : list string) :
  String.concat EmptyString (s :: l) = s +:+ String.concat EmptyString l.
Proof. destruct l; simpl; [by rewrite append_nil_r | done]. Qed.

Lemma concat_app (l1 l2 : list string) :
  String.concat EmptyString (l1 ++ l2)
    = String.concat EmptyString l1 +:+ String.concat EmptyString l2.
Proof.
  induction l1 as [|s l1 IH]; [done|].
  rewrite <- app_comm_cons, !concat_cons, IH. by rewrite append_assoc.
Qed.

(** ** Loops *)

Lemma for_range_cons {A R : Type} (x : A) (l : list A) (body : A -> M (option R)) (st : OS) :
  for_range (x :: l) body st =
    match body x st with
    | (Ok None, st') => for_range l body st'
    | (Ok (Some v), st') => (Ok (Some v), st')
    | (Panic reason, st') => (Panic reason, st')
    end.
Proof. reflexivity. Qed.

Lemma fold_left_snoc {A B : Type} (f : B -> A) (l : list B) (init : list A) :
  fold_left (fun acc x => acc ++ [f x]) l init = init ++ (f <$> l).
Proof.
  revert init. induction l as [|x l IH]; intros init; simpl.
  - by rewrite app_nil_r.
  - rewrite IH. by rewrite <- app_assoc.
Qed.

(** ** The build matrix *)

Lemma buildTarget_run (sys : Sys) (gopath gox : string) (verbose : bool)
    (target : gomason.Target) (st : OS) :
  gomason.buildTarget sys gopath gox verbose target st =
    (match sys_fail sys (CallRun (Spec.compiler_run sys gopath gox target)) st with
     | Some e => Ok (Some (Some e))
     | None => Ok None
     end,
     record (CallRun (Spec.compiler_run sys gopath gox target))
       (set_files (snd (sys_exec sys (Spec.compiler_run sys gopath gox target) st)) st)).
Proof.
  unfold gomason.buildTarget, bind, CombinedOutput, set_env, Environ, Spec.compiler_run.
  simpl. rewrite fold_left_snoc, <- app_assoc.
  destruct (sys_fail sys (CallRun _) st); reflexivity.
Qed.

Lemma compiler_run_env (sys : Sys) (gopath gox : string) (target : gomason.Target)
    (entry : string) :
  sys_range sys (gomason.Flags target) ≡ₚ map_to_list (gomason.Flags target) ->
  entry ∈ cmd_env (Spec.compiler_run sys gopath gox target)
  ↔ entry ∈ sys_environ sys
    ∨ entry = "GOPATH=" +:+ gopath
    ∨ ∃ k v, gomason.Flags target !! k = Some v ∧ entry = k +:+ "=" +:+ v.
Proof.
  intros Hrange. unfold Spec.compiler_run. simpl.
  rewrite elem_of_app, elem_of_cons, list_elem_of_fmap.
  split.
  - intros [H|[H|([k v] & -> & Hkv)]]; [by left|by right; left|].
    right; right. exists k, v. split; [|done].
    rewrite Hrange in Hkv. by apply elem_of_map_to_list in Hkv.
  - intros [H|[H|(k & v & Hkv & ->)]]; [by left|by right; left|].
    right; right. exists (k, v). split; [done|].
    rewrite Hrange. by apply elem_of_map_to_list.
Qed.

(** A target with native interop on and no flags is compiled in an
    environment of two entries, the inherited one and the module root: the
    option is in the command line, and the environment is not the overlay
    with a variable enabling native interop, whatever that variable.  It
    is so in the loop and in a whole run of Build, whose programs are the
    installation of the cross-compiler and that one compiler run.  And
    when a step before the loop fails, here the change into the package
    directory, Build returns that error and no target is compiled. *)
Lemma cgo_flag_outside_environment :
  trace (snd (gomason.buildTargets quiet "/work/go" "/work/go/bin/gox" false [cgo_target]
                (started_in "/home/dev/widget" ∅)))
    = [CallRun (Command "sh"
                  ["-c"; "/work/go/bin/gox -cgo -osarch=" +:+ dquote +:+ "linux/amd64"
                           +:+ dquote +:+ " ./..."]
                  ["HOME=/home/dev"; "GOPATH=/work/go"])]
  ∧ ¬ (∃ flag, ["HOME=/home/dev"; "GOPATH=/work/go"]
               = Spec.claimed_overlay quiet "/work/go" cgo_target flag)
  ∧ filter Behaviour.is_run
      (trace (snd (gomason.Build quiet Cases.ReadMetadata Cases.Checkout one_segment
                     "/work/go" tool "master" false
                     (started_in "/home/dev/widget" stale_workspace))))
    = [CallRun (Command "/usr/bin/go" ["get"; "github.com/mitchellh/gox"]
                  ["HOME=/home/dev"; "GOPATH=/work/go"]);
       CallRun (Command "sh"
                  ["-c"; "/work/go/bin/gox -cgo -osarch=" +:+ dquote +:+ "linux/amd64"
                           +:+ dquote +:+ " ./..."]
                  ["HOME=/home/dev"; "GOPATH=/work/go"])]
  ∧ fst (gomason.Build (failing Cases.chdir_fails) Cases.ReadMetadata Cases.Checkout
           one_segment "/work/go" tool "master" false
           (started_in "/home/dev/widget" stale_workspace))
    = Ok (Some (ErrSys "chdir: no such file or directory"))
  ∧ filter Behaviour.is_run
      (trace (snd (gomason.Build (failing Cases.chdir_fails) Cases.ReadMetadata
                     Cases.Checkout one_segment "/work/go" tool "master" false
                     (started_in "/home/dev/widget" stale_workspace))))
    = [CallRun (Command "/usr/bin/go" ["get"; "github.com/mitchellh/gox"]
                  ["HOME=/home/dev"; "GOPATH=/work/go"])].
Proof.
  split; [reflexivity|]. split; [|repeat split; reflexivity].
  intros [flag Hflag]. vm_compute in Hflag. discriminate.
Qed.

Example buildTargets_stops_at_first_failure :
  gomason.buildTargets (failing programs_fail) "/work/go" "/work/go/bin/gox" false
    [gomason.mkTarget "linux/amd64" false {[ "GOARM" := "7" ]};
     gomason.mkTarget "darwin/amd64" false ∅]
    (started_in "/home/dev/widget" ∅)
  = (Ok (Some (Some exit_status_1)),
     mkOS ∅ "/home/dev/widget"
       [CallRun (Command "sh"
                   ["-c"; "/work/go/bin/gox -osarch=" +:+ dquote +:+ "linux/amd64"
                            +:+ dquote +:+ " ./..."]
                   ["HOME=/home/dev"; "GOPATH=/work/go"; "GOARM=7"])]).
Proof. reflexivity. Qed.

(** ** strings.Split *)

Example Split_package :
  Split "github.com/nikogura/gomason" slash = ["github.com"; "nikogura"; "gomason"].
Proof. reflexivity. Qed.

Example Split_edges :
  Split EmptyString slash = [EmptyString]
  ∧ Split "linux" slash = ["linux"]
  ∧ Split "/a/" slash = [EmptyString; "a"; EmptyString].
Proof. repeat split; reflexivity. Qed.

Lemma Split_nonempty (s : string) (sep : Ascii.ascii) : Split s sep ≠ [].
Proof.
  destruct s as [|c s]; simpl; [done|].
  destruct (Ascii.eqb c sep); [done|]. by destruct (Split s sep).
Qed.

Lemma Split_app (a b : string) (sep : Ascii.ascii) :
  Split (a +:+ String sep b) sep = Split a sep ++ Split b sep.
Proof.
  induction a as [|c a IH]; simpl.
  - by rewrite Ascii.eqb_refl.
  - rewrite IH. destruct (Ascii.eqb c sep); [done|].
    pose proof (Split_nonempty a sep). by destruct (Split a sep).
Qed.

Lemma Split_no_slash (s : string) : Spec.no_slash s = true -> Split s slash = [s].
Proof.
  induction s as [|c s IH]; simpl; [done|].
  intros [Hc Hs]%andb_prop. apply negb_true_iff in Hc. rewrite Hc, (IH Hs). done.
Qed.

Lemma Split_platform (platform : string * string) :
  Spec.no_slash platform.1 = true -> Spec.no_slash platform.2 = true ->
  Split (Spec.platform_string platform) slash = [platform.1; platform.2].
Proof.
  intros Hos Harch. unfold Spec.platform_string.
  change (platform.1 +:+ "/" +:+ platform.2) with (platform.1 +:+ String slash platform.2).
  by rewrite Split_app, (Split_no_slash _ Hos), (Split_no_slash _ Harch).
Qed.

Lemma package_tail (parent : option string) (tail : string) :
  Spec.no_slash tail = true ->
  mason.at_last (Split (Spec.package_path parent tail) slash) = Ok tail.
Proof.
  intros Htail. unfold mason.at_last, Spec.package_path.
  destruct parent as [dir|].
  - change (dir +:+ "/" +:+ tail) with (dir +:+ String slash tail).
    by rewrite Split_app, (Split_no_slash _ Htail), last_snoc.
  - by rewrite (Split_no_slash _ Htail).
Qed.

(** ** What the runtime calls leave in the trace *)

Lemma Stat_returns (sys : Sys) (path : string) (st : OS) :
  ∃ err, Stat sys path st = (Ok err, record (CallStat path) st).
Proof.
  unfold Stat. destruct (sys_fail sys _ st); [by eexists|].
  destruct (files st !! path); by eexists.
Qed.

Lemma Rename_returns (sys : Sys) (oldpath newpath : string) (st : OS) :
  ∃ err st', Rename sys oldpath newpath st = (Ok err, st')
             ∧ trace st' = trace st ++ [CallRename oldpath newpath].
Proof.
  unfold Rename. destruct (sys_fail sys _ st); [by eexists _, _|].
  destruct (files st !! oldpath); by eexists _, _.
Qed.

Section Collect.
Context (sys : Sys) (gopath cwd : string) (parent : option string) (tail : string).
Context (md : mason.Metadata).

Local Abbreviation package := (Spec.package_path parent tail).
Local Abbreviation built := (Spec.built_binary gopath package tail).
Local Abbreviation collected := (Spec.collected_binary cwd tail).
Local Abbreviation moves := (Spec.moves gopath cwd package tail).

Lemma collectBinary_step (platform : string * string) (st : OS) :
  Spec.well_formed platform ->
  mason.collectBinary sys gopath cwd package tail md (Spec.platform_string platform) st =
    (let* staterr := Stat sys (built platform) in
     if IsNotExist staterr then ret (Some (md, Some (Spec.missing_binary (built platform))))
     else
       let* err := Rename sys (built platform) (collected platform) in
       match err with
       | Some e => ret (Some (md, Some (Spec.not_collected e (built platform))))
       | None => ret None
       end) st.
Proof.
  intros [Hos Harch]. unfold mason.collectBinary.
  rewrite (Split_platform _ Hos Harch). unfold bind at 1 2. unfold lift. simpl.
  unfold bind. destruct (Stat sys _ st) as [[staterr|reason] st1]; [|done].
  destruct (IsNotExist staterr); [done|].
  by destruct (Rename sys _ _ st1) as [[[e|]|reason] st2].
Qed.

Lemma collectBinary_outcome (platform : string * string) (st : OS) :
  Spec.well_formed platform ->
  let r := fst (mason.collectBinary sys gopath cwd package tail md
                  (Spec.platform_string platform) st) in
  let st' := snd (mason.collectBinary sys gopath cwd package tail md
                    (Spec.platform_string platform) st) in
  (r = Ok None ∧ trace st' = trace st ++ moves platform)
  ∨ (r = Ok (Some (md, Some (Spec.missing_binary (built platform))))
     ∧ trace st' = trace st ++ [CallStat (built platform)])
  ∨ (∃ e, r = Ok (Some (md, Some (Spec.not_collected e (built platform))))
          ∧ trace st' = trace st ++ moves platform).
Proof.
  intros Hwf. rewrite (collectBinary_step _ _ Hwf). unfold bind.
  destruct (Stat_returns sys (built platform) st) as [staterr ->].
  destruct (IsNotExist staterr); [right; left; done|].
  destruct (Rename_returns sys (built platform) (collected platform)
              (record (CallStat (built platform)) st)) as (err & st2 & -> & Htrace).
  simpl in Htrace. rewrite <- app_assoc in Htrace.
  destruct err as [e|]; [right; right; by exists e | by left].
Qed.

End Collect.

Example widget_binary_name :
  Spec.binary_name "widget" ("linux", "amd64") = "widget_linux_amd64"
  ∧ mason.at_last (Split "acme/widget" slash) = Ok "widget".
Proof. split; reflexivity. Qed.

Example collectBinaries_misses_a_binary :
  fst (mason.collectBinaries quiet "/work/go" "/home/dev/widget"
         "github.com/nikogura/gomason" "gomason" (Spec.with_workdir "/work")
         ["linux/amd64"; "darwin/amd64"] (started_in "/home/dev/widget" stale_workspace))
  = Ok (Some (Spec.with_workdir "/work",
              Some (Spec.missing_binary
                      "/work/go/src/github.com/nikogura/gomason/gomason_darwin_amd64"))).
Proof. reflexivity. Qed.

Example collectBinary_panics_without_slash :
  ∃ reason,
    fst (mason.collectBinaries quiet "/work/go" "/home/dev/widget"
           "github.com/nikogura/gomason" "gomason" (Spec.with_workdir "/work")
           ["linux"] (started_in "/home/dev/widget" stale_workspace))
    = Panic reason.
Proof. by eexists. Qed.

(** * Extra artifacts *)

(** ** Rendering *)

Lemma placeholder_rendered (meta : gomason.Metadata) (f : gomason.field)
    (segments : list gomason.segment) :
  gomason.Placeholder f ∈ segments ->
  Spec.contains (gomason.field_value meta f)
    (String.concat EmptyString (gomason.render_segment meta <$> segments)).
Proof.
  intros (before & after & ->)%list_elem_of_split.
  exists (String.concat EmptyString (gomason.render_segment meta <$> before)),
         (String.concat EmptyString (gomason.render_segment meta <$> after)).
  by rewrite fmap_app, fmap_cons, concat_app, concat_cons.
Qed.

Example BuildExtras_writes_installer :
  files (snd (gomason.BuildExtras quiet one_segment tool "/work/src" false
                (started_in "/work/src" templates))) !! "/work/src/install.sh"
  = Some (File "acme/widget 1.2.3" 493).
Proof. reflexivity. Qed.

(** * The pipeline run *)

(** What a loop returns, one of its bodies returned. *)
Lemma for_range_returned {A R : Type} (l : list A) (body : A -> M (option R))
    (st st' : OS) (v : R) :
  for_range l body st = (Ok (Some v), st') ->
  ∃ x s, x ∈ l ∧ body x s = (Ok (Some v), st').
Proof.
  revert st. induction l as [|x l IH]; intros st; [done|].
  rewrite for_range_cons.
  destruct (body x st) as [[[v'|]|reason] st1] eqn:Hbody; [| |done].
  - intros [= -> ->]. exists x, st. split; [left|done].
  - intros (y & s & Hy & Hs)%IH. exists y, s. split; [by right|done].
Qed.

Section Pipeline.
Context (sys : Sys).
Context (CreateGoPath : string -> M (string * option error)).
Context (ReadMetadata : string -> M (mason.Metadata * option error)).
Context (GitSSHUrlFromPackage : string -> string).
Context (Checkout : string -> string -> string -> bool -> M (option error)).

Local Abbreviation WholeShebang :=
  (mason.WholeShebang sys CreateGoPath ReadMetadata GitSSHUrlFromPackage Checkout).
Local Abbreviation runPipeline :=
  (mason.runPipeline sys CreateGoPath ReadMetadata GitSSHUrlFromPackage Checkout).
Local Abbreviation with_workdir := Spec.with_workdir.
Local Abbreviation with_gopath := Spec.with_gopath.
Local Abbreviation with_package := (Spec.with_package GitSSHUrlFromPackage).

Lemma collectBinary_returned (gopath cwd package binaryPrefix : string)
    (md md' : mason.Metadata) (arch : string) (err : option error) (st st' : OS) :
  mason.collectBinary sys gopath cwd package binaryPrefix md arch st
    = (Ok (Some (md', err)), st') ->
  md' = md
  ∧ ∃ binary,
      err = Some (Spec.missing_binary binary)
      ∨ ∃ e destination s,
          err = Some (Spec.not_collected e binary)
          ∧ Rename sys binary destination s = (Ok (Some e), st').
Proof.
  unfold mason.collectBinary, bind, lift.
  destruct (mason.at_index _ 0) as [osname|]; [|done].
  destruct (mason.at_index _ 1) as [archname|]; [|done].
  destruct (Stat sys _ st) as [[staterr|] st1]; [|done].
  destruct (IsNotExist staterr).
  - intros [= -> <- <-]. split; [done|]. eexists. by left.
  - destruct (Rename sys _ _ st1) as [[[e|]|] st2] eqn:Hrename; [|done|done].
    intros [= -> <- <-]. split; [done|]. eexists. right. by eexists _, _, _.
Qed.

Lemma runPipeline_returned (dir cwd branch : string) (build sign publish verbose : bool)
    (st st' : OS) (md : mason.Metadata) (err : option error) :
  runPipeline dir cwd branch build sign publish verbose st = (Ok (md, err), st') ->
  (md = with_workdir dir
   ∧ ∃ s gopath, CreateGoPath dir s = (Ok (gopath, err), st') ∧ is_Some err)
  ∨ (∃ gopath,
       md = with_gopath dir gopath
       ∧ ((∃ s, mason.GovendorInstall sys gopath verbose s = (Ok err, st') ∧ is_Some err)
          ∨ (∃ e s descriptor,
               err = Some (ErrWrap e "couldn't read package information from metadata.json." [])
               ∧ ReadMetadata "metadata.json" s = (Ok (descriptor, Some e), st'))))
  ∨ (∃ gopath descriptor,
       md = with_package dir gopath descriptor
       ∧ (err = None
          ∨ (∃ e s,
               err = Some (ErrWrap e "failed to checkout package %s at branch %s: %s"
                             [OpStr (mason.Package descriptor); OpStr branch; OpErr e])
               ∧ Checkout gopath (mason.Package descriptor) branch verbose s
                 = (Ok (Some e), st'))
          ∨ (∃ e s,
               err = Some (ErrWrap e "error running govendor sync" [])
               ∧ mason.GovendorSync sys gopath (mason.Package descriptor) verbose s
                 = (Ok (Some e), st'))
          ∨ (∃ e s,
               err = Some (ErrWrap e "error running go test" [])
               ∧ mason.GoTest sys gopath (mason.Package descriptor) verbose s
                 = (Ok (Some e), st'))
          ∨ (build = true
             ∧ ∃ binary,
                 err = Some (Spec.missing_binary binary)
                 ∨ ∃ e destination s,
                     err = Some (Spec.not_collected e binary)
                     ∧ Rename sys binary destination s = (Ok (Some e), st')))).
Proof.
  unfold runPipeline, mason.runPipeline, bind, lift, ret.
  destruct (CreateGoPath dir st) as [[[gopath [e|]]|] s1] eqn:Hgopath; [| |done].
  { intros [= <- <- <-]. left. split; [done|]. by eexists _, _. }
  destruct (mason.GovendorInstall sys gopath verbose s1) as [[[e|]|] s2] eqn:Hinstall;
    [| |done].
  { intros [= <- <- <-]. right; left. eexists. split; [done|]. left. by eexists. }
  destruct (ReadMetadata _ s2) as [[[descriptor [e|]]|] s3] eqn:Hread; [| |done].
  { intros [= <- <- <-]. right; left. eexists. split; [done|]. right. by eexists _, _, _. }
  destruct (Checkout gopath _ branch verbose s3) as [[[e|]|] s4] eqn:Hcheckout; [| |done].
  { intros [= <- <- <-]. right; right. eexists _, _. split; [done|].
    right; left. by eexists _, _. }
  destruct (mason.GovendorSync sys gopath _ verbose s4) as [[[e|]|] s5] eqn:Hsync; [| |done].
  { intros [= <- <- <-]. right; right. eexists _, _. split; [done|].
    right; right; left. by eexists _, _. }
  destruct (mason.GoTest sys gopath _ verbose s5) as [[[e|]|] s6] eqn:Htest; [| |done].
  { intros [= <- <- <-]. right; right. eexists _, _. split; [done|].
    right; right; right; left. by eexists _, _. }
  destruct build.
  - destruct (mason.Build _ _ _ _ _ _ _ _) as [[builderr|] s7]; [|done].
    destruct (mason.at_last _) as [binaryPrefix|]; [|done].
    destruct (mason.collectBinaries _ _ _ _ _ _ _ s7) as [[[[md' err']|]|] s8] eqn:Hcollect;
      [| |done].
    + intros [= <- <- <-].
      apply for_range_returned in Hcollect as (arch & s & _ & Hbody).
      apply collectBinary_returned in Hbody as [-> Herr].
      right; right. eexists _, _. split; [done|]. right; right; right; right. done.
    + intros [= <- <- <-]. right; right. eexists _, _. split; [done|]. by left.
  - intros [= <- <- <-]. right; right. eexists _, _. split; [done|]. by left.
Qed.

Lemma runPipeline_WorkDir (dir cwd branch : string) (build sign publish verbose : bool)
    (st st' : OS) (md : mason.Metadata) (err : option error) :
  runPipeline dir cwd branch build sign publish verbose st = (Ok (md, err), st') ->
  mason.WorkDir md = dir.
Proof.
  intros [[-> _]|[(gopath & -> & _)|(gopath & descriptor & -> & _)]]%runPipeline_returned;
    reflexivity.
Qed.

End Pipeline.


Lemma append_nonempty (a b : string) (c : Ascii.ascii) : a +:+ String c b ≠ EmptyString.
Proof. by destruct a. Qed.

Lemma append_proper (a b : string) : a +:+ b = a -> b = EmptyString.
Proof.
  induction a as [|c a IH]; [done|]. rewrite append_cons. intros [= H]. by apply IH.
Qed.

(** ** Computations that keep a property of the state *)

Lemma preserves_ret {A : Type} (I : OS -> Prop) (a : A) : Spec.preserves I (ret a).
Proof. by intros st. Qed.

Lemma preserves_lift {A : Type} (I : OS -> Prop) (r : result A) : Spec.preserves I (lift r).
Proof. by intros st. Qed.

Lemma preserves_bind {A B : Type} (I : OS -> Prop) (m : M A) (k : A -> M B) :
  Spec.preserves I m ->
  (∀ a s s', m s = (Ok a, s') -> Spec.preserves I (k a)) ->
  Spec.preserves I (bind m k).
Proof.
  intros Hm Hk st HI. unfold bind. specialize (Hm st HI).
  destruct (m st) as [[a|reason] s'] eqn:Hrun; simpl in *; [|done].
  by apply (Hk a st s' Hrun).
Qed.

Lemma preserves_for_range {A R : Type} (I : OS -> Prop) (l : list A)
    (body : A -> M (option R)) :
  (∀ x, Spec.preserves I (body x)) -> Spec.preserves I (for_range l body).
Proof.
  intros Hbody. induction l as [|x l IH]; intros st HI; [done|].
  rewrite for_range_cons. specialize (Hbody x st HI).
  destruct (body x st) as [[[v|]|reason] s']; simpl in *; [done| |done].
  by apply IH.
Qed.

Create HintDb keeps.

Section Keeps.
Context (sys : Sys) (path : string).
Context (Hprograms : Spec.programs_preserve sys (Spec.exists_path path)).

Local Abbreviation keeps := (Spec.preserves (Spec.exists_path path)).

Lemma keeps_Getwd : keeps (Getwd sys).
Proof. intros st H. unfold Getwd. by destruct (sys_fail sys _ st). Qed.

Lemma keeps_Chdir (dir : string) : keeps (Chdir sys dir).
Proof. intros st H. unfold Chdir. by destruct (sys_fail sys _ st). Qed.

Lemma keeps_Stat (p : string) : keeps (Stat sys p).
Proof.
  intros st H. unfold Stat. destruct (sys_fail sys _ st); [done|].
  by destruct (files st !! p).
Qed.

Lemma keeps_LookPath (file : string) : keeps (LookPath sys file).
Proof. intros st H. unfold LookPath. by destruct (sys_fail sys _ st). Qed.

Lemma keeps_CombinedOutput (c : Cmd) : keeps (CombinedOutput sys c).
Proof. intros st H. exact (Hprograms c st H). Qed.

Lemma keeps_Run (c : Cmd) : keeps (Run sys c).
Proof.
  apply preserves_bind; [apply keeps_CombinedOutput|].
  intros [out err] _ _ _. apply preserves_ret.
Qed.

Lemma keeps_Rename (oldpath newpath : string) :
  oldpath ≠ path -> keeps (Rename sys oldpath newpath).
Proof.
  intros Hne st H. unfold Rename. destruct (sys_fail sys _ st); [done|].
  destruct (files st !! oldpath) as [n|]; [|done].
  unfold Spec.exists_path in *. simpl.
  destruct (decide (newpath = path)) as [->|Hnew].
  - by rewrite lookup_insert_eq.
  - by rewrite lookup_insert_ne, lookup_delete_ne.
Qed.

Hint Resolve preserves_ret preserves_lift keeps_Getwd keeps_Chdir keeps_Stat
  keeps_LookPath keeps_CombinedOutput keeps_Run : keeps.

Ltac keeps_step :=
  first
    [ solve [eauto with keeps]
    | apply preserves_bind; [|intros ? ? ? ?]
    | match goal with
      | |- Spec.preserves _ (match ?x with _ => _ end) => destruct x
      | |- Spec.preserves _ (if ?b then _ else _) => destruct b
      | |- Spec.preserves _ (let (_, _) := ?x in _) => destruct x
      end ].

Lemma keeps_GovendorInstall (gopath : string) (verbose : bool) :
  keeps (mason.GovendorInstall sys gopath verbose).
Proof. unfold mason.GovendorInstall. repeat keeps_step. Qed.

Lemma keeps_GovendorSync (gopath gomodule : string) (verbose : bool) :
  keeps (mason.GovendorSync sys gopath gomodule verbose).
Proof. unfold mason.GovendorSync. repeat keeps_step. Qed.

Lemma keeps_GoTest (gopath gomodule : string) (verbose : bool) :
  keeps (mason.GoTest sys gopath gomodule verbose).
Proof. unfold mason.GoTest. repeat keeps_step. Qed.

Lemma keeps_GoxInstall (gopath : string) (verbose : bool) :
  keeps (mason.GoxInstall sys gopath verbose).
Proof. unfold mason.GoxInstall. repeat keeps_step. Qed.

Context (CreateGoPath : string -> M (string * option error)).
Context (ReadMetadata : string -> M (mason.Metadata * option error)).
Context (GitSSHUrlFromPackage : string -> string).
Context (Checkout : string -> string -> string -> bool -> M (option error)).
Context (HCreateGoPath : ∀ dir, keeps (CreateGoPath dir)).
Context (HReadMetadata : ∀ file, keeps (ReadMetadata file)).
Context (HCheckout : ∀ gopath package branch verbose,
            keeps (Checkout gopath package branch verbose)).

Hint Resolve keeps_GovendorInstall keeps_GovendorSync keeps_GoTest keeps_GoxInstall
  HCreateGoPath HReadMetadata HCheckout : keeps.

Lemma keeps_Build (gopath gomodule branch : string) (verbose : bool) :
  keeps (mason.Build sys ReadMetadata Checkout gopath gomodule branch verbose).
Proof. unfold mason.Build. repeat keeps_step. Qed.

Lemma keeps_collectBinaries (rest cwd package binaryPrefix : string)
    (md : mason.Metadata) (targets : list string) :
  keeps (mason.collectBinaries sys (path +:+ rest) cwd package binaryPrefix md targets).
Proof.
  apply preserves_for_range. intros arch. unfold mason.collectBinary.
  repeat keeps_step.
  apply keeps_Rename. rewrite !append_assoc. intros Heq%append_proper.
  by apply append_nonempty in Heq.
Qed.

Lemma keeps_runPipeline (cwd branch : string) (build sign publish verbose : bool) :
  (∀ s gopath s', CreateGoPath path s = (Ok (gopath, None), s') ->
                  ∃ rest, gopath = path +:+ rest) ->
  keeps (mason.runPipeline sys CreateGoPath ReadMetadata GitSSHUrlFromPackage Checkout
           path cwd branch build sign publish verbose).
Proof.
  intros Hinside. unfold mason.runPipeline.
  apply preserves_bind; [eauto with keeps|].
  intros [gopath [e|]] s s' Hgopath; [apply preserves_ret|].
  destruct (Hinside _ _ _ Hgopath) as [rest ->].
  pose proof keeps_Build. pose proof keeps_collectBinaries.
  repeat keeps_step.
Qed.

End Keeps.

Section Workspace.
Context (sys : Sys).
Context (CreateGoPath : string -> M (string * option error)).
Context (ReadMetadata : string -> M (mason.Metadata * option error)).
Context (GitSSHUrlFromPackage : string -> string).
Context (Checkout : string -> string -> string -> bool -> M (option error)).

Local Abbreviation WholeShebang :=
  (mason.WholeShebang sys CreateGoPath ReadMetadata GitSSHUrlFromPackage Checkout).

Lemma RemoveAll_removes (dir : string) (c : Ascii.ascii) (name : string) (st : OS) :
  let path := dir +:+ String c name in
  sys_fail sys (CallRemoveAll path) st = None ->
  files (snd (RemoveAll sys path st)) !! path = None
  ∧ last (trace (snd (RemoveAll sys path st))) = Some (CallRemoveAll path).
Proof.
  intros path Hfail. unfold RemoveAll. rewrite Hfail.
  destruct (String.eqb_spec path EmptyString) as [Hempty|_].
  { by apply append_nonempty in Hempty. }
  simpl. split; [|by rewrite last_snoc].
  apply map_lookup_filter_None. right. intros n _. simpl.
  unfold under. by rewrite String.eqb_refl.
Qed.

(** A run whose working-directory lookup succeeds settles its workspace
    as follows.  Given the empty path, when TempDir hands out a
    directory, that directory did not exist before, exists once made, is
    the WorkDir of the result, and is removed by the last call of the run,
    after which it does not exist, provided the removal itself does not
    fail.  Given a path, that path is the WorkDir of the result, and if
    it exists when the run starts it exists when the run ends, as long as
    the programs and the package's own helpers leave it in place and the
    module root lies inside it. *)
Lemma WholeShebang_workspace (workDir branch : string)
    (build sign publish verbose : bool) (st : OS) :
  let r := fst (WholeShebang workDir branch build sign publish verbose st) in
  let st' := snd (WholeShebang workDir branch build sign publish verbose st) in
  sys_fail sys CallGetwd st = None ->
  (workDir = EmptyString ->
   ∀ dir st1,
     TempDir sys EmptyString "gomason" (record CallGetwd st) = (Ok (dir, None), st1) ->
     (∀ s, sys_fail sys (CallRemoveAll dir) s = None) ->
     files st !! dir = None
     ∧ files st1 !! dir = Some Dir
     ∧ (∀ md err, r = Ok (md, err) -> mason.WorkDir md = dir)
     ∧ last (trace st') = Some (CallRemoveAll dir)
     ∧ files st' !! dir = None)
  ∧ (workDir ≠ EmptyString ->
     (∀ md err, r = Ok (md, err) -> mason.WorkDir md = workDir)
     ∧ (Spec.exists_path workDir st ->
        Spec.programs_preserve sys (Spec.exists_path workDir) ->
        (∀ dir, Spec.preserves (Spec.exists_path workDir) (CreateGoPath dir)) ->
        (∀ file, Spec.preserves (Spec.exists_path workDir) (ReadMetadata file)) ->
        (∀ gopath package branch verbose,
           Spec.preserves (Spec.exists_path workDir)
             (Checkout gopath package branch verbose)) ->
        (∀ s gopath s', CreateGoPath workDir s = (Ok (gopath, None), s') ->
                        ∃ rest, gopath = workDir +:+ rest) ->
        Spec.exists_path workDir st')).
Proof.
  intros r st' Hgetwd. subst r st'.
  unfold WholeShebang, mason.WholeShebang, bind, Getwd. rewrite Hgetwd.
  split.
  - intros -> dir st1 Htemp Hremove. simpl. rewrite Htemp. unfold defer.
    destruct (mason.runPipeline _ _ _ _ _ _ _ _ _ _ _ _ st1) as [r1 st2] eqn:Hrun.
    simpl.
    unfold TempDir in Htemp.
    destruct (sys_fail sys (CallTempDir _ _) _); [done|]. simpl in Htemp.
    destruct (files st !! _) eqn:Hfresh; [done|].
    injection Htemp as <- <-.
    split; [exact Hfresh|]. split; [apply lookup_insert_eq|].
    split.
    { intros md err ->. by eapply runPipeline_WorkDir. }

    match goal with |- context [RemoveAll sys (?d +:+ "/" +:+ ?n) st2] =>
      destruct (RemoveAll_removes d (Ascii.ascii_of_nat 47) n st2 (Hremove st2))
        as [Hgone Hlast]
    end.
    split; [exact Hlast | exact Hgone].
  - intros Hexplicit. apply String.eqb_neq in Hexplicit. rewrite Hexplicit.
    split.
    { intros md err Hr.
      destruct (mason.runPipeline _ _ _ _ _ _ _ _ _ _ _ _ _) as [r1 st2] eqn:Hrun.
      simpl in Hr. subst r1. by eapply runPipeline_WorkDir. }
    intros Hexists Hprograms Hcreate Hread Hcheckout Hinside.
    by apply (keeps_runPipeline sys workDir Hprograms CreateGoPath ReadMetadata
                GitSSHUrlFromPackage Checkout Hcreate Hread Hcheckout).
Qed.

End Workspace.

Example WholeShebang_workspace_cases :
  sys_fail quiet CallGetwd (started_in "/home/dev/widget" ∅) = None
  ∧ fst (TempDir quiet EmptyString "gomason"
           (record CallGetwd (started_in "/home/dev/widget" ∅)))
    = Ok ("/tmp/gomason428117", None)
  ∧ files (snd (run_with quiet CreateGoPath EmptyString true ∅)) !! "/tmp/gomason428117"
    = None
  ∧ Spec.exists_path "/work" (started_in "/home/dev/widget" stale_workspace)
  ∧ Spec.exists_path "/work" (snd (run_with quiet CreateGoPath "/work" true stale_workspace)).
Proof.
  assert (Spec.exists_path "/work" (started_in "/home/dev/widget" stale_workspace))
    as Hexists by (vm_compute; eauto).
  split; [reflexivity|]. split; [reflexivity|]. split; [|split; [exact Hexists|]].
  - destruct (WholeShebang_workspace quiet CreateGoPath ReadMetadata GitSSHUrlFromPackage
                Checkout EmptyString "master" true true false false
                (started_in "/home/dev/widget" ∅) eq_refl) as [Htemp _].
    destruct (Htemp eq_refl "/tmp/gomason428117" _ eq_refl (fun _ => eq_refl))
      as (_ & _ & _ & _ & Hgone).
    exact Hgone.
  - destruct (WholeShebang_workspace quiet CreateGoPath ReadMetadata GitSSHUrlFromPackage
                Checkout "/work" "master" true true false false
                (started_in "/home/dev/widget" stale_workspace) eq_refl) as [_ Hexplicit].
    destruct Hexplicit as [_ Hkept]; [discriminate|].
    apply Hkept; [exact Hexists| | | | |].
    + intros c st H. exact H.
    + intros dir st [n Hn]. unfold CreateGoPath, Spec.exists_path. simpl.
      destruct (decide (dir +:+ "/go" = "/work")) as [->|Hne].
      * rewrite lookup_insert_eq. eauto.
      * rewrite lookup_insert_ne; eauto.
    + intros file st H. exact H.
    + intros gopath package branch verbose st H. exact H.
    + intros s gopath s' [= <- _]. by exists "/go".
Defined.

Example WholeShebang_in_temporary_directory :
  trace (snd (run_with quiet CreateGoPath EmptyString false ∅))
  = [CallGetwd; CallTempDir EmptyString "gomason";
     CallRun (Command "go" ["get"; "github.com/kardianos/govendor"]
                ["HOME=/home/dev"; "GOPATH=/tmp/gomason428117/go"]);
     CallChdir "/tmp/gomason428117/go/src/github.com/nikogura/gomason";
     CallRun (Command "/tmp/gomason428117/go/bin/govendor" ["sync"]
                ["HOME=/home/dev"; "GOPATH=/tmp/gomason428117/go"]);
     CallChdir "/tmp/gomason428117/go/src/github.com/nikogura/gomason";
     CallRun (Command "go" ["test"; "-v"; "./..."]
                ["HOME=/home/dev"; "GOPATH=/tmp/gomason428117/go"]);
     CallRemoveAll "/tmp/gomason428117"].
Proof. reflexivity. Qed.

(** * More on the signing engine *)

(** X1.  VerifyGPG and VerifyBinary answer true exactly when they return
    no error: a failure never comes without an error and a success never
    with one. *)
Theorem Verify_ok_iff_no_error (sys : Sys) (binary : string) (meta : mason.Metadata)
    (st : OS) :
  match fst (mason.VerifyGPG sys binary meta st) with
  | Ok (ok, err) => ok = true ↔ err = None
  | Panic _ => True
  end
  ∧ match fst (mason.VerifyBinary sys binary meta st) with
    | Ok (ok, err) => ok = true ↔ err = None
    | Panic _ => True
    end.
Proof.
  assert (match fst (mason.VerifyGPG sys binary meta st) with
          | Ok (ok, err) => ok = true ↔ err = None
          | Panic _ => True
          end) as Hgpg.
  { unfold mason.VerifyGPG, bind, LookPath, lift.
    destruct (sys_fail sys (CallLookPath "gpg") st); simpl; [done|].
    destruct (mason.Options meta !! "keyring") as [keyring|]; simpl.
    - destruct (assert_string (index _ _)); simpl; [|done].
      destruct (assert_string keyring); simpl; [|done].
      unfold Run, bind, CombinedOutput. simpl.
      by destruct (sys_fail sys (CallRun _) _).
    - unfold Run, bind, CombinedOutput. simpl.
      by destruct (sys_fail sys (CallRun _) _). }
  split; [exact Hgpg|].
  unfold mason.VerifyBinary, bind.
  destruct (mason.VerifyGPG sys binary meta st) as [[[ok [e|]]|reason] st1];
    simpl in *; [|exact Hgpg|done].
  split; [intros Hok%Hgpg; discriminate | discriminate].
Qed.

(** X2.  SignGPG and VerifyGPG panic exactly when gpg is found and the
    options hold a keyring without both the keyring and the trust database
    being strings; when gpg is not found, no options make them panic: they
    return the lookup error, wrapped, having made no other call. *)
Theorem gpg_panics_iff (sys : Sys) (binary entity : string) (meta : mason.Metadata)
    (st : OS) :
  ((∃ reason, fst (mason.SignGPG sys binary entity meta st) = Panic reason)
   ↔ sys_fail sys (CallLookPath "gpg") st = None ∧ ¬ Spec.gpg_options_typed meta)
  ∧ ((∃ reason, fst (mason.VerifyGPG sys binary meta st) = Panic reason)
     ↔ sys_fail sys (CallLookPath "gpg") st = None ∧ ¬ Spec.gpg_options_typed meta)
  ∧ (∀ e, sys_fail sys (CallLookPath "gpg") st = Some e ->
          let not_found :=
            ErrWrap e "can't find signing program 'gpg' in path.  Is it installed?" [] in
          mason.SignGPG sys binary entity meta st
            = (Ok (Some not_found), record (CallLookPath "gpg") st)
          ∧ mason.VerifyGPG sys binary meta st
            = (Ok (false, Some not_found), record (CallLookPath "gpg") st)).
Proof.
  assert (((∃ reason, fst (mason.SignGPG sys binary entity meta st) = Panic reason)
           ↔ sys_fail sys (CallLookPath "gpg") st = None ∧ ¬ Spec.gpg_options_typed meta)
          ∧ ((∃ reason, fst (mason.VerifyGPG sys binary meta st) = Panic reason)
             ↔ sys_fail sys (CallLookPath "gpg") st = None
               ∧ ¬ Spec.gpg_options_typed meta)) as [Hsign Hverify].
  { unfold mason.SignGPG, mason.VerifyGPG, Spec.gpg_options_typed, bind, LookPath, lift,
      index, Run, bind, CombinedOutput.
    destruct (sys_fail sys (CallLookPath "gpg") st) as [e|]; simpl.
    { split; (split; [intros [reason [=]] | intros [[=] _]]). }
    destruct (mason.Options meta !! "keyring") as [keyring|]; simpl.
    - destruct (mason.Options meta !! "trustdb") as [[|t|ty]|]; simpl;
        try (split; (split; [intros _; split; [done|]; intros [_ [t' [=]]] | by eexists])).
      destruct keyring as [|k|ty]; simpl;
        try (split; (split; [intros _; split; [done|]; intros [[k' [=]] _] | by eexists])).
      split; (split; [|intros [_ []]; split; by eexists]).
      + destruct (sys_fail sys (CallRun _) _); intros [reason [=]].
      + destruct (sys_fail sys (CallRun _) _); intros [reason [=]].
    - split; (split; [|by intros [_ []]]).
      + destruct (sys_fail sys (CallRun _) _); intros [reason [=]].
      + destruct (sys_fail sys (CallRun _) _); intros [reason [=]]. }
  split; [exact Hsign|]. split; [exact Hverify|].
  intros e Hfail not_found. unfold mason.SignGPG, mason.VerifyGPG, bind, LookPath.
  by rewrite Hfail.
Qed.

Lemma gpg_panics_iff_witness :
  sys_fail (failing Cases.nothing_on_path) (CallLookPath "gpg") (started_in "/home/dev" ∅)
    = Some (ErrSys "executable file not found in $PATH")
  ∧ mason.SignGPG (failing Cases.nothing_on_path) "gomason_linux_amd64"
      "gomason-tester@foo.com" (widget tester keyring_only) (started_in "/home/dev" ∅)
    = (Ok (Some (ErrWrap (ErrSys "executable file not found in $PATH")
                   "can't find signing program 'gpg' in path.  Is it installed?" [])),
       mkOS ∅ "/home/dev" [CallLookPath "gpg"]).
Proof.
  split; [reflexivity|].
  exact (proj1 (proj2 (proj2 (gpg_panics_iff (failing Cases.nothing_on_path)
                                "gomason_linux_amd64" "gomason-tester@foo.com"
                                (widget tester keyring_only) (started_in "/home/dev" ∅)))
                  _ eq_refl)).
Defined.

(** X3.  With gpg found and well-typed options, signing and verifying each
    start gpg once, in the inherited environment, and pass it the same
    keyring and trust-database options before their own arguments; these
    options are absent exactly when the descriptor has no keyring; SignGPG
    returns the exit error of gpg wrapped, and none when gpg exits with
    status zero. *)
Theorem sign_and_verify_share_the_store (sys : Sys) (binary entity : string)
    (meta : mason.Metadata) (st : OS) :
  sys_fail sys (CallLookPath "gpg") st = None ->
  Spec.gpg_options_typed meta ->
  ∃ store,
    let gpg := sys_which sys "gpg" st in
    let signer := Command gpg (store ++ ["-bau"; entity; binary]) (sys_environ sys) in
    let verifier := Command gpg (store ++ ["--verify"; binary +:+ ".asc"]) (sys_environ sys) in
    (store = [] ↔ mason.Options meta !! "keyring" = None)
    ∧ trace (snd (mason.SignGPG sys binary entity meta st))
      = trace st ++ [CallLookPath "gpg"; CallRun signer]
    ∧ trace (snd (mason.VerifyGPG sys binary meta st))
      = trace st ++ [CallLookPath "gpg"; CallRun verifier]
    ∧ fst (mason.SignGPG sys binary entity meta st)
      = Ok (Wrap (sys_fail sys (CallRun signer) (record (CallLookPath "gpg") st))
              "failed to run %q" [OpStr gpg]).
Proof.
  intros Hfound Htyped. unfold Spec.gpg_options_typed in Htyped.
  unfold mason.SignGPG, mason.VerifyGPG, bind, LookPath, lift, index, Run, bind,
    CombinedOutput, set_env, Environ.
  rewrite Hfound. simpl.
  destruct (mason.Options meta !! "keyring") as [keyring|] eqn:Hkeyring.
  - destruct Htyped as [[k ->] [t ->]]. simpl.
    exists ["--trustdb"; t; "--no-default-keyring"; "--keyring"; k]. simpl.
    split; [done|].
    destruct (sys_fail sys (CallRun _) _); simpl;
      destruct (sys_fail sys (CallRun _) _); simpl;
      rewrite <- !app_assoc; done.
  - exists []. simpl. split; [done|].
    destruct (sys_fail sys (CallRun _) _); simpl;
      destruct (sys_fail sys (CallRun _) _); simpl;
      rewrite <- !app_assoc; done.
Qed.

Lemma sign_and_verify_share_the_store_witness :
  sys_fail quiet (CallLookPath "gpg") (started_in "/home/dev" ∅) = None
  ∧ Spec.gpg_options_typed (widget tester (<["trustdb" := VString "trust.db"]> keyring_only))
  ∧ ∃ store,
      trace (snd (mason.SignGPG quiet "gomason_linux_amd64" "gomason-tester@foo.com"
                    (widget tester (<["trustdb" := VString "trust.db"]> keyring_only))
                    (started_in "/home/dev" ∅)))
      = [CallLookPath "gpg";
         CallRun (Command "/usr/bin/gpg"
                    (store ++ ["-bau"; "gomason-tester@foo.com"; "gomason_linux_amd64"])
                    ["HOME=/home/dev"])].
Proof.
  assert (Spec.gpg_options_typed
            (widget tester (<["trustdb" := VString "trust.db"]> keyring_only))) as Htyped.
  { vm_compute. split; eauto. }
  split; [reflexivity|]. split; [exact Htyped|].
  destruct (sign_and_verify_share_the_store quiet "gomason_linux_amd64"
              "gomason-tester@foo.com" _ (started_in "/home/dev" ∅) eq_refl Htyped)
    as (store & _ & Hsign & _).
  exists store. exact Hsign.
Defined.

Lemma SignGPG_reads_options_only (sys : Sys) (binary entity : string)
    (meta meta' : mason.Metadata) (st : OS) :
  mason.Options meta = mason.Options meta' ->
  mason.SignGPG sys binary entity meta st = mason.SignGPG sys binary entity meta' st.
Proof. intros Hoptions. unfold mason.SignGPG. by rewrite Hoptions. Qed.

(** X4.  What SignBinary does depends on the descriptor through its email
    and its options only, and on the user configuration through its email
    only: whatever signing program either names, the calls made, the state
    left and whether an error comes back are the same.  The program named
    is never the one that is run. *)
Theorem SignBinary_never_runs_the_named_program (sys : Sys)
    (load : M (mason.UserConfig * option error)) (meta meta' : mason.Metadata)
    (program : string) (binary : string) (verbose : bool) (st : OS) :
  mason.Email (mason.SignInfo meta) = mason.Email (mason.SignInfo meta') ->
  mason.Options meta = mason.Options meta' ->
  let run := mason.SignBinary sys load meta binary verbose st in
  let run' :=
    mason.SignBinary sys (Behaviour.with_user_program program load) meta' binary verbose st in
  snd run = snd run'
  ∧ (fst run = Ok None ↔ fst run' = Ok None)
  ∧ ((∃ reason, fst run = Panic reason) ↔ (∃ reason, fst run' = Panic reason)).
Proof.
  intros Hemail Hoptions. unfold mason.SignBinary, bind, Behaviour.with_user_program.
  rewrite Hemail.
  destruct (load st) as [[[config cfgerr]|reason] st1]; simpl; [|done].
  destruct (if negb (String.eqb (mason.User_Email config) EmptyString)
            then mason.User_Email config
            else mason.Email (mason.SignInfo meta')) as [|c entity] eqn:Hentity; simpl.
  { split; [done|]. split; split; intros H; try discriminate; by destruct H. }
  rewrite (SignGPG_reads_options_only sys binary _ meta meta' st1 Hoptions).
  destruct (mason.SignGPG sys binary _ meta' st1) as [[[e|]|reason] st2]; simpl.
  - split; [done|]. split; split; intros H; try discriminate; by destruct H.
  - done.
  - done.
Qed.

Lemma SignBinary_never_runs_the_named_program_witness :
  mason.Email (mason.SignInfo (widget tester ∅))
    = mason.Email (mason.SignInfo
                     (widget (mason.mkSigningInfo "openssl" "gomason-tester@foo.com") ∅))
  ∧ mason.Options (widget tester ∅)
    = mason.Options (widget (mason.mkSigningInfo "openssl" "gomason-tester@foo.com") ∅)
  ∧ snd (mason.SignBinary quiet no_user_config (widget tester ∅) "gomason_linux_amd64"
           false (started_in "/home/dev" ∅))
    = snd (mason.SignBinary quiet (Behaviour.with_user_program "minisign" no_user_config)
             (widget (mason.mkSigningInfo "openssl" "gomason-tester@foo.com") ∅)
             "gomason_linux_amd64" false (started_in "/home/dev" ∅)).
Proof.
  split; [reflexivity|]. split; [reflexivity|].
  exact (proj1 (SignBinary_never_runs_the_named_program quiet no_user_config
                  (widget tester ∅)
                  (widget (mason.mkSigningInfo "openssl" "gomason-tester@foo.com") ∅)
                  "minisign" "gomason_linux_amd64" false (started_in "/home/dev" ∅)
                  eq_refl eq_refl)).
Defined.

(** * More on the helpers of the pipeline *)

(** X5.  GovendorSync asks for the working directory only when verbose:
    once in the package directory, a failing lookup of the working
    directory ends a verbose call with the wrapped error before govendor
    is started, while the same call without verbose starts govendor and
    makes no lookup. *)
Theorem GovendorSync_verbose_can_fail_alone (sys : Sys) (gopath gomodule : string)
    (st : OS) (e : error) :
  let dir := gopath +:+ "/src/" +:+ gomodule in
  let inside := record (CallChdir dir) (set_wd dir st) in
  let govendor :=
    Command (gopath +:+ "/bin/govendor") ["sync"] (Behaviour.module_env sys gopath) in
  sys_fail sys (CallChdir dir) st = None ->
  sys_fail sys CallGetwd inside = Some e ->
  mason.GovendorSync sys gopath gomodule true st
    = (Ok (Some (ErrWrap e "failed to get working directory" [])), record CallGetwd inside)
  ∧ mason.GovendorSync sys gopath gomodule false st
    = (Ok (sys_fail sys (CallRun govendor) inside),
       record (CallRun govendor) (set_files (snd (sys_exec sys govendor inside)) inside)).
Proof.
  intros dir inside govendor Hchdir Hgetwd.
  unfold mason.GovendorSync, bind, Chdir, Getwd, Run, bind, CombinedOutput.
  fold dir. rewrite Hchdir. fold inside. rewrite Hgetwd. done.
Qed.

Lemma GovendorSync_verbose_can_fail_alone_witness :
  sys_fail (failing Cases.getwd_fails) (CallChdir "/work/go/src/acme/widget")
    (started_in "/home/dev" ∅) = None
  ∧ fst (mason.GovendorSync (failing Cases.getwd_fails) "/work/go" "acme/widget" true
           (started_in "/home/dev" ∅))
    = Ok (Some (ErrWrap (ErrSys "getwd: no such file or directory")
                  "failed to get working directory" []))
  ∧ fst (mason.GovendorSync (failing Cases.getwd_fails) "/work/go" "acme/widget" false
           (started_in "/home/dev" ∅))
    = Ok None.
Proof.
  split; [reflexivity|].
  destruct (GovendorSync_verbose_can_fail_alone (failing Cases.getwd_fails) "/work/go"
              "acme/widget" (started_in "/home/dev" ∅) _ eq_refl eq_refl) as [-> ->].
  split; reflexivity.
Defined.

(** X6.  GovendorSync and GoTest enter the package directory and do not
    come back: when the directory cannot be entered they return that error
    as it is and start no program; when it can, the process is left in
    [<gopath>/src/<module>], whatever the program does. *)
Theorem package_directory_is_entered_for_good (sys : Sys) (gopath gomodule : string)
    (verbose : bool) (st : OS) :
  let dir := gopath +:+ "/src/" +:+ gomodule in
  (∀ e, sys_fail sys (CallChdir dir) st = Some e ->
        mason.GovendorSync sys gopath gomodule verbose st
          = (Ok (Some e), record (CallChdir dir) st)
        ∧ mason.GoTest sys gopath gomodule verbose st
          = (Ok (Some e), record (CallChdir dir) st))
  ∧ (sys_fail sys (CallChdir dir) st = None ->
     wd (snd (mason.GovendorSync sys gopath gomodule verbose st)) = dir
     ∧ wd (snd (mason.GoTest sys gopath gomodule verbose st)) = dir).
Proof.
  intros dir. split.
  - intros e Hchdir.
    unfold mason.GovendorSync, mason.GoTest, bind, Chdir. fold dir. by rewrite Hchdir.
  - intros Hchdir.
    unfold mason.GovendorSync, mason.GoTest, bind, Chdir, Getwd, Run, bind, CombinedOutput.
    fold dir. rewrite Hchdir. simpl.
    split; [|done].
    destruct verbose; [|done].
    by destruct (sys_fail sys CallGetwd _).
Qed.

Lemma package_directory_is_entered_for_good_witness :
  sys_fail (failing Cases.chdir_fails) (CallChdir "/work/go/src/acme/widget")
    (started_in "/home/dev" ∅) = Some (ErrSys "chdir: no such file or directory")
  ∧ trace (snd (mason.GoTest (failing Cases.chdir_fails) "/work/go" "acme/widget" false
                  (started_in "/home/dev" ∅)))
    = [CallChdir "/work/go/src/acme/widget"]
  ∧ sys_fail quiet (CallChdir "/work/go/src/acme/widget") (started_in "/home/dev" ∅) = None
  ∧ wd (snd (mason.GoTest quiet "/work/go" "acme/widget" false (started_in "/home/dev" ∅)))
    = "/work/go/src/acme/widget".
Proof.
  split; [reflexivity|].
  destruct (package_directory_is_entered_for_good (failing Cases.chdir_fails) "/work/go"
              "acme/widget" false (started_in "/home/dev" ∅)) as [Hfail _].
  destruct (Hfail _ eq_refl) as [_ ->].
  split; [reflexivity|]. split; [reflexivity|].
  destruct (package_directory_is_entered_for_good quiet "/work/go" "acme/widget" false
              (started_in "/home/dev" ∅)) as [_ Hok].
  exact (proj2 (Hok eq_refl)).
Defined.

(** X7.  Every program that GovendorInstall, GovendorSync, GoTest and the
    two GoxInstall start runs in the inherited environment followed by the
    module root, [GOPATH=<gopath>]; each of them starts at most one
    program. *)
Theorem helpers_pass_the_module_root (sys : Sys) (gopath gomodule : string)
    (verbose : bool) (st : OS) :
  let by_module_root (st' : OS) :=
    ∃ calls, trace st' = trace st ++ calls
             ∧ Forall (Behaviour.runs_in (Behaviour.module_env sys gopath)) calls
             ∧ length (filter Behaviour.is_run calls) <= 1 in
  by_module_root (snd (mason.GovendorInstall sys gopath verbose st))
  ∧ by_module_root (snd (mason.GovendorSync sys gopath gomodule verbose st))
  ∧ by_module_root (snd (mason.GoTest sys gopath gomodule verbose st))
  ∧ by_module_root (snd (mason.GoxInstall sys gopath verbose st))
  ∧ by_module_root (snd (gomason.GoxInstall sys gopath verbose st)).
Proof.
  intros by_module_root. subst by_module_root. simpl.
  unfold mason.GovendorInstall, mason.GovendorSync, mason.GoTest, mason.GoxInstall,
    gomason.GoxInstall, bind, Chdir, Getwd, LookPath, Run, bind, CombinedOutput, set_env,
    Environ.
  repeat split.
  - eexists [_]. simpl. split; [done|]. split; [|done]. by repeat constructor.
  - destruct (sys_fail sys (CallChdir _) st); simpl.
    { eexists [_]. split; [done|]. split; [by repeat constructor | simpl; lia]. }
    destruct verbose; simpl.
    + destruct (sys_fail sys CallGetwd _); simpl.
      * eexists [_; _]. rewrite <- app_assoc.
        split; [done|]. split; [by repeat constructor | simpl; lia].
      * eexists [_; _; _]. rewrite <- !app_assoc.
        split; [done|]. split; [by repeat constructor | simpl; lia].
    + eexists [_; _]. rewrite <- app_assoc.
      split; [done|]. split; [by repeat constructor | simpl; lia].
  - destruct (sys_fail sys (CallChdir _) st); simpl.
    { eexists [_]. split; [done|]. split; [by repeat constructor | simpl; lia]. }
    eexists [_; _]. rewrite <- app_assoc.
    split; [done|]. split; [by repeat constructor | simpl; lia].
  - destruct (sys_fail sys (CallLookPath _) st); simpl.
    { eexists [_]. split; [done|]. split; [by repeat constructor | simpl; lia]. }
    eexists [_; _]. rewrite <- app_assoc.
    split; [done|]. split; [by repeat constructor | simpl; lia].
  - destruct (sys_fail sys (CallLookPath _) st); simpl.
    { eexists [_]. split; [done|]. split; [by repeat constructor | simpl; lia]. }
    eexists [_; _]. rewrite <- app_assoc.
    split; [done|]. split; [by repeat constructor | simpl; lia].
Qed.

(** * More on names and targets *)

Lemma Split_cons (c : Ascii.ascii) (s : string) :
  Split (String c s) slash =
    if Ascii.eqb c slash then EmptyString :: Split s slash
    else match Split s slash with
         | [] => [String c EmptyString]
         | p :: ps => String c p :: ps
         end.
Proof. reflexivity. Qed.

(** The model of [strings.Split] against [strings.Join]: joining the
    parts of a split with the separator gives the string back, no part
    holds a slash, and there is one part more than there are slashes; in
    particular a split is never empty. *)
Lemma Split_Join_round_trip (s : string) :
  Join (Split s slash) "/" = s
  ∧ Forall (fun part => Spec.no_slash part = true) (Split s slash)
  ∧ length (Split s slash) = S (Behaviour.slashes s).
Proof.
  unfold Join. induction s as [|c s (IHjoin & IHparts & IHlength)]; [by repeat constructor|].
  rewrite Split_cons. simpl Behaviour.slashes.
  destruct (Ascii.eqb c slash) eqn:Hc.
  - apply Ascii.eqb_eq in Hc as ->.
    pose proof (Split_nonempty s slash) as Hne.
    split; [|split; [by constructor | simpl; by rewrite IHlength]].
    destruct (Split s slash) as [|p ps]; [done|].
    change (String.concat "/" (EmptyString :: p :: ps))
      with ("/" +:+ String.concat "/" (p :: ps)).
    by rewrite IHjoin.
  - pose proof (Split_nonempty s slash) as Hne.
    destruct (Split s slash) as [|p ps]; [done|].
    apply Forall_cons in IHparts as [Hp Hps].
    split; [|split; [constructor; [simpl; by rewrite Hc, Hp | done] | exact IHlength]].
    rewrite <- IHjoin. destruct ps; reflexivity.
Qed.

Lemma last_slash (s : string) :
  Spec.no_slash s = false ->
  ∃ dir tail, s = dir +:+ String slash tail ∧ Spec.no_slash tail = true.
Proof.
  induction s as [|c s IH]; [done|]. simpl.
  destruct (Spec.no_slash s) eqn:Hs.
  - rewrite andb_true_r. intros Hc%negb_false_iff. apply Ascii.eqb_eq in Hc as ->.
    by exists EmptyString, s.
  - intros _. destruct (IH eq_refl) as (dir & tail & -> & Htail).
    by exists (String c dir), tail.
Qed.

(** X8.  The name prefix of the binaries is defined for every package
    path: the index [len(parts)-1] is always in range, the prefix holds no
    slash, and the package path is the prefix alone or ends with a slash
    and the prefix. *)
Theorem binary_prefix_is_the_last_segment (package : string) :
  ∃ tail,
    mason.at_last (Split package slash) = Ok tail
    ∧ Spec.no_slash tail = true
    ∧ (package = tail ∨ ∃ dir, package = dir +:+ "/" +:+ tail).
Proof.
  unfold mason.at_last.
  destruct (Spec.no_slash package) eqn:Hfree.
  - exists package. rewrite (Split_no_slash _ Hfree). split; [done|]. split; [done|]. by left.
  - destruct (last_slash _ Hfree) as (dir & tail & -> & Htail).
    exists tail. rewrite Split_app, (Split_no_slash _ Htail), last_snoc.
    split; [done|]. split; [done|]. right. by exists dir.
Qed.

(** Once the parts of a target are indexed, the rest of the loop body
    returns: [Hpanic], which says it panics, is absurd. *)
Ltac returns_after_index sys st Hpanic :=
  match type of Hpanic with
  | context [Stat sys ?binary st] =>
      let staterr := fresh "staterr" in
      let Hstat := fresh "Hstat" in
      destruct (Stat_returns sys binary st) as [staterr Hstat];
      rewrite Hstat in Hpanic;
      destruct (IsNotExist staterr); [done|]
  end;
  match type of Hpanic with
  | context [Rename sys ?binary ?destination ?s] =>
      let err := fresh "err" in
      let Hrename := fresh "Hrename" in
      destruct (Rename_returns sys binary destination s) as (err & ? & Hrename & _);
      rewrite Hrename in Hpanic;
      by destruct err
  end.

(** X9.  The body of the loop over the targets panics, on the index into
    the parts of the target, exactly when the target holds no slash; it
    then has made no call. *)
Theorem collectBinary_panics_iff_no_slash (sys : Sys)
    (gopath cwd package binaryPrefix : string) (md : mason.Metadata) (arch : string)
    (st : OS) :
  ((∃ reason, fst (mason.collectBinary sys gopath cwd package binaryPrefix md arch st)
              = Panic reason)
   ↔ Spec.no_slash arch = true)
  ∧ (Spec.no_slash arch = true ->
     snd (mason.collectBinary sys gopath cwd package binaryPrefix md arch st) = st).
Proof.
  unfold mason.collectBinary, bind, lift, mason.at_index.
  destruct (Spec.no_slash arch) eqn:Hfree.
  - rewrite (Split_no_slash _ Hfree). simpl. split; [|done]. split; [done|by eexists].
  - destruct (last_slash _ Hfree) as (dir & tail & -> & Htail).
    rewrite Split_app, (Split_no_slash _ Htail).
    pose proof (Split_nonempty dir slash) as Hne.
    destruct (Split dir slash) as [|p [|q ps]]; [done| |]; simpl;
      (split; [|done]); (split; [|done]); intros [reason Hpanic];
      returns_after_index sys st Hpanic.
Qed.

Lemma collectBinary_panics_iff_no_slash_witness :
  Spec.no_slash "linux" = true
  ∧ snd (mason.collectBinary quiet "/work/go" "/home/dev/widget" "acme/widget" "widget"
           (Spec.with_workdir "/work") "linux" (started_in "/home/dev/widget" ∅))
    = started_in "/home/dev/widget" ∅.
Proof.
  split; [reflexivity|].
  exact (proj2 (collectBinary_panics_iff_no_slash quiet "/work/go" "/home/dev/widget"
                  "acme/widget" "widget" (Spec.with_workdir "/work") "linux"
                  (started_in "/home/dev/widget" ∅)) eq_refl).
Defined.

(** * More on the pipeline run *)

Lemma TempDir_made (sys : Sys) (dir prefix name : string) (st st1 : OS) :
  TempDir sys dir prefix st = (Ok (name, None), st1) ->
  ∃ parent random,
    name = parent +:+ String slash (prefix +:+ random)
    ∧ files st !! name = None
    ∧ st1 = record (CallTempDir dir prefix) (set_files (<[name := Dir]> (files st)) st).
Proof.
  unfold TempDir. destruct (sys_fail sys _ st); [done|].
  destruct (files st !! _) eqn:Hfresh; [done|].
  intros [= <- <-]. by eexists _, _.
Qed.

Lemma TempDir_not_made (sys : Sys) (dir prefix name : string) (e : error) (st st1 : OS) :
  TempDir sys dir prefix st = (Ok (name, Some e), st1) ->
  name = EmptyString ∧ st1 = record (CallTempDir dir prefix) st.
Proof.
  unfold TempDir. destruct (sys_fail sys _ st); [by intros [= <- _ <-]|].
  destruct (files st !! _); [by intros [= <- _ <-] | done].
Qed.

Lemma RemoveAll_files (sys : Sys) (path : string) (st : OS) :
  files (snd (RemoveAll sys path st))
  = match sys_fail sys (CallRemoveAll path) st with
    | Some _ => files st
    | None =>
        if String.eqb path EmptyString then files st
        else filter (fun kv => under path kv.1 = false) (files st)
    end.
Proof.
  unfold RemoveAll. destruct (sys_fail sys _ st); [done|].
  by destruct (String.eqb path EmptyString).
Qed.

Section PipelineMore.
Context (sys : Sys).
Context (CreateGoPath : string -> M (string * option error)).
Context (ReadMetadata : string -> M (mason.Metadata * option error)).
Context (GitSSHUrlFromPackage : string -> string).
Context (Checkout : string -> string -> string -> bool -> M (option error)).

Local Abbreviation WholeShebang :=
  (mason.WholeShebang sys CreateGoPath ReadMetadata GitSSHUrlFromPackage Checkout).
Local Abbreviation runPipeline :=
  (mason.runPipeline sys CreateGoPath ReadMetadata GitSSHUrlFromPackage Checkout).

(** A run without a workspace path is the pipeline in the directory
    TempDir answered, followed by the removal of that directory. *)
Lemma WholeShebang_in_TempDir (branch : string) (build sign publish verbose : bool)
    (st st1 : OS) (dir : string) (temperr : option error) :
  sys_fail sys CallGetwd st = None ->
  TempDir sys EmptyString "gomason" (record CallGetwd st) = (Ok (dir, temperr), st1) ->
  WholeShebang EmptyString branch build sign publish verbose st
  = (fst (runPipeline dir (wd st) branch build sign publish verbose st1),
     snd (RemoveAll sys dir
            (snd (runPipeline dir (wd st) branch build sign publish verbose st1)))).
Proof.
  intros Hgetwd Htemp. unfold mason.WholeShebang, bind, Getwd, defer.
  rewrite Hgetwd. simpl. rewrite Htemp.
  by destruct (mason.runPipeline _ _ _ _ _ _ _ _ _ _ _ _ st1).
Qed.

(** X10.  When the run makes its own workspace, the cleanup at its end
    removes the whole tree below the temporary directory and nothing
    else: every other path is as the pipeline left it. *)
Theorem temporary_workspace_is_removed_whole (branch : string)
    (build sign publish verbose : bool) (st st1 : OS) (dir : string) :
  sys_fail sys CallGetwd st = None ->
  TempDir sys EmptyString "gomason" (record CallGetwd st) = (Ok (dir, None), st1) ->
  (∀ s, sys_fail sys (CallRemoveAll dir) s = None) ->
  ∀ path,
    files (snd (WholeShebang EmptyString branch build sign publish verbose st)) !! path
    = if under dir path then None
      else files (snd (runPipeline dir (wd st) branch build sign publish verbose st1))
             !! path.
Proof.
  intros Hgetwd Htemp Hremove path.
  rewrite (WholeShebang_in_TempDir _ _ _ _ _ _ _ _ _ Hgetwd Htemp). simpl.
  rewrite RemoveAll_files, Hremove.
  apply TempDir_made in Htemp as (parent & random & -> & _ & _).
  destruct (String.eqb_spec (parent +:+ String slash ("gomason" +:+ random)) EmptyString)
    as [Hempty|_]; [by apply append_nonempty in Hempty|].
  destruct (under _ path) eqn:Hunder.
  - apply map_lookup_filter_None. right. intros n _. simpl. by rewrite Hunder.
  - destruct (files _ !! path) as [n|] eqn:Hpath.
    + apply map_lookup_filter_Some. by split.
    + apply map_lookup_filter_None. by left.
Qed.

(** X11.  When the temporary directory cannot be made, the run does not
    stop: it goes on as the pipeline with the empty path for workspace,
    returns what that pipeline returns, with an empty WorkDir, and the
    cleanup at the end removes nothing. *)
Theorem failed_TempDir_is_ignored (branch : string) (build sign publish verbose : bool)
    (st st1 : OS) (dir : string) (e : error) :
  sys_fail sys CallGetwd st = None ->
  TempDir sys EmptyString "gomason" (record CallGetwd st) = (Ok (dir, Some e), st1) ->
  let run := WholeShebang EmptyString branch build sign publish verbose st in
  let pipeline :=
    runPipeline EmptyString (wd st) branch build sign publish verbose
      (record (CallTempDir EmptyString "gomason") (record CallGetwd st)) in
  fst run = fst pipeline
  ∧ files (snd run) = files (snd pipeline)
  ∧ (∀ md err, fst run = Ok (md, err) -> mason.WorkDir md = EmptyString).
Proof.
  intros Hgetwd Htemp run pipeline. subst run pipeline.
  rewrite (WholeShebang_in_TempDir _ _ _ _ _ _ _ _ _ Hgetwd Htemp).
  apply TempDir_not_made in Htemp as [-> ->]. simpl.
  split; [done|]. split.
  - rewrite RemoveAll_files. destruct (sys_fail sys (CallRemoveAll _) _); reflexivity.
  - intros md err Hrun.
    destruct (mason.runPipeline _ _ _ _ _ _ _ _ _ _ _ _ _) as [r s] eqn:Hpipeline.
    simpl in Hrun. subst r. by eapply runPipeline_WorkDir.
Qed.

End PipelineMore.

Lemma temporary_workspace_is_removed_whole_witness :
  sys_fail quiet CallGetwd (started_in "/home/dev/widget" ∅) = None
  ∧ fst (TempDir quiet EmptyString "gomason"
           (record CallGetwd (started_in "/home/dev/widget" ∅)))
    = Ok ("/tmp/gomason428117", None)
  ∧ files (snd (run_with quiet CreateGoPath EmptyString true ∅)) !! "/tmp/gomason428117/go"
    = None.
Proof.
  split; [reflexivity|]. split; [reflexivity|].
  exact (temporary_workspace_is_removed_whole quiet CreateGoPath ReadMetadata
           GitSSHUrlFromPackage Checkout "master" true true false false
           (started_in "/home/dev/widget" ∅) _ "/tmp/gomason428117" eq_refl eq_refl
           (fun _ => eq_refl) "/tmp/gomason428117/go").
Defined.

Lemma failed_TempDir_is_ignored_witness :
  sys_fail (failing Cases.tempdir_fails) CallGetwd (started_in "/home/dev/widget" ∅) = None
  ∧ fst (TempDir (failing Cases.tempdir_fails) EmptyString "gomason"
           (record CallGetwd (started_in "/home/dev/widget" ∅)))
    = Ok (EmptyString, Some (ErrSys "mkdir /tmp: read-only file system"))
  ∧ fst (run_with (failing Cases.tempdir_fails) CreateGoPath EmptyString false ∅)
    = Ok (Spec.with_package GitSSHUrlFromPackage EmptyString "/go" (widget tester ∅), None).
Proof.
  split; [reflexivity|]. split; [reflexivity|].
  destruct (failed_TempDir_is_ignored (failing Cases.tempdir_fails) CreateGoPath
              ReadMetadata GitSSHUrlFromPackage Checkout "master" false true false false
              (started_in "/home/dev/widget" ∅) _ EmptyString _ eq_refl eq_refl)
    as (Hrun & _ & _).
  unfold run_with. rewrite Hrun. reflexivity.
Defined.

(** * More on Build *)

Section BuildMore.
Context (sys : Sys).
Context (ReadMetadata : string -> M (gomason.Metadata * option error)).
Context (Checkout : string -> gomason.Metadata -> string -> bool -> M (option error)).
Context (template_syntax : string -> list gomason.segment + error).
Context (ReadMetadata_mason : string -> M (mason.Metadata * option error)).
Context (Checkout_mason : string -> string -> string -> bool -> M (option error)).

Local Abbreviation Build := (gomason.Build sys ReadMetadata Checkout template_syntax).
Local Abbreviation Build_mason := (mason.Build sys ReadMetadata_mason Checkout_mason).

(** X12.  Both Build functions look for the cross-compiler at
    [<gopath>/go/bin/gox], which is not where they run it from
    ([<gopath>/bin/gox]): when nothing is at the first path they install
    the cross-compiler again, whatever is at the second, and a failing
    installation ends Build with the wrapped error before anything is
    checked out or compiled. *)
Theorem Build_looks_for_gox_elsewhere (gopath gomodule branch : string) (verbose : bool)
    (meta : gomason.Metadata) (st : OS) (e : error) :
  let looked_for := gopath +:+ "/go/bin/gox" in
  let st1 := record (CallStat looked_for) st in
  let st2 := record (CallLookPath "go") st1 in
  let install := Behaviour.gox_install_run sys (sys_which sys "go" st1) gopath in
  let st3 := record (CallRun install) (set_files (snd (sys_exec sys install st2)) st2) in
  sys_fail sys (CallStat looked_for) st = None ->
  files st !! looked_for = None ->
  sys_fail sys (CallLookPath "go") st1 = None ->
  sys_fail sys (CallRun install) st2 = Some e ->
  Build gopath meta branch verbose st
    = (Ok (Some (ErrWrap e "Failed to install gox" [])), st3)
  ∧ Build_mason gopath gomodule branch verbose st
    = (Ok (Some (ErrWrap e "Failed to install gox" [])), st3).
Proof.
  intros looked_for st1 st2 install st3 Hstat Hfile Hgo Hinstall.
  unfold gomason.Build, mason.Build, bind, Stat.
  fold looked_for. rewrite Hstat, Hfile. fold st1. simpl.
  unfold gomason.GoxInstall, mason.GoxInstall, bind, LookPath.
  rewrite Hgo. fold st2.
  unfold Run, bind, CombinedOutput, set_env, Environ. simpl.
  fold (Behaviour.module_env sys gopath).
  change (Command (sys_which sys "go" st1) ["get"; "github.com/mitchellh/gox"]
            (Behaviour.module_env sys gopath)) with install.
  by rewrite Hinstall.
Qed.

Lemma buildTargets_returned (gopath gox : string) (verbose : bool)
    (targets : list gomason.Target) (st st' : OS) (err : option error) :
  gomason.buildTargets sys gopath gox verbose targets st = (Ok (Some err), st') ->
  ∃ target s e,
    target ∈ targets ∧ err = Some e
    ∧ sys_fail sys (CallRun (Spec.compiler_run sys gopath gox target)) s = Some e.
Proof.
  intros (target & s & Hin & Hbody)%for_range_returned.
  rewrite buildTarget_run in Hbody.
  destruct (sys_fail sys (CallRun _) s) as [e|] eqn:Hexit; [|done].
  injection Hbody as <- _. by exists target, s, e.
Qed.

(** X13.  Every error Build returns is one of six: the wrapped error of
    the installation of the cross-compiler, the wrapped error of the
    checkout, the error of entering the package directory as it is, the
    wrapped error of reading the descriptor of the checked-out code, the
    exit error, as it is, of the compiler on a target of that descriptor,
    or the wrapped error of BuildExtras. *)
Theorem Build_reports (gopath branch : string) (verbose : bool) (meta : gomason.Metadata)
    (st st' : OS) (err : error) :
  let package_dir := gopath +:+ "/src/" +:+ gomason.Package meta in
  let descriptor := gopath +:+ "/src/" +:+ gomason.Package meta +:+ "/metadata.json" in
  Build gopath meta branch verbose st = (Ok (Some err), st') ->
  (∃ e s s', err = ErrWrap e "Failed to install gox" []
             ∧ gomason.GoxInstall sys gopath verbose s = (Ok (Some e), s'))
  ∨ (∃ e s s', err = ErrWrap e "Failed to checkout module: %s branch: %s "
                       [OpStr (gomason.Package meta); OpStr branch]
               ∧ Checkout gopath meta branch verbose s = (Ok (Some e), s'))
  ∨ (∃ s, sys_fail sys (CallChdir package_dir) s = Some err)
  ∨ (∃ e s s' md, err = ErrWrap e "Failed to read metadata.json from checked out code" []
                  ∧ ReadMetadata descriptor s = (Ok (md, Some e), s'))
  ∨ (∃ s s' md target s_t,
       ReadMetadata descriptor s = (Ok (md, None), s')
       ∧ target ∈ gomason.Targets (gomason.BuildInfo md)
       ∧ sys_fail sys
           (CallRun (Spec.compiler_run sys gopath (gopath +:+ "/bin/gox") target)) s_t
         = Some err)
  ∨ (∃ e s s' md,
       err = ErrWrap e "Failed to build extras" []
       ∧ gomason.BuildExtras sys template_syntax md package_dir verbose s
         = (Ok (Some e), s')).
Proof.
  intros package_dir descriptor. unfold gomason.Build, bind.
  destruct (Stat_returns sys (gopath +:+ "/go/bin/gox") st) as [staterr ->].
  match goal with |- context [(if IsNotExist staterr then ?a else ?b) ?s] =>
    destruct ((if IsNotExist staterr then a else b) s) as [[[e|]|] s1] eqn:Hinstall
  end; [| |done].
  { intros [= <- <-]. left. destruct (IsNotExist staterr); [|done]. by eexists _, _, _. }
  destruct (Stat_returns sys (gopath +:+ "/" +:+ gomason.Package meta +:+ "/metadata.json")
              s1) as [staterr' ->].
  match goal with |- context [(if IsNotExist staterr' then ?a else ?b) ?s] =>
    destruct ((if IsNotExist staterr' then a else b) s) as [[[e|]|] s2] eqn:Hcheckout
  end; [| |done].
  { intros [= <- <-]. right; left. destruct (IsNotExist staterr'); [|done].
    by eexists _, _, _. }
  fold package_dir. unfold Chdir.
  destruct (sys_fail sys (CallChdir package_dir) s2) as [e|] eqn:Hchdir.
  { intros [= <- <-]. right; right; left. by exists s2. }
  fold descriptor.
  destruct (ReadMetadata _ _) as [[[md [e|]]|] s3] eqn:Hread; [| |done].
  { intros [= <- <-]. right; right; right; left. by eexists _, _, _, _. }
  destruct (gomason.buildTargets _ _ _ _ _ s3) as [[[err'|]|] s4] eqn:Htargets; [| |done].
  { intros [= -> <-]. right; right; right; right; left.
    apply buildTargets_returned in Htargets as (target & s_t & e & Hin & [= <-] & Hexit).
    by eexists _, _, _, _, _. }
  destruct (gomason.BuildExtras _ _ _ _ _ s4) as [[[e|]|] s5] eqn:Hextras; [|done|done].
  intros [= <- <-]. right; right; right; right; right. by eexists _, _, _, _.
Qed.

(** X14.  The Build of package [mason] returns no error only after one
    run of the cross-compiler, through bash, for all the targets of the
    checked-out descriptor joined by spaces; that run is its last call and
    exits with status zero.  An error of that run is returned as it is. *)
Theorem Build_mason_compiles_once (gopath gomodule branch : string) (verbose : bool)
    (st st' : OS) :
  let descriptor := gopath +:+ "/src/" +:+ gomodule +:+ "/metadata.json" in
  Build_mason gopath gomodule branch verbose st = (Ok None, st') ->
  ∃ md s0 s,
    let compile := Behaviour.compiler_run_all sys gopath (mason.BuildTargets md) in
    ReadMetadata_mason descriptor s0 = (Ok (md, None), s)
    ∧ sys_fail sys (CallRun compile) s = None
    ∧ st' = record (CallRun compile) (set_files (snd (sys_exec sys compile s)) s).
Proof.
  intros descriptor. unfold mason.Build, bind.
  destruct (Stat_returns sys (gopath +:+ "/go/bin/gox") st) as [staterr ->].
  match goal with |- context [(if IsNotExist staterr then ?a else ?b) ?s] =>
    destruct ((if IsNotExist staterr then a else b) s) as [[[e|]|] s1]
  end; [done| |done].
  destruct (Stat_returns sys (gopath +:+ "/" +:+ gomodule +:+ "/metadata.json") s1)
    as [staterr' ->].
  match goal with |- context [(if IsNotExist staterr' then ?a else ?b) ?s] =>
    destruct ((if IsNotExist staterr' then a else b) s) as [[[e|]|] s2]
  end; [done| |done].
  unfold Chdir. destruct (sys_fail sys (CallChdir _) s2); [done|].
  fold descriptor.
  destruct (ReadMetadata_mason _ _) as [[[md [e|]]|] s3] eqn:Hread; [done| |done].
  unfold CombinedOutput, Environ. simpl.
  fold (Behaviour.module_env sys gopath).
  change (Command "bash" _ _)
    with (Behaviour.compiler_run_all sys gopath (mason.BuildTargets md)).
  intros [= Hexit <-]. by eexists md, _, s3.
Qed.

End BuildMore.

Lemma Build_looks_for_gox_elsewhere_witness :
  files (started_in "/home/dev/widget" stale_workspace) !! "/work/go/go/bin/gox" = None
  ∧ is_Some (files (started_in "/home/dev/widget" stale_workspace) !! "/work/go/bin/gox")
  ∧ fst (gomason.Build (failing programs_fail) Cases.ReadMetadata Cases.Checkout one_segment
           "/work/go" tool "master" false (started_in "/home/dev/widget" stale_workspace))
    = Ok (Some (ErrWrap exit_status_1 "Failed to install gox" [])).
Proof.
  split; [reflexivity|]. split; [vm_compute; eauto|].
  destruct (Build_looks_for_gox_elsewhere (failing programs_fail) Cases.ReadMetadata
              Cases.Checkout one_segment ReadMetadata Checkout "/work/go"
              "github.com/nikogura/gomason" "master" false tool
              (started_in "/home/dev/widget" stale_workspace) exit_status_1
              eq_refl eq_refl eq_refl eq_refl) as [-> _].
  reflexivity.
Defined.

Lemma Build_reports_witness :
  gomason.Build (failing Cases.chdir_fails) Cases.ReadMetadata Cases.Checkout one_segment
    "/work/go" tool "master" false (started_in "/home/dev/widget" ∅)
  = (Ok (Some (ErrSys "chdir: no such file or directory")),
     snd (gomason.Build (failing Cases.chdir_fails) Cases.ReadMetadata Cases.Checkout
            one_segment "/work/go" tool "master" false (started_in "/home/dev/widget" ∅)))
  ∧ ∃ s, sys_fail (failing Cases.chdir_fails) (CallChdir "/work/go/src/acme/widget") s
         = Some (ErrSys "chdir: no such file or directory").
Proof.
  assert (gomason.Build (failing Cases.chdir_fails) Cases.ReadMetadata Cases.Checkout
            one_segment "/work/go" tool "master" false (started_in "/home/dev/widget" ∅)
          = (Ok (Some (ErrSys "chdir: no such file or directory")),
             snd (gomason.Build (failing Cases.chdir_fails) Cases.ReadMetadata
                    Cases.Checkout one_segment "/work/go" tool "master" false
                    (started_in "/home/dev/widget" ∅)))) as Hrun by reflexivity.
  split; [exact Hrun|].
  destruct (Build_reports _ _ _ _ _ _ _ _ _ _ _ Hrun)
    as [(e & s & s' & [=] & _)|[(e & s & s' & [=] & _)|[Hchdir
       |[(e & s & s' & md & [=] & _)|[(s & s' & md & target & s_t & _ & _ & Hexit)
       |(e & s & s' & md & [=] & _)]]]]].
  - exact Hchdir.
  - discriminate Hexit.
Defined.

Lemma Build_mason_compiles_once_witness :
  mason.Build quiet ReadMetadata Checkout "/work/go" "github.com/nikogura/gomason" "master"
    false (started_in "/home/dev/widget" stale_workspace)
  = (Ok None,
     snd (mason.Build quiet ReadMetadata Checkout "/work/go" "github.com/nikogura/gomason"
            "master" false (started_in "/home/dev/widget" stale_workspace)))
  ∧ last (trace (snd (mason.Build quiet ReadMetadata Checkout "/work/go"
                        "github.com/nikogura/gomason" "master" false
                        (started_in "/home/dev/widget" stale_workspace))))
    = Some (CallRun (Behaviour.compiler_run_all quiet "/work/go" ["linux/amd64"])).
Proof.
  assert (mason.Build quiet ReadMetadata Checkout "/work/go" "github.com/nikogura/gomason"
            "master" false (started_in "/home/dev/widget" stale_workspace)
          = (Ok None,
             snd (mason.Build quiet ReadMetadata Checkout "/work/go"
                    "github.com/nikogura/gomason" "master" false
                    (started_in "/home/dev/widget" stale_workspace)))) as Hrun by reflexivity.
  split; [exact Hrun|].
  destruct (Build_mason_compiles_once quiet ReadMetadata Checkout "/work/go"
              "github.com/nikogura/gomason" "master" false _ _ Hrun)
    as (md & s0 & s & Hread & _ & ->).
  injection Hread as <- _. simpl. by rewrite last_snoc.
Defined.

(** * More on the extra artifacts *)

Lemma ReadFile_returns (sys : Sys) (path : string) (st : OS) :
  ∃ text err, ReadFile sys path st = (Ok (text, err), record (CallReadFile path) st).
Proof.
  unfold ReadFile. destruct (sys_fail sys _ st); [by eexists _, _|].
  destruct (files st !! path) as [[|contents mode]|]; by eexists _, _.
Qed.

Lemma WriteFile_returns (sys : Sys) (path data : string) (perm : Z) (st : OS) :
  ∃ err st', WriteFile sys path data perm st = (Ok err, st')
             ∧ trace st' = trace st ++ [CallWriteFile path data perm].
Proof.
  unfold WriteFile. destruct (sys_fail sys _ st); [by eexists _, _|].
  destruct (files st !! path) as [[|contents mode]|]; by eexists _, _.
Qed.

Section ExtrasMore.
Context (sys : Sys) (template_syntax : string -> list gomason.segment + error).
Context (meta : gomason.Metadata) (workdir : string) (verbose : bool).

Local Abbreviation buildExtra := (gomason.buildExtra sys template_syntax meta workdir verbose).
Local Abbreviation BuildExtras := (gomason.BuildExtras sys template_syntax meta workdir verbose).
Local Abbreviation renders := (Behaviour.renders workdir).
Local Abbreviation template_of := (fun extra => workdir +:+ "/" +:+ gomason.Template extra).
Local Abbreviation output_of := (fun extra => workdir +:+ "/" +:+ gomason.FileName extra).

(** How one turn of the loop ends: the artifact is rendered; or the
    template is not read or not well formed, and nothing is written; or the
    write fails. *)
Lemma buildExtra_outcome (extra : gomason.Extra) (st : OS) :
  let r := fst (buildExtra extra st) in
  let st' := snd (buildExtra extra st) in
  (∃ output, r = Ok None ∧ trace st' = trace st ++ renders (extra, output))
  ∨ (∃ cause,
       (r = Ok (Some (Some (ErrWrap cause "failed to read template file %s"
                              [OpStr (template_of extra)])))
        ∨ r = Ok (Some (Some (ErrWrap cause "failed to inject metadata into template text"
                                []))))
       ∧ st' = record (CallReadFile (template_of extra)) st)
  ∨ (∃ cause output,
       r = Ok (Some (Some (ErrWrap cause "failed to write file %s"
                             [OpStr (output_of extra)])))
       ∧ trace st' = trace st ++ renders (extra, output)).
Proof.
  unfold gomason.buildExtra, bind.
  destruct (ReadFile_returns sys (template_of extra) st) as (text & [e|] & ->); simpl.
  { right; left. exists e. split; [by left | done]. }
  destruct (gomason.ParseTemplateForMetadata template_syntax text meta)
    as [output [e|]]; simpl.
  { right; left. exists e. split; [by right | done]. }
  destruct (WriteFile_returns sys (output_of extra) output
              (if gomason.Executable extra then 493 else 420)%Z
              (record (CallReadFile (template_of extra)) st))
    as ([e|] & st2 & -> & Htrace); simpl in *; rewrite <- app_assoc in Htrace.
  - right; right. by exists e, output.
  - left. by exists output.
Qed.

(** The loop of BuildExtras, before its result is unwrapped. *)
Lemma extras_loop (extras : list gomason.Extra) (st : OS) :
  let r := fst (for_range extras buildExtra st) in
  let st' := snd (for_range extras buildExtra st) in
  ∃ rendered : list (gomason.Extra * string),
    (r = Ok None
     ∧ rendered.*1 = extras
     ∧ trace st' = trace st ++ (rendered ≫= renders))
    ∨ (∃ extra rest cause,
         extras = rendered.*1 ++ extra :: rest
         ∧ (((r = Ok (Some (Some (ErrWrap cause "failed to read template file %s"
                                    [OpStr (template_of extra)])))
              ∨ r = Ok (Some (Some (ErrWrap cause
                                      "failed to inject metadata into template text" []))))
             ∧ trace st' = trace st ++ (rendered ≫= renders)
                             ++ [CallReadFile (template_of extra)])
            ∨ (∃ output,
                 r = Ok (Some (Some (ErrWrap cause "failed to write file %s"
                                       [OpStr (output_of extra)])))
                 ∧ trace st' = trace st ++ (rendered ≫= renders)
                                 ++ renders (extra, output)))).
Proof.
  revert st. induction extras as [|extra extras IH]; intros st.
  { exists []. left. simpl. by rewrite app_nil_r. }
  rewrite for_range_cons.
  destruct (buildExtra_outcome extra st)
    as [(output & Hr & Htrace)|[(cause & Hr & Hst)|(cause & output & Hr & Htrace)]];
    destruct (gomason.buildExtra sys template_syntax meta workdir verbose extra st)
      as [r1 st1]; simpl in *.
  - subst r1. destruct (IH st1) as (rendered & Hcases).
    exists ((extra, output) :: rendered). rewrite fmap_cons, bind_cons. cbn [fst].
    destruct Hcases as [(Hr' & <- & Htrace')|(x & rest & c & -> & Hcase)].
    + left. split; [exact Hr'|]. split; [reflexivity|].
      rewrite Htrace', Htrace, <- !app_assoc. done.
    + right. exists x, rest, c. split; [done|].
      destruct Hcase as [[Herr Htrace']|(out & Herr & Htrace')].
      * left. split; [exact Herr|]. rewrite Htrace', Htrace, <- !app_assoc. done.
      * right. exists out. split; [exact Herr|].
        rewrite Htrace', Htrace, <- !app_assoc. done.
  - exists []. right. exists extra, extras, cause. split; [done|]. left.
    subst st1. destruct Hr as [->| ->]; (split; [|reflexivity]); [by left | by right].
  - exists []. right. exists extra, extras, cause. split; [done|]. right.
    exists output. subst r1. split; [reflexivity|]. exact Htrace.
Qed.

(** X15.  BuildExtras renders the artifacts in the order of the
    descriptor and stops at the first that fails: each artifact before it
    is read and written, none after it is touched, and the error names
    the template that could not be read, or the output that could not be
    written; a template that cannot be read or is not well formed leads to
    no write.  BuildExtras itself never panics. *)
Theorem BuildExtras_stops_at_first_failure (st : OS) :
  let r := fst (BuildExtras st) in
  let st' := snd (BuildExtras st) in
  ∃ rendered : list (gomason.Extra * string),
    (r = Ok None
     ∧ rendered.*1 = gomason.Extras (gomason.BuildInfo meta)
     ∧ trace st' = trace st ++ (rendered ≫= renders))
    ∨ (∃ extra rest cause,
         gomason.Extras (gomason.BuildInfo meta) = rendered.*1 ++ extra :: rest
         ∧ (((r = Ok (Some (ErrWrap cause "failed to read template file %s"
                              [OpStr (template_of extra)]))
              ∨ r = Ok (Some (ErrWrap cause "failed to inject metadata into template text"
                                [])))
             ∧ trace st' = trace st ++ (rendered ≫= renders)
                             ++ [CallReadFile (template_of extra)])
            ∨ (∃ output,
                 r = Ok (Some (ErrWrap cause "failed to write file %s"
                                 [OpStr (output_of extra)]))
                 ∧ trace st' = trace st ++ (rendered ≫= renders)
                                 ++ renders (extra, output)))).
Proof.
  unfold gomason.BuildExtras, bind.
  destruct (extras_loop (gomason.Extras (gomason.BuildInfo meta)) st)
    as (rendered & Hcases).
  exists rendered.
  destruct (for_range _ _ st) as [r1 st1]; simpl in *.
  destruct Hcases as [(-> & Hall & Htrace)
                     |(x & rest & c & Hsplit & [[[->| ->] Htrace]|(out & -> & Htrace)])];
    simpl.
  - by left.
  - right. exists x, rest, c. split; [done|]. left. split; [by left | done].
  - right. exists x, rest, c. split; [done|]. left. split; [by right | done].
  - right. exists x, rest, c. split; [done|]. right. by exists out.
Qed.

(** X16.  An output file that is already there keeps its mode: the
    artifact is rendered into it, and whether the artifact is marked
    executable changes nothing of the permissions of the file. *)
Theorem existing_output_keeps_its_mode (extra : gomason.Extra) (st : OS)
    (text old : string) (textmode oldmode : Z) (segments : list gomason.segment) :
  let rendered := String.concat EmptyString (gomason.render_segment meta <$> segments) in
  let perm := (if gomason.Executable extra then 493 else 420)%Z in
  sys_fail sys (CallReadFile (template_of extra)) st = None ->
  files st !! template_of extra = Some (File text textmode) ->
  template_syntax text = inl segments ->
  sys_fail sys (CallWriteFile (output_of extra) rendered perm)
    (record (CallReadFile (template_of extra)) st) = None ->
  files st !! output_of extra = Some (File old oldmode) ->
  fst (buildExtra extra st) = Ok None
  ∧ files (snd (buildExtra extra st)) !! output_of extra = Some (File rendered oldmode).
Proof.
  intros rendered perm Hread Htemplate Hsyntax Hwrite Hold.
  unfold gomason.buildExtra, bind, ReadFile. rewrite Hread, Htemplate.
  unfold gomason.ParseTemplateForMetadata. rewrite Hsyntax. fold rendered perm.
  unfold WriteFile. rewrite Hwrite. simpl. rewrite Hold. simpl.
  split; [done|]. apply lookup_insert_eq.
Qed.

End ExtrasMore.

Lemma existing_output_keeps_its_mode_witness :
  files (started_in "/work/src" Cases.rendered_before) !! "/work/src/install.tmpl"
    = Some (File "package version" 420)
  ∧ files (started_in "/work/src" Cases.rendered_before) !! "/work/src/install.sh"
    = Some (File "old" 420)
  ∧ gomason.Executable installer = true
  ∧ files (snd (gomason.buildExtra quiet one_segment tool "/work/src" false installer
                  (started_in "/work/src" Cases.rendered_before))) !! "/work/src/install.sh"
    = Some (File "acme/widget 1.2.3" 420).
Proof.
  split; [reflexivity|]. split; [reflexivity|]. split; [reflexivity|].
  exact (proj2 (existing_output_keeps_its_mode quiet one_segment tool "/work/src" false
                  installer (started_in "/work/src" Cases.rendered_before)
                  "package version" "old" 420 420
                  [gomason.Placeholder gomason.FieldPackage; gomason.Literal " ";
                   gomason.Placeholder gomason.FieldVersion]
                  eq_refl eq_refl eq_refl eq_refl eq_refl)).
Defined.

Example BuildExtras_without_template :
  gomason.BuildExtras quiet one_segment tool "/work/src" false (started_in "/work/src" ∅)
  = (Ok (Some (ErrWrap (ErrNotExist "/work/src/install.tmpl")
                 "failed to read template file %s" [OpStr "/work/src/install.tmpl"])),
     mkOS ∅ "/work/src" [CallReadFile "/work/src/install.tmpl"]).
Proof. reflexivity. Qed.

(** * The sign command *)

Section KeepsBuild.
Context (sys : Sys) (path : string).
Context (Hprograms : Spec.programs_preserve sys (Spec.exists_path path)).
Context (ReadMetadata : string -> M (gomason.Metadata * option error)).
Context (Checkout : string -> gomason.Metadata -> string -> bool -> M (option error)).
Context (template_syntax : string -> list gomason.segment + error).
Context (HReadMetadata : ∀ file, Spec.preserves (Spec.exists_path path) (ReadMetadata file)).
Context (HCheckout : ∀ gopath meta branch verbose,
            Spec.preserves (Spec.exists_path path) (Checkout gopath meta branch verbose)).

Local Abbreviation keeps := (Spec.preserves (Spec.exists_path path)).

Lemma keeps_ReadFile (file : string) : keeps (ReadFile sys file).
Proof.
  intros st H. unfold ReadFile. destruct (sys_fail sys _ st); [done|].
  by destruct (files st !! file) as [[|contents mode]|].
Qed.

(** Writing a file removes no path. *)
Lemma keeps_WriteFile (file data : string) (perm : Z) : keeps (WriteFile sys file data perm).
Proof.
  intros st H. unfold WriteFile. destruct (sys_fail sys _ st); [done|].
  unfold Spec.exists_path in *.
  destruct (files st !! file) as [[|contents mode]|] eqn:Hfile; [done| |]; simpl;
    (destruct (decide (file = path)) as [->|Hne];
     [by rewrite lookup_insert_eq | by rewrite lookup_insert_ne]).
Qed.

Hint Resolve preserves_ret preserves_lift keeps_ReadFile keeps_WriteFile
  HReadMetadata HCheckout : keeps.
Hint Resolve keeps_Chdir keeps_Stat keeps_LookPath keeps_CombinedOutput keeps_Run : keeps.

Ltac keeps_step :=
  first
    [ solve [eauto with keeps]
    | apply preserves_bind; [|intros ? ? ? ?]
    | apply preserves_for_range; intros ?
    | match goal with
      | |- Spec.preserves _ (match ?x with _ => _ end) => destruct x
      | |- Spec.preserves _ (if ?b then _ else _) => destruct b
      | |- Spec.preserves _ (let (_, _) := ?x in _) => destruct x
      end ].

Lemma keeps_gomason_GoxInstall (gopath : string) (verbose : bool) :
  keeps (gomason.GoxInstall sys gopath verbose).
Proof. unfold gomason.GoxInstall. repeat keeps_step. Qed.

Lemma keeps_buildTargets (gopath gox : string) (verbose : bool)
    (targets : list gomason.Target) :
  keeps (gomason.buildTargets sys gopath gox verbose targets).
Proof. unfold gomason.buildTargets, gomason.buildTarget. repeat keeps_step. Qed.

Lemma keeps_BuildExtras (meta : gomason.Metadata) (workdir : string) (verbose : bool) :
  keeps (gomason.BuildExtras sys template_syntax meta workdir verbose).
Proof. unfold gomason.BuildExtras, gomason.buildExtra. repeat keeps_step. Qed.

Hint Resolve keeps_gomason_GoxInstall keeps_buildTargets keeps_BuildExtras : keeps.

Lemma keeps_gomason_Build (gopath : string) (meta : gomason.Metadata) (branch : string)
    (verbose : bool) :
  keeps (gomason.Build sys ReadMetadata Checkout template_syntax gopath meta branch verbose).
Proof. unfold gomason.Build. repeat keeps_step. Qed.

End KeepsBuild.

Lemma bind_ext {A B : Type} (m : M A) (k k' : A -> M B) (st : OS) :
  (∀ a s, k a s = k' a s) -> bind m k st = bind m k' st.
Proof.
  intros Hk. unfold bind. destruct (m st) as [[a|reason] s]; [apply Hk | done].
Qed.

Section SignMore.
Context (sys : Sys) (verbose : bool) (branch : string).
Context (CreateGoPath : string -> M (string * option error)).
Context (ReadMetadata : string -> M (gomason.Metadata * option error)).
Context (Checkout : string -> gomason.Metadata -> string -> bool -> M (option error)).
Context (GoTest : string -> string -> bool -> M (option error)).
Context (PublishBuildTargets :
           gomason.Metadata -> string -> string -> bool -> bool -> bool -> bool ->
           M (option error)).
Context (PublishBuildExtras :
           gomason.Metadata -> string -> string -> bool -> bool -> bool ->
           M (option error)).
Context (template_syntax : string -> list gomason.segment + error).

Local Abbreviation signCmd_Run :=
  (cmd.signCmd_Run sys verbose branch CreateGoPath ReadMetadata Checkout GoTest
     PublishBuildTargets PublishBuildExtras template_syntax).
Local Abbreviation signInWorkDir :=
  (cmd.signInWorkDir sys verbose branch CreateGoPath ReadMetadata Checkout GoTest
     PublishBuildTargets PublishBuildExtras template_syntax).

(** The command after its first two calls: the steps in the temporary
    directory, and its removal unless the process has exited. *)
Lemma signCmd_Run_in_TempDir (st st1 : OS) (dir : string) :
  sys_fail sys CallGetwd st = None ->
  TempDir sys EmptyString "gomason" (record CallGetwd st) = (Ok (dir, None), st1) ->
  signCmd_Run st
  = cmd.defer_exit (RemoveAll sys dir) (signInWorkDir (wd st) dir) st1.
Proof.
  intros Hgetwd Htemp. unfold cmd.signCmd_Run, bind, Getwd.
  rewrite Hgetwd. simpl. by rewrite Htemp.
Qed.

(** X17.  The temporary workspace of the sign command outlives a failed
    run.  The removal of the directory is deferred, and every failure after
    the directory is made ends the process through log.Fatalf, which runs
    no deferred call: when the command ends that way the directory is
    still on the disk, and when it returns or panics the directory is
    removed.  This holds as long as the programs and the other functions
    of the package leave the directory in place and its removal does not
    fail. *)
Theorem failed_sign_leaves_the_workspace (st st1 : OS) (dir : string) :
  sys_fail sys CallGetwd st = None ->
  TempDir sys EmptyString "gomason" (record CallGetwd st) = (Ok (dir, None), st1) ->
  (∀ s, sys_fail sys (CallRemoveAll dir) s = None) ->
  Spec.programs_preserve sys (Spec.exists_path dir) ->
  (∀ workDir, Spec.preserves (Spec.exists_path dir) (CreateGoPath workDir)) ->
  (∀ file, Spec.preserves (Spec.exists_path dir) (ReadMetadata file)) ->
  (∀ gopath meta branch verbose,
     Spec.preserves (Spec.exists_path dir) (Checkout gopath meta branch verbose)) ->
  (∀ gopath package verbose,
     Spec.preserves (Spec.exists_path dir) (GoTest gopath package verbose)) ->
  (∀ meta gopath cwd sign publish collect verbose,
     Spec.preserves (Spec.exists_path dir)
       (PublishBuildTargets meta gopath cwd sign publish collect verbose)) ->
  (∀ meta gopath cwd sign publish verbose,
     Spec.preserves (Spec.exists_path dir)
       (PublishBuildExtras meta gopath cwd sign publish verbose)) ->
  match fst (signCmd_Run st) with
  | Ok (cmd.Fatal _ _) => Spec.exists_path dir (snd (signCmd_Run st))
  | _ => files (snd (signCmd_Run st)) !! dir = None
  end.
Proof.
  intros Hgetwd Htemp Hremove Hprograms HCreateGoPath HReadMetadata HCheckout HGoTest
    HTargets HExtras.
  rewrite (signCmd_Run_in_TempDir _ _ _ Hgetwd Htemp).
  assert (Spec.preserves (Spec.exists_path dir) (signInWorkDir (wd st) dir)) as Hkeeps.
  { pose proof (keeps_gomason_Build sys dir Hprograms ReadMetadata Checkout template_syntax
                  HReadMetadata HCheckout) as HBuild.
    unfold cmd.signInWorkDir.
    repeat first
      [ solve [eauto using preserves_ret]
      | apply preserves_bind; [|intros ? ? ? ?]
      | match goal with
        | |- Spec.preserves _ (match ?x with _ => _ end) => destruct x
        | |- Spec.preserves _ (let (_, _) := ?x in _) => destruct x
        end ]. }
  apply TempDir_made in Htemp as (parent & random & Hdir & _ & ->).
  assert (Spec.exists_path dir
            (record (CallTempDir EmptyString "gomason")
               (set_files (<[dir := Dir]> (files (record CallGetwd st)))
                  (record CallGetwd st)))) as Hmade.
  { unfold Spec.exists_path. simpl. by rewrite lookup_insert_eq. }
  apply Hkeeps in Hmade. unfold cmd.defer_exit.
  destruct (cmd.signInWorkDir _ _ _ _ _ _ _ _ _ _ _ _ _) as [[[|format operands]|reason] s];
    simpl in *; [|exact Hmade|]; subst dir; by apply RemoveAll_removes.
Qed.

(** X18.  The sign command does not look at the error of its own read of
    the descriptor: under a reader that reports no error for
    metadata.json (and answers alike otherwise) the command runs the same
    way.  A descriptor that cannot be read does not stop the command; the
    checkout goes on with the metadata the reader handed back. *)
Theorem sign_ignores_unreadable_descriptor (st : OS) :
  cmd.signCmd_Run sys verbose branch CreateGoPath
    (Behaviour.forget_error_at "metadata.json" ReadMetadata) Checkout GoTest
    PublishBuildTargets PublishBuildExtras template_syntax st
  = signCmd_Run st.
Proof.
  assert (∀ gopath package s,
            Behaviour.forget_error_at "metadata.json" ReadMetadata
              (gopath +:+ "/src/" +:+ package +:+ "/metadata.json") s
            = ReadMetadata (gopath +:+ "/src/" +:+ package +:+ "/metadata.json") s)
    as Hother.
  { intros gopath package s. unfold Behaviour.forget_error_at.
    destruct (String.eqb_spec (gopath +:+ "/src/" +:+ package +:+ "/metadata.json")
                "metadata.json") as [Heq|_]; [|done].
    apply (f_equal String.length) in Heq. rewrite !length_append in Heq.
    simpl in Heq. lia. }
  assert (∀ gopath meta s,
            gomason.Build sys (Behaviour.forget_error_at "metadata.json" ReadMetadata)
              Checkout template_syntax gopath meta branch verbose s
            = gomason.Build sys ReadMetadata Checkout template_syntax gopath meta branch
                verbose s) as HBuild.
  { intros gopath meta s. unfold gomason.Build.
    repeat first
      [ reflexivity
      | solve [unfold bind at 1 3; rewrite Hother; reflexivity]
      | apply bind_ext; intros ? ?
      | match goal with
        | |- (match ?x with _ => _ end) _ = _ => destruct x
        | |- (let (_, _) := ?x in _) _ = _ => destruct x
        end ]. }
  unfold cmd.signCmd_Run, bind.
  destruct (Getwd sys st) as [[[cwd [e|]]|reason] s0]; [done| |done].
  destruct (TempDir sys _ _ s0) as [[[workDir [e|]]|reason] s1]; [done| |done].
  unfold cmd.defer_exit, cmd.signInWorkDir, bind.
  destruct (CreateGoPath workDir s1) as [[[gopath [e|]]|reason] s2]; [done| |done].
  unfold Behaviour.forget_error_at at 1. simpl.
  destruct (ReadMetadata "metadata.json" s2) as [[[meta err]|reason] s3]; [|done].
  destruct (Checkout gopath meta branch verbose s3) as [[[e|]|reason] s4]; [done| |done].
  destruct (GoTest gopath _ verbose s4) as [[[e|]|reason] s5]; [done| |done].
  by rewrite HBuild.
Qed.

End SignMore.

Section SignMasonMore.
Context (sys : Sys) (branch : string) (verbose : bool).
Context (CreateGoPath : string -> M (string * option error)).
Context (ReadMetadata : string -> M (mason.Metadata * option error)).
Context (GitSSHUrlFromPackage : string -> string).
Context (Checkout : string -> string -> string -> bool -> M (option error)).

Local Abbreviation signCmd_Run_mason :=
  (cmd.signCmd_Run_mason sys EmptyString branch verbose CreateGoPath ReadMetadata
     GitSSHUrlFromPackage Checkout).
Local Abbreviation runPipeline :=
  (mason.runPipeline sys CreateGoPath ReadMetadata GitSSHUrlFromPackage Checkout).

(** X19.  The sign command over package mason, run without a workspace
    path, builds and signs and does not publish; it ends through
    log.Fatalf exactly when the pipeline reports an error, and by then the
    temporary workspace is removed, since the removal is deferred inside
    WholeShebang and has run before the command sees the error. *)
Theorem sign_over_mason_cleans_up_before_exit (st st1 : OS) (dir : string) :
  sys_fail sys CallGetwd st = None ->
  TempDir sys EmptyString "gomason" (record CallGetwd st) = (Ok (dir, None), st1) ->
  (∀ s, sys_fail sys (CallRemoveAll dir) s = None) ->
  let pipeline := runPipeline dir (wd st) branch true true false verbose st1 in
  fst (signCmd_Run_mason st)
  = match fst pipeline with
    | Ok (_, Some e) => Ok (cmd.Fatal "Error running sign: %s" [OpErr e])
    | Ok (_, None) => Ok cmd.Returned
    | Panic reason => Panic reason
    end
  ∧ files (snd (signCmd_Run_mason st)) !! dir = None
  ∧ last (trace (snd (signCmd_Run_mason st))) = Some (CallRemoveAll dir).
Proof.
  intros Hgetwd Htemp Hremove pipeline. subst pipeline.
  unfold cmd.signCmd_Run_mason, bind.
  rewrite (WholeShebang_in_TempDir _ _ _ _ _ _ _ _ _ _ _ _ _ _ Hgetwd Htemp).
  apply TempDir_made in Htemp as (parent & random & -> & _ & _).
  destruct (mason.runPipeline _ _ _ _ _ _ _ _ _ _ _ _ _) as [[[md [e|]]|reason] s];
    simpl; (split; [done|]); by apply RemoveAll_removes.
Qed.

End SignMasonMore.

Lemma failed_sign_leaves_the_workspace_witness :
  fst (Cases.sign_with quiet Cases.GoTest_red Cases.ReadMetadata)
  = Ok (cmd.Fatal "error running go test: %s" [OpErr exit_status_1])
  ∧ Spec.exists_path "/tmp/gomason428117"
      (snd (Cases.sign_with quiet Cases.GoTest_red Cases.ReadMetadata)).
Proof.
  split; [reflexivity|].
  pose proof (failed_sign_leaves_the_workspace quiet false "master" CreateGoPath
                Cases.ReadMetadata Cases.Checkout Cases.GoTest_red
                Cases.PublishBuildTargets Cases.PublishBuildExtras one_segment
                (started_in "/home/dev/widget" ∅) _ "/tmp/gomason428117"
                eq_refl eq_refl (fun _ => eq_refl)) as Hleft.
  apply Hleft.
  - intros c st H. exact H.
  - intros dir st [n Hn]. unfold CreateGoPath, Spec.exists_path. simpl.
    destruct (decide (dir +:+ "/go" = "/tmp/gomason428117")) as [->|Hne].
    + rewrite lookup_insert_eq. eauto.
    + rewrite lookup_insert_ne; eauto.
  - intros file st H. exact H.
  - intros gopath meta branch verbose st H. exact H.
  - intros gopath package verbose st H. exact H.
  - intros meta gopath cwd sign publish collect verbose st H. exact H.
  - intros meta gopath cwd sign publish verbose st H. exact H.
Defined.

Lemma sign_over_mason_cleans_up_before_exit_witness :
  fst (cmd.signCmd_Run_mason (failing programs_fail) EmptyString "master" false
         CreateGoPath ReadMetadata GitSSHUrlFromPackage Checkout
         (started_in "/home/dev/widget" ∅))
  = Ok (cmd.Fatal "Error running sign: %s" [OpErr exit_status_1])
  ∧ files (snd (cmd.signCmd_Run_mason (failing programs_fail) EmptyString "master" false
                  CreateGoPath ReadMetadata GitSSHUrlFromPackage Checkout
                  (started_in "/home/dev/widget" ∅))) !! "/tmp/gomason428117"
    = None.
Proof.
  split; [reflexivity|].
  exact (proj1 (proj2 (sign_over_mason_cleans_up_before_exit (failing programs_fail)
                         "master" false CreateGoPath ReadMetadata GitSSHUrlFromPackage
                         Checkout (started_in "/home/dev/widget" ∅) _
                         "/tmp/gomason428117" eq_refl eq_refl (fun _ => eq_refl)))).
Defined.

Example sign_with_unreadable_descriptor :
  fst (Cases.sign_with quiet Cases.GoTest Cases.ReadMetadata_unreadable)
  = Ok (cmd.Fatal "build failed: %s"
          [OpErr (ErrWrap
                    (ErrNotExist "/tmp/gomason428117/go/src/acme/widget/metadata.json")
                    "Failed to read metadata.json from checked out code" [])]).
Proof. reflexivity. Qed.

(** * The build matrix, as Build runs it *)

Lemma ran_all_snoc (sys : Sys) (cmds : list Cmd) (c : Cmd) (st : OS) :
  Behaviour.ran_all sys (cmds ++ [c]) st = Behaviour.ran sys (Behaviour.ran_all sys cmds st) c.
Proof. unfold Behaviour.ran_all. by rewrite fold_left_app. Qed.

Lemma trace_ran_all (sys : Sys) (cmds : list Cmd) (st : OS) :
  trace (Behaviour.ran_all sys cmds st) = trace st ++ (CallRun <$> cmds).
Proof.
  revert st. induction cmds as [|c cmds IH]; intros st; simpl.
  - by rewrite app_nil_r.
  - unfold Behaviour.ran_all in *. rewrite IH. simpl. by rewrite <- app_assoc.
Qed.

Section Matrix.
Context (sys : Sys) (gopath : string) (verbose : bool).

Local Abbreviation compile := (Spec.compiler_run sys gopath (gopath +:+ "/bin/gox")).
Local Abbreviation buildTargets :=
  (gomason.buildTargets sys gopath (gopath +:+ "/bin/gox") verbose).

(** The runs before [target] all exit with status zero, each in the state
    the runs before it left. *)
Local Abbreviation compiled_before := (fun (targets : list gomason.Target) (s : OS) =>
  ∀ done target rest,
    targets = done ++ target :: rest ->
    sys_fail sys (CallRun (compile target)) (Behaviour.ran_all sys (compile <$> done) s)
    = None).

Lemma compiled_before_tail (target : gomason.Target) (targets : list gomason.Target)
    (s : OS) :
  compiled_before (target :: targets) s ->
  sys_fail sys (CallRun (compile target)) s = None
  ∧ compiled_before targets (Behaviour.ran sys s (compile target)).
Proof.
  intros Hall. split; [exact (Hall [] target targets eq_refl)|].
  intros done t rest ->. exact (Hall (target :: done) t rest eq_refl).
Qed.

Lemma buildTargets_compiles (targets : list gomason.Target) (s : OS) :
  compiled_before targets s ->
  buildTargets targets s = (Ok None, Behaviour.ran_all sys (compile <$> targets) s).
Proof.
  unfold gomason.buildTargets. revert s.
  induction targets as [|target targets IH]; intros s Hall; [done|].
  apply compiled_before_tail in Hall as [Hfirst Hrest].
  rewrite for_range_cons, buildTarget_run, Hfirst. exact (IH _ Hrest).
Qed.

Lemma buildTargets_stops (done : list gomason.Target) (target : gomason.Target)
    (rest : list gomason.Target) (e : error) (s : OS) :
  compiled_before done s ->
  sys_fail sys (CallRun (compile target)) (Behaviour.ran_all sys (compile <$> done) s)
    = Some e ->
  buildTargets (done ++ target :: rest) s
  = (Ok (Some (Some e)), Behaviour.ran_all sys (compile <$> done ++ [target]) s).
Proof.
  unfold gomason.buildTargets. revert s.
  induction done as [|first done IH]; intros s Hall Hexit.
  - simpl in *. by rewrite buildTarget_run, Hexit.
  - apply compiled_before_tail in Hall as [Hfirst Hrest].
    rewrite <- app_comm_cons, for_range_cons, buildTarget_run, Hfirst.
    exact (IH _ Hrest Hexit).
Qed.

End Matrix.

Section BuildMatrix.
Context (sys : Sys).
Context (ReadMetadata : string -> M (gomason.Metadata * option error)).
Context (Checkout : string -> gomason.Metadata -> string -> bool -> M (option error)).
Context (template_syntax : string -> list gomason.segment + error).

Local Abbreviation Build := (gomason.Build sys ReadMetadata Checkout template_syntax).

(** C2, as the code has it.  When Build has the cross-compiler, the
    checkout and the descriptor of the checked-out code (no step before
    the loop fails), it runs the cross-compiler through the shell once per
    target of that descriptor, in descriptor order, each run in an
    environment of its own made of the inherited environment, the module
    root and the target's flags, the native-interop option being on the
    command line and not in the environment.  If the run of a target exits
    with an error after the runs of all the targets before it exited with
    zero, Build returns that error as it is, in the state that run left:
    no later target is run and nothing else is done.  If every run exits
    with zero, the runs of all the targets are followed by BuildExtras. *)
Theorem Build_fail_fast (gopath branch : string) (verbose : bool) (meta : gomason.Metadata)
    (st s0 s1 s1' s2 s2' s3 : OS) (staterr staterr' : option error)
    (md : gomason.Metadata) :
  let package_dir := gopath +:+ "/src/" +:+ gomason.Package meta in
  let descriptor := gopath +:+ "/src/" +:+ gomason.Package meta +:+ "/metadata.json" in
  let gox := gopath +:+ "/bin/gox" in
  let compile := Spec.compiler_run sys gopath gox in
  let targets := gomason.Targets (gomason.BuildInfo md) in
  let compiled_before (done : list gomason.Target) :=
    ∀ before target after,
      done = before ++ target :: after ->
      sys_fail sys (CallRun (compile target)) (Behaviour.ran_all sys (compile <$> before) s3)
      = None in
  Stat sys (gopath +:+ "/go/bin/gox") st = (Ok staterr, s0) ->
  (if IsNotExist staterr then gomason.GoxInstall sys gopath verbose else ret None) s0
    = (Ok None, s1) ->
  Stat sys (gopath +:+ "/" +:+ gomason.Package meta +:+ "/metadata.json") s1
    = (Ok staterr', s1') ->
  (if IsNotExist staterr' then Checkout gopath meta branch verbose else ret None) s1'
    = (Ok None, s2) ->
  Chdir sys package_dir s2 = (Ok None, s2') ->
  ReadMetadata descriptor s2' = (Ok (md, None), s3) ->
  (∀ target,
     cmd_name (compile target) = "sh"
     ∧ cmd_args (compile target)
       = ["-c"; gox +:+ (if gomason.Cgo target then " -cgo" else EmptyString)
                    +:+ " -osarch=" +:+ dquote +:+ gomason.Name target +:+ dquote
                    +:+ " ./..."]
     ∧ (Spec.range_faithful sys ->
        ∀ entry,
          entry ∈ cmd_env (compile target)
          ↔ entry ∈ sys_environ sys
            ∨ entry = "GOPATH=" +:+ gopath
            ∨ ∃ k v, gomason.Flags target !! k = Some v ∧ entry = k +:+ "=" +:+ v))
  ∧ (∀ done target rest e,
       targets = done ++ target :: rest ->
       compiled_before done ->
       sys_fail sys (CallRun (compile target)) (Behaviour.ran_all sys (compile <$> done) s3)
         = Some e ->
       Build gopath meta branch verbose st
         = (Ok (Some e), Behaviour.ran_all sys (compile <$> done ++ [target]) s3)
       ∧ trace (snd (Build gopath meta branch verbose st))
         = trace s3 ++ (CallRun <$> (compile <$> done ++ [target])))
  ∧ (compiled_before targets ->
     let compiled := Behaviour.ran_all sys (compile <$> targets) s3 in
     let extras := gomason.BuildExtras sys template_syntax md package_dir verbose compiled in
     trace compiled = trace s3 ++ (CallRun <$> (compile <$> targets))
     ∧ snd (Build gopath meta branch verbose st) = snd extras
     ∧ fst (Build gopath meta branch verbose st)
       = match fst extras with
         | Ok (Some e) => Ok (Some (ErrWrap e "Failed to build extras" []))
         | r => r
         end).
Proof.
  intros package_dir descriptor gox compile targets compiled_before
    Hstat Hinstall Hstat' Hcheckout Hchdir Hread.
  subst gox.
  assert (Build gopath meta branch verbose st
          = (let* returned :=
               gomason.buildTargets sys gopath (gopath +:+ "/bin/gox") verbose targets in
             match returned with
             | Some err => ret err
             | None =>
                 let* err :=
                   gomason.BuildExtras sys template_syntax md package_dir verbose in
                 match err with
                 | Some _ => ret (Wrap err "Failed to build extras" [])
                 | None => ret err
                 end
             end) s3) as Hloop.
  { unfold gomason.Build. unfold bind at 1. rewrite Hstat.
    unfold bind at 1. rewrite Hinstall.
    unfold bind at 1. rewrite Hstat'.
    unfold bind at 1. rewrite Hcheckout.
    unfold bind at 1. fold package_dir. rewrite Hchdir.
    unfold bind at 1. fold descriptor. rewrite Hread. reflexivity. }
  split; [|split].
  - intros target. split; [done|]. split; [done|].
    intros Hrange entry. by apply compiler_run_env.
  - intros done target rest e Htargets Hdone Hexit.
    assert (Build gopath meta branch verbose st
            = (Ok (Some e), Behaviour.ran_all sys (compile <$> done ++ [target]) s3))
      as Hrun.
    { rewrite Hloop. unfold bind at 1. rewrite Htargets.
      by rewrite (buildTargets_stops sys gopath verbose done target rest e s3 Hdone Hexit). }
    split; [exact Hrun|]. rewrite Hrun. exact (trace_ran_all _ _ _).
  - intros Hall compiled extras. split; [apply trace_ran_all|].
    assert (Build gopath meta branch verbose st
            = (let* err :=
                 gomason.BuildExtras sys template_syntax md package_dir verbose in
               match err with
               | Some _ => ret (Wrap err "Failed to build extras" [])
               | None => ret err
               end) compiled) as Hrun.
    { rewrite Hloop. unfold bind at 1.
      by rewrite (buildTargets_compiles sys gopath verbose targets s3 Hall). }
    rewrite Hrun. unfold bind. subst extras.
    destruct (gomason.BuildExtras sys template_syntax md package_dir verbose compiled)
      as [[[e|]|reason] s5]; by split.
Qed.

End BuildMatrix.

Lemma Build_fail_fast_witness :
  gomason.Targets (gomason.BuildInfo Cases.matrix)
    = [gomason.mkTarget "linux/amd64" false ∅]
        ++ gomason.mkTarget "darwin/amd64" true {[ "CC" := "clang" ]}
        :: [gomason.mkTarget "windows/amd64" false ∅]
  ∧ fst (gomason.Build (failing Cases.clang_fails) Cases.ReadMetadata_matrix Cases.Checkout
           one_segment "/work/go" Cases.matrix "master" false
           (started_in "/home/dev/widget" stale_workspace))
    = Ok (Some exit_status_1)
  ∧ trace (snd (gomason.Build (failing Cases.clang_fails) Cases.ReadMetadata_matrix
                  Cases.Checkout one_segment "/work/go" Cases.matrix "master" false
                  (started_in "/home/dev/widget" stale_workspace)))
    = [CallStat "/work/go/go/bin/gox"; CallLookPath "go";
       CallRun (Command "/usr/bin/go" ["get"; "github.com/mitchellh/gox"]
                  ["HOME=/home/dev"; "GOPATH=/work/go"]);
       CallStat "/work/go/acme/widget/metadata.json";
       CallChdir "/work/go/src/acme/widget";
       CallRun (Command "sh"
                  ["-c"; "/work/go/bin/gox -osarch=" +:+ dquote +:+ "linux/amd64" +:+ dquote
                           +:+ " ./..."]
                  ["HOME=/home/dev"; "GOPATH=/work/go"]);
       CallRun (Command "sh"
                  ["-c"; "/work/go/bin/gox -cgo -osarch=" +:+ dquote +:+ "darwin/amd64"
                           +:+ dquote +:+ " ./..."]
                  ["HOME=/home/dev"; "GOPATH=/work/go"; "CC=clang"])].
Proof.
  split; [reflexivity|].
  destruct (proj1 (proj2 (Build_fail_fast (failing Cases.clang_fails)
                            Cases.ReadMetadata_matrix Cases.Checkout one_segment
                            "/work/go" "master" false Cases.matrix
                            (started_in "/home/dev/widget" stale_workspace)
                            _ _ _ _ _ _ _ _ Cases.matrix
                            eq_refl eq_refl eq_refl eq_refl eq_refl eq_refl))
              [gomason.mkTarget "linux/amd64" false ∅]
              (gomason.mkTarget "darwin/amd64" true {[ "CC" := "clang" ]})
              [gomason.mkTarget "windows/amd64" false ∅]
              exit_status_1 eq_refl)
    as [Hrun Htrace].
  - intros [|first before] target after Hsplit.
    + injection Hsplit as <- _. reflexivity.
    + injection Hsplit as _ Hnil. by destruct before.
  - reflexivity.
  - split; [by rewrite Hrun | exact Htrace].
Defined.

(** * The extra artifacts, as BuildExtras renders them *)

Section Rendering.
Context (sys : Sys) (template_syntax : string -> list gomason.segment + error).
Context (meta : gomason.Metadata) (workdir : string) (verbose : bool).
Context (Hread : ∀ path s, sys_fail sys (CallReadFile path) s = None).
Context (Hwrite : ∀ path data perm s, sys_fail sys (CallWriteFile path data perm) s = None).

Local Abbreviation buildExtra := (gomason.buildExtra sys template_syntax meta workdir verbose).
Local Abbreviation template_of := (fun extra => workdir +:+ "/" +:+ gomason.Template extra).
Local Abbreviation output_of := (fun extra => workdir +:+ "/" +:+ gomason.FileName extra).
Local Abbreviation perm_of :=
  (fun extra => if gomason.Executable extra then 493%Z else 420%Z).
Local Abbreviation rendered_in := (fun (s : OS) extra =>
  fst (gomason.ParseTemplateForMetadata template_syntax
         (Behaviour.contents_at s (template_of extra)) meta)).
Local Abbreviation well_formed_in := (fun (s : OS) extra =>
  ∃ text tmode segments,
    files s !! template_of extra = Some (File text tmode)
    ∧ template_syntax text = inl segments).

(** One turn of the loop on a template that is there and well formed. *)
Lemma buildExtra_writes (extra : gomason.Extra) (s : OS) :
  well_formed_in s extra ->
  files s !! output_of extra ≠ Some Dir ->
  buildExtra extra s
  = (Ok None,
     record (CallWriteFile (output_of extra) (rendered_in s extra) (perm_of extra))
       (set_files
          (<[output_of extra :=
               File (rendered_in s extra)
                    (Behaviour.mode_on_disk sys s (output_of extra) (perm_of extra))]>
             (files s))
          (record (CallReadFile (template_of extra)) s))).
Proof.
  intros (text & tmode & segments & Htemplate & Hsyntax) Hnodir.
  unfold gomason.buildExtra, bind, ReadFile, Behaviour.contents_at, Behaviour.mode_on_disk.
  rewrite Hread, Htemplate.
  unfold gomason.ParseTemplateForMetadata. rewrite Hsyntax.
  unfold WriteFile. rewrite Hwrite. simpl.
  by destruct (files s !! output_of extra) as [[|contents mode]|].
Qed.

Lemma extras_rendered (extras : list gomason.Extra) (s : OS) :
  (∀ extra, extra ∈ extras -> well_formed_in s extra) ->
  (∀ e e', e ∈ extras -> e' ∈ extras -> output_of e ≠ template_of e') ->
  NoDup (output_of <$> extras) ->
  (∀ extra, extra ∈ extras -> files s !! output_of extra ≠ Some Dir) ->
  let s' := snd (for_range extras buildExtra s) in
  fst (for_range extras buildExtra s) = Ok None
  ∧ trace s'
    = trace s ++ (extras ≫= fun extra => Behaviour.renders workdir (extra, rendered_in s extra))
  ∧ (∀ extra, extra ∈ extras ->
       files s' !! output_of extra
       = Some (File (rendered_in s extra)
                 (Behaviour.mode_on_disk sys s (output_of extra) (perm_of extra))))
  ∧ (∀ path, path ∉ output_of <$> extras -> files s' !! path = files s !! path).
Proof.
  revert s. induction extras as [|extra extras IH]; intros s Htemplates Hapart Hdistinct Hnodir.
  { simpl. split; [done|]. split; [by rewrite app_nil_r|]. split; [|done].
    intros extra Hin. by apply elem_of_nil in Hin. }
  rewrite fmap_cons in Hdistinct. apply NoDup_cons in Hdistinct as [Hfresh Hdistinct].
  rewrite for_range_cons, buildExtra_writes;
    [|apply Htemplates; left|apply Hnodir; left].
  set (s1 := record _ (set_files _ _)).
  assert (∀ path, path ≠ output_of extra -> files s1 !! path = files s !! path) as Hframe.
  { intros path Hpath. subst s1. simpl. by rewrite lookup_insert_ne. }
  assert (∀ e, e ∈ extras -> rendered_in s1 e = rendered_in s e) as Hsame.
  { intros e He. unfold Behaviour.contents_at. rewrite Hframe; [done|].
    intros Heq. by apply (Hapart extra e); [left | right|]. }
  assert (∀ e, e ∈ extras ->
            Behaviour.mode_on_disk sys s1 (output_of e) (perm_of e)
            = Behaviour.mode_on_disk sys s (output_of e) (perm_of e)) as Hmode.
  { intros e He. unfold Behaviour.mode_on_disk. rewrite Hframe; [done|].
    intros Heq. apply Hfresh. rewrite <- Heq. apply list_elem_of_fmap. by exists e. }
  destruct (IH s1) as (Hr & Htrace & Hfiles & Hrest).
  { intros e He. destruct (Htemplates e) as (text & tmode & segments & Htemplate & Hsyntax);
      [by right|].
    exists text, tmode, segments. split; [|done]. rewrite Hframe; [done|].
    intros Heq. by apply (Hapart extra e); [left | right|]. }
  { intros e e' He He'. apply Hapart; by right. }
  { exact Hdistinct. }
  { intros e He. rewrite Hframe; [apply Hnodir; by right|].
    intros Heq. apply Hfresh. rewrite <- Heq. apply list_elem_of_fmap. by exists e. }
  split; [exact Hr|]. split; [|split].
  - rewrite Htrace. subst s1. simpl. rewrite <- !app_assoc. simpl. do 3 f_equal.
    clear -Hsame. induction extras as [|e extras IH]; [done|]. simpl.
    rewrite (Hsame e); [|by left]. do 2 f_equal. apply IH. intros e' He'. apply Hsame. by right.
  - intros e [->|He]%elem_of_cons.
    + rewrite Hrest; [|exact Hfresh]. subst s1. simpl. by rewrite lookup_insert_eq.
    + by rewrite Hfiles, Hsame, Hmode.
  - intros path Hpath. rewrite fmap_cons in Hpath. apply not_elem_of_cons in Hpath as [Hne Hpath].
    by rewrite Hrest, Hframe.
Qed.

End Rendering.

Section Extras.
Context (sys : Sys) (template_syntax : string -> list gomason.segment + error).
Context (meta : gomason.Metadata) (workdir : string) (verbose : bool).

Local Abbreviation BuildExtras := (gomason.BuildExtras sys template_syntax meta workdir verbose).
Local Abbreviation extras := (gomason.Extras (gomason.BuildInfo meta)).
Local Abbreviation template_of := (fun extra => workdir +:+ "/" +:+ gomason.Template extra).
Local Abbreviation output_of := (fun extra => workdir +:+ "/" +:+ gomason.FileName extra).
Local Abbreviation perm_of :=
  (fun extra => if gomason.Executable extra then 493%Z else 420%Z).

(** C8, as the code has it.  When no read and no write fails, the
    templates of the descriptor's extra artifacts are on disk and well
    formed, and the outputs are files of their own (distinct, and none of
    them a template or a directory), BuildExtras succeeds and, for every
    extra artifact in the order of the descriptor, reads the template and
    writes to the output the template with every placeholder replaced by
    the descriptor's field of that name, asking for mode 0755 when the
    artifact is executable and 0644 when it is not.  On disk an output that
    was not there gets that mode less the umask, and an output that was
    there keeps the mode it had; no other path changes.  The output holds
    the package, the version and the description wherever the template
    names them. *)
Theorem BuildExtras_renders (st : OS) :
  let st' := snd (BuildExtras st) in
  let text_of extra := Behaviour.contents_at st (template_of extra) in
  let rendered extra :=
    fst (gomason.ParseTemplateForMetadata template_syntax (text_of extra) meta) in
  (∀ path s, sys_fail sys (CallReadFile path) s = None) ->
  (∀ path data perm s, sys_fail sys (CallWriteFile path data perm) s = None) ->
  (∀ extra, extra ∈ extras ->
     ∃ text tmode segments,
       files st !! template_of extra = Some (File text tmode)
       ∧ template_syntax text = inl segments) ->
  (∀ e e', e ∈ extras -> e' ∈ extras -> output_of e ≠ template_of e') ->
  NoDup (output_of <$> extras) ->
  (∀ extra, extra ∈ extras -> files st !! output_of extra ≠ Some Dir) ->
  fst (BuildExtras st) = Ok None
  ∧ trace st'
    = trace st
        ++ (extras ≫= fun extra =>
              [CallReadFile (template_of extra);
               CallWriteFile (output_of extra) (rendered extra) (perm_of extra)])
  ∧ (∀ extra, extra ∈ extras ->
       ∃ mode,
         files st' !! output_of extra = Some (File (rendered extra) mode)
         ∧ (files st !! output_of extra = None ->
            mode = Z.land (perm_of extra) (Z.lnot (sys_umask sys)))
         ∧ (∀ old oldmode,
              files st !! output_of extra = Some (File old oldmode) -> mode = oldmode))
  ∧ (∀ path, path ∉ output_of <$> extras -> files st' !! path = files st !! path)
  ∧ (∀ extra segments,
       extra ∈ extras ->
       template_syntax (text_of extra) = inl segments ->
       rendered extra = String.concat EmptyString (gomason.render_segment meta <$> segments)
       ∧ (gomason.Placeholder gomason.FieldPackage ∈ segments ->
          Spec.contains (gomason.Package meta) (rendered extra))
       ∧ (gomason.Placeholder gomason.FieldVersion ∈ segments ->
          Spec.contains (gomason.Version meta) (rendered extra))
       ∧ (gomason.Placeholder gomason.FieldDescription ∈ segments ->
          Spec.contains (gomason.Description meta) (rendered extra))).
Proof.
  intros st' text_of rendered Hread Hwrite Htemplates Hapart Hdistinct Hnodir.
  destruct (extras_rendered sys template_syntax meta workdir verbose Hread Hwrite
              extras st Htemplates Hapart Hdistinct Hnodir)
    as (Hr & Htrace & Hfiles & Hrest).
  assert (BuildExtras st
          = (Ok None,
             snd (for_range extras
                    (gomason.buildExtra sys template_syntax meta workdir verbose) st)))
    as Hrun.
  { unfold gomason.BuildExtras, bind.
    destruct (for_range extras _ st) as [r s]. simpl in Hr. by subst r. }
  subst st'. rewrite Hrun. simpl.
  split; [done|]. split; [exact Htrace|]. split; [|split; [exact Hrest|]].
  - intros extra Hin. eexists. split; [exact (Hfiles extra Hin)|].
    unfold Behaviour.mode_on_disk. split.
    + by intros ->.
    + by intros old oldmode ->.
  - intros extra segments Hin Hsyntax.
    assert (rendered extra
            = String.concat EmptyString (gomason.render_segment meta <$> segments))
      as Hrendered.
    { subst rendered. simpl. unfold gomason.ParseTemplateForMetadata. by rewrite Hsyntax. }
    split; [exact Hrendered|]. rewrite Hrendered.
    repeat split; apply placeholder_rendered.
Qed.

End Extras.

Lemma BuildExtras_renders_witness :
  (∀ extra, extra ∈ gomason.Extras (gomason.BuildInfo tool) ->
     ∃ text tmode segments,
       files (started_in "/work/src" templates) !! ("/work/src" +:+ "/" +:+ gomason.Template extra)
         = Some (File text tmode)
       ∧ one_segment text = inl segments)
  ∧ NoDup ((fun extra => "/work/src" +:+ "/" +:+ gomason.FileName extra)
             <$> gomason.Extras (gomason.BuildInfo tool))
  ∧ gomason.BuildExtras quiet one_segment tool "/work/src" false
      (started_in "/work/src" templates)
    = (Ok None,
       mkOS (<["/work/src/install.sh" := File "acme/widget 1.2.3" 493]> templates)
         "/work/src"
         [CallReadFile "/work/src/install.tmpl";
          CallWriteFile "/work/src/install.sh" "acme/widget 1.2.3" 493])
  ∧ ∃ mode,
      files (snd (gomason.BuildExtras quiet one_segment tool "/work/src" false
                    (started_in "/work/src" templates))) !! "/work/src/install.sh"
      = Some (File "acme/widget 1.2.3" mode)
      ∧ mode = Z.land 493 (Z.lnot (sys_umask quiet)).
Proof.
  assert (∀ extra, extra ∈ gomason.Extras (gomason.BuildInfo tool) -> extra = installer)
    as Honly.
  { intros extra Hin. by apply list_elem_of_singleton in Hin. }
  assert (∀ extra, extra ∈ gomason.Extras (gomason.BuildInfo tool) ->
            ∃ text tmode segments,
              files (started_in "/work/src" templates)
                !! ("/work/src" +:+ "/" +:+ gomason.Template extra)
                = Some (File text tmode)
              ∧ one_segment text = inl segments) as Htemplates.
  { intros extra ->%Honly. by eexists _, _, _. }
  assert (NoDup ((fun extra => "/work/src" +:+ "/" +:+ gomason.FileName extra)
                   <$> gomason.Extras (gomason.BuildInfo tool))) as Hdistinct.
  { apply NoDup_singleton. }
  split; [exact Htemplates|]. split; [exact Hdistinct|]. split; [reflexivity|].
  destruct (BuildExtras_renders quiet one_segment tool "/work/src" false
              (started_in "/work/src" templates)
              (fun _ _ => eq_refl) (fun _ _ _ _ => eq_refl) Htemplates)
    as (_ & _ & Hfiles & _); [| exact Hdistinct | |].
  - intros e e' ->%Honly ->%Honly. vm_compute. discriminate.
  - intros extra ->%Honly. vm_compute. discriminate.
  - destruct (Hfiles installer) as (mode & Hfile & Hnew & _); [by left|].
    exists mode. split; [exact Hfile|]. apply Hnew. reflexivity.
Defined.

(** An output that is already there and is not executable stays so when
    the artifact is marked executable, and under a umask that leaves
    nothing to group and others a new output of an executable artifact
    has the owner's execute bit only: the file on disk does not have the
    owner, group and other execute bits whenever the flag is true. *)
Lemma executable_flag_is_a_request :
  gomason.Executable installer = true
  ∧ files (snd (gomason.BuildExtras quiet one_segment tool "/work/src" false
                  (started_in "/work/src" Cases.rendered_before))) !! "/work/src/install.sh"
    = Some (File "acme/widget 1.2.3" 420)
  ∧ Spec.executable_bits 420 = false
  ∧ files (snd (gomason.BuildExtras Cases.private one_segment tool "/work/src" false
                  (started_in "/work/src" templates))) !! "/work/src/install.sh"
    = Some (File "acme/widget 1.2.3" 448)
  ∧ Spec.executable_bits 448 = false.
Proof. repeat split; reflexivity. Qed.

(** * The whole run, stage by stage *)


Section Stages.
Context (sys : Sys).
Context (CreateGoPath : string -> M (string * option error)).
Context (ReadMetadata : string -> M (mason.Metadata * option error)).
Context (GitSSHUrlFromPackage : string -> string).
Context (Checkout : string -> string -> string -> bool -> M (option error)).

Local Abbreviation WholeShebang :=
  (mason.WholeShebang sys CreateGoPath ReadMetadata GitSSHUrlFromPackage Checkout).
Local Abbreviation runPipeline :=
  (mason.runPipeline sys CreateGoPath ReadMetadata GitSSHUrlFromPackage Checkout).
Local Abbreviation Build := (mason.Build sys ReadMetadata Checkout).
Local Abbreviation with_workdir := Spec.with_workdir.
Local Abbreviation with_gopath := Spec.with_gopath.
Local Abbreviation with_package := (Spec.with_package GitSSHUrlFromPackage).

(** A run that has its working directory is its pipeline in the workspace
    it settles, followed by the release of that workspace. *)
Lemma WholeShebang_settled (workDir branch : string) (build sign publish verbose : bool)
    (st : OS) (dir : string) (s1 : OS) :
  sys_fail sys CallGetwd st = None ->
  Behaviour.settles sys workDir st dir s1 ->
  WholeShebang workDir branch build sign publish verbose st
  = (fst (runPipeline dir (wd st) branch build sign publish verbose s1),
     Behaviour.released sys workDir dir
       (snd (runPipeline dir (wd st) branch build sign publish verbose s1))).
Proof.
  intros Hgetwd Hsettles.
  unfold mason.WholeShebang, bind, Getwd, defer, Behaviour.settles, Behaviour.released in *.
  rewrite Hgetwd. simpl.
  destruct (String.eqb workDir EmptyString).
  - destruct Hsettles as [temperr ->].
    by destruct (mason.runPipeline _ _ _ _ _ _ _ _ _ _ _ _ s1).
  - destruct Hsettles as [-> ->].
    by destruct (mason.runPipeline _ _ _ _ _ _ _ _ _ _ _ _ _).
Qed.


(** The pipeline once the tests have passed and Build has returned: its
    result is that of the collection of the binaries. *)
Lemma runPipeline_tested (dir cwd branch : string) (sign publish verbose : bool)
    (s1 s2 s3 s4 s5 s6 s7 s8 : OS) (gopath tail : string) (descriptor : mason.Metadata)
    (builderr : option error) :
  let package := mason.Package descriptor in
  let md := with_package dir gopath descriptor in
  CreateGoPath dir s1 = (Ok (gopath, None), s2) ->
  mason.GovendorInstall sys gopath verbose s2 = (Ok None, s3) ->
  ReadMetadata "metadata.json" s3 = (Ok (descriptor, None), s4) ->
  Checkout gopath package branch verbose s4 = (Ok None, s5) ->
  mason.GovendorSync sys gopath package verbose s5 = (Ok None, s6) ->
  mason.GoTest sys gopath package verbose s6 = (Ok None, s7) ->
  Build gopath package branch verbose s7 = (Ok builderr, s8) ->
  mason.at_last (Split package slash) = Ok tail ->
  runPipeline dir cwd branch true sign publish verbose s1
  = match mason.collectBinaries sys gopath cwd package tail md
            (mason.BuildTargets descriptor) s8 with
    | (Ok (Some values), s9) => (Ok values, s9)
    | (Ok None, s9) => (Ok (md, None), s9)
    | (Panic reason, s9) => (Panic reason, s9)
    end.
Proof.
  intros package md Hgopath Hinstall Hread Hcheckout Hsync Htest Hbuild Htail.
  unfold mason.runPipeline.
  unfold bind at 1. rewrite Hgopath. cbn beta iota.
  unfold bind at 1. rewrite Hinstall. cbn beta iota.
  unfold bind at 1. rewrite Hread. cbn beta iota zeta.
  unfold bind at 1. fold package. rewrite Hcheckout. cbn beta iota.
  unfold bind at 1. rewrite Hsync. cbn beta iota.
  unfold bind at 1. rewrite Htest. cbn beta iota.
  unfold bind at 1. rewrite Hbuild. cbn beta iota zeta.
  unfold bind at 1, lift. rewrite Htail. cbn beta iota.
  unfold bind.
  by destruct (mason.collectBinaries _ _ _ _ _ _ _ _) as [[[values|]|reason] s9].
Qed.


End Stages.

Lemma trace_released (sys : Sys) (workDir dir : string) (s : OS) :
  trace (Behaviour.released sys workDir dir s)
  = trace s ++ Behaviour.release_calls workDir dir.
Proof.
  unfold Behaviour.released, Behaviour.release_calls, RemoveAll.
  destruct (String.eqb workDir EmptyString); [|by rewrite app_nil_r].
  destruct (sys_fail sys _ s); [done|]. by destruct (String.eqb dir EmptyString).
Qed.

Section Collecting.
Context (sys : Sys) (gopath cwd : string) (parent : option string) (tail : string).
Context (md : mason.Metadata).

Local Abbreviation package := (Spec.package_path parent tail).
Local Abbreviation built := (Spec.built_binary gopath package tail).
Local Abbreviation collected := (Spec.collected_binary cwd tail).
Local Abbreviation moves := (Spec.moves gopath cwd package tail).
Local Abbreviation collectBinaries :=
  (mason.collectBinaries sys gopath cwd package tail md).

(** The loop over the targets: all the binaries are checked and moved, or
    the loop returns at the first that is not there or cannot be moved. *)
Lemma collectBinaries_run (platforms : list (string * string)) (st : OS) :
  Forall Spec.well_formed platforms ->
  let r := fst (collectBinaries (Spec.platform_string <$> platforms) st) in
  let st' := snd (collectBinaries (Spec.platform_string <$> platforms) st) in
  (r = Ok None ∧ trace st' = trace st ++ (platforms ≫= moves))
  ∨ (∃ done platform rest s staterr,
       platforms = done ++ platform :: rest
       ∧ collectBinaries (Spec.platform_string <$> done) st = (Ok None, s)
       ∧ trace s = trace st ++ (done ≫= moves)
       ∧ Stat sys (built platform) s = (Ok staterr, record (CallStat (built platform)) s)
       ∧ ((IsNotExist staterr = true
           ∧ r = Ok (Some (md, Some (Spec.missing_binary (built platform))))
           ∧ st' = record (CallStat (built platform)) s)
          ∨ (∃ e,
               IsNotExist staterr = false
               ∧ Rename sys (built platform) (collected platform)
                   (record (CallStat (built platform)) s) = (Ok (Some e), st')
               ∧ r = Ok (Some (md, Some (Spec.not_collected e (built platform))))
               ∧ trace st' = trace s ++ moves platform))).
Proof.
  intros Hplatforms. unfold mason.collectBinaries. revert st.
  induction Hplatforms as [|platform platforms Hwf _ IH]; intros st.
  { left. simpl. by rewrite app_nil_r. }
  rewrite fmap_cons, for_range_cons.
  destruct (Stat_returns sys (built platform) st) as [staterr Hstat].
  destruct (IsNotExist staterr) eqn:Hmissing.
  { assert (mason.collectBinary sys gopath cwd package tail md
              (Spec.platform_string platform) st
            = (Ok (Some (md, Some (Spec.missing_binary (built platform)))),
               record (CallStat (built platform)) st)) as ->.
    { rewrite (collectBinary_step _ _ _ _ _ _ _ _ Hwf). unfold bind.
      by rewrite Hstat, Hmissing. }
    right. exists [], platform, platforms, st, staterr. simpl.
    rewrite app_nil_r. repeat split; try done. by left. }
  destruct (Rename_returns sys (built platform) (collected platform)
              (record (CallStat (built platform)) st)) as (err & st2 & Hrename & Htrace).
  simpl in Htrace. rewrite <- app_assoc in Htrace.
  assert (mason.collectBinary sys gopath cwd package tail md
            (Spec.platform_string platform) st
          = (match err with
             | Some e => Ok (Some (md, Some (Spec.not_collected e (built platform))))
             | None => Ok None
             end, st2)) as Hbody.
  { rewrite (collectBinary_step _ _ _ _ _ _ _ _ Hwf). unfold bind.
    rewrite Hstat, Hmissing, Hrename. by destruct err. }
  rewrite Hbody. destruct err as [e|].
  { right. exists [], platform, platforms, st, staterr. simpl.
    rewrite app_nil_r. repeat split; try done. right. by exists e. }
  destruct (IH st2) as [[Hr Htrace']
    |(done & p & rest & s & staterr' & -> & Hdone & Htrace_s & Hstat' & Hcases)].
  - left. split; [exact Hr|]. rewrite Htrace', Htrace, <- app_assoc. done.
  - right. exists (platform :: done), p, rest, s, staterr'.
    split; [done|]. split; [by rewrite fmap_cons, for_range_cons, Hbody|].
    split; [rewrite Htrace_s, Htrace, <- app_assoc; done|].
    split; [exact Hstat'|]. exact Hcases.
Qed.

End Collecting.
Section Collection.
Context (sys : Sys).
Context (CreateGoPath : string -> M (string * option error)).
Context (ReadMetadata : string -> M (mason.Metadata * option error)).
Context (GitSSHUrlFromPackage : string -> string).
Context (Checkout : string -> string -> string -> bool -> M (option error)).

Local Abbreviation WholeShebang :=
  (mason.WholeShebang sys CreateGoPath ReadMetadata GitSSHUrlFromPackage Checkout).

(** C7.  In a run of WholeShebang with build requested whose stages up to
    the tests succeed, once Build has returned, the binary
    [<tail>_<os>_<arch>] of every build target of the descriptor, [tail]
    being the last segment of the package path, is looked for in the
    package directory below the module root, in the order of the
    descriptor.  One that is not there ends the run with a new error that
    names it, without a move and whatever Build returned; one that is
    there is renamed into the directory the run was started in, and a
    rename that fails ends the run with its error wrapped; no binary after
    the first that is missing or cannot be moved is touched.  When all are
    moved the run returns no error. *)
Theorem WholeShebang_collects (workDir branch : string) (sign publish verbose : bool)
    (st s1 s2 s3 s4 s5 s6 s7 s8 : OS) (dir gopath : string) (descriptor : mason.Metadata)
    (builderr : option error) (parent : option string) (tail : string)
    (platforms : list (string * string)) :
  let package := mason.Package descriptor in
  let md := Spec.with_package GitSSHUrlFromPackage dir gopath descriptor in
  let built := Spec.built_binary gopath package tail in
  let collected := Spec.collected_binary (wd st) tail in
  let moves := Spec.moves gopath (wd st) package tail in
  let run := WholeShebang workDir branch true sign publish verbose st in
  let released := Behaviour.released sys workDir dir in
  let release := Behaviour.release_calls workDir dir in
  sys_fail sys CallGetwd st = None ->
  Behaviour.settles sys workDir st dir s1 ->
  CreateGoPath dir s1 = (Ok (gopath, None), s2) ->
  mason.GovendorInstall sys gopath verbose s2 = (Ok None, s3) ->
  ReadMetadata "metadata.json" s3 = (Ok (descriptor, None), s4) ->
  Checkout gopath package branch verbose s4 = (Ok None, s5) ->
  mason.GovendorSync sys gopath package verbose s5 = (Ok None, s6) ->
  mason.GoTest sys gopath package verbose s6 = (Ok None, s7) ->
  mason.Build sys ReadMetadata Checkout gopath package branch verbose s7
    = (Ok builderr, s8) ->
  package = Spec.package_path parent tail ->
  Spec.no_slash tail = true ->
  mason.BuildTargets descriptor = Spec.platform_string <$> platforms ->
  Forall Spec.well_formed platforms ->
  (∀ platform s,
     Spec.well_formed platform ->
     sys_fail sys (CallStat (built platform)) s = None ->
     mason.collectBinary sys gopath (wd st) package tail md (Spec.platform_string platform) s
     = match files s !! built platform with
       | None =>
           (Ok (Some (md, Some (Spec.missing_binary (built platform)))),
            record (CallStat (built platform)) s)
       | Some n =>
           match sys_fail sys (CallRename (built platform) (collected platform))
                   (record (CallStat (built platform)) s) with
           | Some e =>
               (Ok (Some (md, Some (Spec.not_collected e (built platform)))),
                record (CallRename (built platform) (collected platform))
                  (record (CallStat (built platform)) s))
           | None =>
               (Ok None,
                record (CallRename (built platform) (collected platform))
                  (set_files
                     (<[collected platform := n]> (delete (built platform) (files s)))
                     (record (CallStat (built platform)) s)))
           end
       end)
  ∧ ((fst run = Ok (md, None)
      ∧ trace (snd run) = trace s8 ++ (platforms ≫= moves) ++ release)
     ∨ (∃ done platform rest s staterr,
       platforms = done ++ platform :: rest
       ∧ mason.collectBinaries sys gopath (wd st) package tail md
           (Spec.platform_string <$> done) s8 = (Ok None, s)
       ∧ trace s = trace s8 ++ (done ≫= moves)
       ∧ Stat sys (built platform) s = (Ok staterr, record (CallStat (built platform)) s)
       ∧ ((IsNotExist staterr = true
           ∧ run = (Ok (md, Some (Spec.missing_binary (built platform))),
                    released (record (CallStat (built platform)) s))
           ∧ trace (snd run)
             = trace s8 ++ (done ≫= moves) ++ [CallStat (built platform)] ++ release)
          ∨ (∃ e s',
               IsNotExist staterr = false
               ∧ Rename sys (built platform) (collected platform)
                   (record (CallStat (built platform)) s) = (Ok (Some e), s')
               ∧ run = (Ok (md, Some (Spec.not_collected e (built platform))), released s')
               ∧ trace (snd run)
                 = trace s8 ++ (done ≫= moves) ++ moves platform ++ release)))).
Proof.
  intros package md built collected moves run released release Hgetwd Hsettles
    Hgopath Hinstall Hread Hcheckout Hsync Htest Hbuild Hpackage Htail Htargets Hplatforms.
  assert (run
          = (let result :=
               match mason.collectBinaries sys gopath (wd st) package tail md
                       (mason.BuildTargets descriptor) s8 with
               | (Ok (Some values), s9) => (Ok values, s9)
               | (Ok None, s9) => (Ok (md, None), s9)
               | (Panic reason, s9) => (Panic reason, s9)
               end in
             (fst result, released (snd result)))) as Hrun.
  { subst run.
    rewrite (WholeShebang_settled sys CreateGoPath ReadMetadata GitSSHUrlFromPackage
               Checkout _ _ _ _ _ _ _ _ _ Hgetwd Hsettles).
    rewrite (runPipeline_tested sys CreateGoPath ReadMetadata GitSSHUrlFromPackage Checkout
               dir (wd st) branch sign publish verbose s1 s2 s3 s4 s5 s6 s7 s8 gopath tail
               descriptor builderr Hgopath Hinstall Hread Hcheckout Hsync Htest Hbuild).
    - reflexivity.
    - fold package. rewrite Hpackage. by apply package_tail. }
  rewrite Htargets in Hrun. rewrite Hrun. clear Hrun Hbuild Hcheckout Hsync Htest.
  subst built collected moves released release. rewrite Hpackage. clear Hpackage.
  split.
  { intros platform s Hwf Hstat.
    rewrite (collectBinary_step sys gopath (wd st) parent tail md platform s Hwf).
    unfold bind, Stat, Rename. rewrite Hstat.
    destruct (files s !! _) as [n|] eqn:Hfile; [|done]. simpl.
    destruct (sys_fail sys (CallRename _ _) _); [done|]. by rewrite Hfile. }
  destruct (collectBinaries_run sys gopath (wd st) parent tail md platforms s8 Hplatforms)
    as [[Hr Htrace]
       |(done & platform & rest & s & staterr & -> & Hdone & Htrace & Hstat & Hcases)].
  - left.
    destruct (mason.collectBinaries _ _ _ _ _ _ _ s8) as [r s9]. simpl in Hr, Htrace.
    subst r. simpl. split; [done|].
    by rewrite trace_released, Htrace, <- app_assoc.
  - right. exists done, platform, rest, s, staterr.
    split; [done|]. split; [exact Hdone|]. split; [exact Htrace|]. split; [exact Hstat|].
    destruct (mason.collectBinaries _ _ _ _ _ _
                (Spec.platform_string <$> done ++ platform :: rest) s8) as [r s9].
    simpl in Hcases.
    destruct Hcases as [(Hmissing & -> & ->)|(e & Hmissing & Hrename & -> & Htrace')].
    + left. split; [done|]. simpl. split; [done|].
      rewrite trace_released. simpl. by rewrite Htrace, <- !app_assoc.
    + right. exists e, s9. split; [done|]. split; [exact Hrename|]. simpl.
      split; [done|].
      by rewrite trace_released, Htrace', Htrace, <- !app_assoc.
Qed.

End Collection.

Lemma WholeShebang_collects_witness :
  sys_fail quiet CallGetwd (started_in "/home/dev/widget" stale_workspace) = None
  ∧ mason.Package (widget tester ∅)
    = Spec.package_path (Some "github.com/nikogura") "gomason"
  ∧ mason.BuildTargets (widget tester ∅) = Spec.platform_string <$> [("linux", "amd64")]
  ∧ Forall Spec.well_formed [("linux", "amd64")]
  ∧ trace (snd (run_with quiet CreateGoPath "/work" true stale_workspace))
    = [CallGetwd;
       CallRun (Command "go" ["get"; "github.com/kardianos/govendor"]
                  ["HOME=/home/dev"; "GOPATH=/work/go"]);
       CallChdir "/work/go/src/github.com/nikogura/gomason";
       CallRun (Command "/work/go/bin/govendor" ["sync"]
                  ["HOME=/home/dev"; "GOPATH=/work/go"]);
       CallChdir "/work/go/src/github.com/nikogura/gomason";
       CallRun (Command "go" ["test"; "-v"; "./..."]
                  ["HOME=/home/dev"; "GOPATH=/work/go"]);
       CallStat "/work/go/go/bin/gox"; CallLookPath "go";
       CallRun (Command "/usr/bin/go" ["get"; "github.com/mitchellh/gox"]
                  ["HOME=/home/dev"; "GOPATH=/work/go"]);
       CallStat "/work/go/github.com/nikogura/gomason/metadata.json";
       CallChdir "/work/go/src/github.com/nikogura/gomason";
       CallRun (Command "bash"
                  ["-c"; "/work/go/bin/gox -osarch=" +:+ dquote +:+ "linux/amd64" +:+ dquote]
                  ["HOME=/home/dev"; "GOPATH=/work/go"]);
       CallStat "/work/go/src/github.com/nikogura/gomason/gomason_linux_amd64";
       CallRename "/work/go/src/github.com/nikogura/gomason/gomason_linux_amd64"
                  "/home/dev/widget/gomason_linux_amd64"].
Proof.
  assert (Forall Spec.well_formed [("linux", "amd64")]) as Hwf.
  { constructor; [split; reflexivity | constructor]. }
  split; [reflexivity|]. split; [reflexivity|]. split; [reflexivity|]. split; [exact Hwf|].
  destruct (proj2 (WholeShebang_collects quiet CreateGoPath ReadMetadata GitSSHUrlFromPackage
                     Checkout "/work" "master" true false false
                     (started_in "/home/dev/widget" stale_workspace) _ _ _ _ _ _ _ _
                     "/work" _ _ _ (Some "github.com/nikogura") "gomason" [("linux", "amd64")]
                     eq_refl (conj eq_refl eq_refl) eq_refl eq_refl eq_refl eq_refl eq_refl
                     eq_refl eq_refl eq_refl eq_refl eq_refl Hwf))
    as [[_ Htrace]|(done & platform & rest & s & staterr & _ & _ & _ & _ & Hcases)].
  - exact Htrace.
  - destruct Hcases as [(_ & Hrun & _)|(e & s' & _ & _ & Hrun & _)];
      apply (f_equal fst) in Hrun; vm_compute in Hrun; discriminate Hrun.
Defined.

(** C6.  Without a workspace path, on a system where the temporary
    directory cannot be made, WholeShebang does not allocate a workspace
    and does not stop: the error of TempDir is wrapped and not returned,
    the pipeline runs with the empty path for workspace, the module root
    it makes below that path is left on disk, and the cleanup at the end
    is the removal of the empty path, which removes nothing; the run
    returns no error and a record whose WorkDir is empty. *)
Theorem WholeShebang_without_temporary_directory :
  fst (TempDir (failing Cases.tempdir_fails) EmptyString "gomason"
         (record CallGetwd (started_in "/home/dev/widget" ∅)))
    = Ok (EmptyString, Some (ErrSys "mkdir /tmp: read-only file system"))
  ∧ fst (run_with (failing Cases.tempdir_fails) CreateGoPath EmptyString false ∅)
    = Ok (Spec.with_package GitSSHUrlFromPackage EmptyString "/go" (widget tester ∅), None)
  ∧ trace (snd (run_with (failing Cases.tempdir_fails) CreateGoPath EmptyString false ∅))
    = [CallGetwd; CallTempDir EmptyString "gomason";
       CallRun (Command "go" ["get"; "github.com/kardianos/govendor"]
                  ["HOME=/home/dev"; "GOPATH=/go"]);
       CallChdir "/go/src/github.com/nikogura/gomason";
       CallRun (Command "/go/bin/govendor" ["sync"] ["HOME=/home/dev"; "GOPATH=/go"]);
       CallChdir "/go/src/github.com/nikogura/gomason";
       CallRun (Command "go" ["test"; "-v"; "./..."] ["HOME=/home/dev"; "GOPATH=/go"]);
       CallRemoveAll EmptyString]
  ∧ files (snd (run_with (failing Cases.tempdir_fails) CreateGoPath EmptyString false ∅))
    = {[ "/go" := Dir ]}.
Proof. repeat split; reflexivity. Qed.
